(** * Agon SDK: the request-lifecycle protocol

    A shallow embedding of the consumer orchestrator ([AgonClient.fetch],
    packages/client/src/client.ts) and of the merchant interceptor
    ([AgonPlatformCore], [withAgon], [agonMiddleware],
    packages/platform/src/{core,next,express}.ts), together with the shared
    error type (packages/types/src/errors.ts).

    JavaScript values are an inductive type, [async] code is a small
    trace-and-exception monad, and everything outside the SDK (the Agon
    backend, the merchant's handler, the consumer's callbacks, the clock) is
    a record of functions of the history of the call. *)

From Stdlib Require Import ZArith String Ascii List Lia Bool DecimalString.
From stdpp Require Import base option list gmap strings.

Local Open Scope Z_scope.
Local Set Warnings "-register-all".

(** ** JavaScript values *)
Module Js.

(** A JavaScript number, as far as the protocol needs one: amounts in
    smallest units, HTTP statuses and time-to-live values are integers;
    [Number(bigint)] can overflow to an infinity. *)
Inductive number :=
| Finite (z : Z)
| Infinity (negative : bool).

(** Values as [JSON.parse] and object literals produce them.  The fields of
    an object are listed in the order they were written; as in an object
    literal, a later binding of a key overrides an earlier one. *)
Inductive JVal :=
| JUndefined
| JNull
| JBool (b : bool)
| JNum (n : number)
| JStr (s : string)
| JArr (items : list JVal)
| JObj (fields : list (string * JVal)).

Definition JInt (z : Z) : JVal := JNum (Finite z).

(** [x == null]: the test behind [??] and [?.]. *)
Definition is_nullish (v : JVal) : bool :=
  match v with
  | JUndefined | JNull => true
  | _ => false
  end.

(** [a ?? b] *)
Definition nullish_or (a b : JVal) : JVal :=
  if is_nullish a then b else a.

(** [!!v] *)
Definition truthy (v : JVal) : bool :=
  match v with
  | JUndefined | JNull => false
  | JBool b => b
  | JNum (Finite z) => negb (z =? 0)
  | JNum (Infinity _) => true
  | JStr s => negb (String.eqb s "")
  | JArr _ | JObj _ => true
  end.

(** The last binding of [k] among [fields]. *)
Fixpoint obj_get (k : string) (fields : list (string * JVal)) : option JVal :=
  match fields with
  | [] => None
  | (k', v) :: rest =>
      match obj_get k rest with
      | Some w => Some w
      | None => if String.eqb k' k then Some v else None
      end
  end.

(** [v.k] for a [v] that is neither [null] nor [undefined].  Only the
    property names of the protocol are ever read ([error], [message],
    [details], [status], ...), none of which primitives or arrays own. *)
Definition member (v : JVal) (k : string) : JVal :=
  match v with
  | JObj fields => default JUndefined (obj_get k fields)
  | _ => JUndefined
  end.

(** [{ ...o, k: v }] and [o.k = v]. *)
Definition obj_set (k : string) (v : JVal) (fields : list (string * JVal))
  : list (string * JVal) :=
  fields ++ [(k, v)].

(** [a === b] against a string constant. *)
Definition is_string (v : JVal) (s : string) : bool :=
  match v with
  | JStr s' => String.eqb s' s
  | _ => false
  end.

(** [v === true] *)
Definition is_true (v : JVal) : bool :=
  match v with
  | JBool true => true
  | _ => false
  end.

(** [Object.keys(v).length] *)
Definition keys_length (v : JVal) : Z :=
  match v with
  | JObj fields => Z.of_nat (length (remove_dups (fields.*1)))
  | JArr items => Z.of_nat (length items)
  | JStr s => Z.of_nat (String.length s)
  | _ => 0
  end.

(** Decimal digits of an integer, as a template literal prints it. *)
Definition show_Z (z : Z) : string := NilZero.string_of_int (Z.to_int z).

Definition show_number (n : number) : string :=
  match n with
  | Finite z => show_Z z
  | Infinity false => "Infinity"
  | Infinity true => "-Infinity"
  end.

(** [String(v)] *)
Fixpoint ToString (v : JVal) : string :=
  match v with
  | JUndefined => "undefined"
  | JNull => "null"
  | JBool true => "true"
  | JBool false => "false"
  | JNum n => show_number n
  | JStr s => s
  | JArr items =>
      (fix join (l : list JVal) : string :=
         match l with
         | [] => ""
         | [x] => if is_nullish x then "" else ToString x
         | x :: rest =>
             (if is_nullish x then "" else ToString x) +:+ "," +:+ join rest
         end) items
  | JObj _ => "[object Object]"
  end.

(** [s.toLowerCase()] on ASCII letters. *)
Definition lower_ascii (c : ascii) : ascii :=
  let n := N_of_ascii c in
  if ((65 <=? n) && (n <=? 90))%N then ascii_of_N (n + 32) else c.

Fixpoint toLowerCase (s : string) : string :=
  match s with
  | EmptyString => EmptyString
  | String c rest => String (lower_ascii c) (toLowerCase rest)
  end.

(** [n.toString(36)] for a non-negative integer. *)
Definition digit36 (d : Z) : ascii :=
  if d <? 10 then ascii_of_N (Z.to_N (48 + d)) else ascii_of_N (Z.to_N (87 + d)).

Fixpoint toString36_go (fuel : nat) (n : Z) (acc : string) : string :=
  match fuel with
  | O => acc
  | S fuel' =>
      let acc' := String (digit36 (n mod 36)) acc in
      if n <? 36 then acc' else toString36_go fuel' (n / 36) acc'
  end.

Definition toString36 (n : Z) : string :=
  toString36_go (S (Z.to_nat (Z.log2 n))) n "".

(** *** [Number(bigint)]

    The nearest double, ties to the even significand; a magnitude that
    rounds to 2^1024 or more is an infinity.  A double has 53 significant
    bits. *)
Definition round_to_double (a : Z) : Z :=
  let e := Z.log2 a - 52 in
  if e <=? 0 then a
  else
    let q := Z.shiftr a e in
    let r := Z.land a (Z.ones e) in
    let half := Z.shiftl 1 (e - 1) in
    let q' := if (half <? r) || ((r =? half) && Z.odd q) then q + 1 else q in
    Z.shiftl q' e.

Definition Number_of_bigint (z : Z) : number :=
  let m := round_to_double (Z.abs z) in
  if 2 ^ 1024 <=? m then Infinity (z <? 0) else Finite (Z.sgn z * m).

(** [Number.MAX_SAFE_INTEGER] *)
Definition MAX_SAFE_INTEGER : Z := 2 ^ 53 - 1.

End Js.


(** ** Shared types: packages/types *)
Module Types.
Import Js.

(** [AgonError] (errors.ts).  [message] is what [Error] makes of the value
    it is given; [details] is never [null] or [undefined]. *)
Record AgonError := {
  code : JVal;
  statusCode : Z;
  message : string;
  details : JVal;
}.

(** [new AgonError(statusCode, { error, message, details })] *)
Definition new_AgonError (status : Z) (error msg dets : JVal) : AgonError :=
  {| code := error;
     statusCode := status;
     message := match msg with JUndefined => "" | _ => ToString msg end;
     details := nullish_or dets (JObj []) |}.

(** [new AgonError(statusCode, data as AgonErrorBody)] for a parsed reply. *)
Definition AgonError_of_body (status : Z) (data : JVal) : AgonError :=
  new_AgonError status (member data "error") (member data "message")
    (member data "details").

Definition is_ (e : AgonError) (c : string) : bool := is_string (code e) c.

Definition isInsufficientBalance (e : AgonError) : bool :=
  is_string (code e) "insufficient_balance"
  || is_string (code e) "insufficient_available_balance"
  || is_string (code e) "withdrawal_exceeds_available".

Definition isAuthError (e : AgonError) : bool :=
  is_string (code e) "invalid_api_key"
  || is_string (code e) "api_key_revoked"
  || is_string (code e) "invalid_platform_key".

Definition isSpendingLimitExceeded (e : AgonError) : bool :=
  is_string (code e) "spending_limit_exceeded".

Definition isOverrideAvailable (e : AgonError) : bool :=
  is_string (code e) "spending_limit_exceeded"
  && is_true (member (details e) "override_available").

Definition getOverrideSignMessage (e : AgonError) : JVal :=
  if negb (isOverrideAvailable e) then JNull
  else nullish_or (member (details e) "sign_message") JNull.

Definition toJSON (e : AgonError) : JVal :=
  JObj [ ("error", code e);
         ("message", JStr (message e));
         ("details", if 0 <? keys_length (details e) then details e
                     else JUndefined) ].

(** What a [throw] carries. *)
Inductive Thrown :=
| ThrownAgon (e : AgonError)
| TypeError (what : string)
| RangeError (what : string)
| SyntaxError (what : string)
| AbortError
| ThrownError (what : string).

(** [err instanceof AgonError] *)
Definition instanceof_AgonError (t : Thrown) : bool :=
  match t with
  | ThrownAgon _ => true
  | _ => false
  end.

(** How an evaluation ends. *)
Inductive Completion (A : Type) :=
| Normal (a : A)
| Abrupt (t : Thrown).
Arguments Normal {A} a.
Arguments Abrupt {A} t.

(** [v.k], which throws on [null] and [undefined]. *)
Definition get_prop (v : JVal) (k : string) : Completion JVal :=
  if is_nullish v then Abrupt (TypeError "Cannot read properties of null")
  else Normal (member v k).

(** [BigInt(n)] of a number: a [RangeError] unless [n] is an integer. *)
Definition BigInt_of_number (n : number) : Completion Z :=
  match n with
  | Finite z => Normal z
  | Infinity _ => Abrupt (RangeError "cannot be converted to a BigInt")
  end.

(** [AGON_HEADERS] (config.ts) *)
Definition CONSUMER_KEY : string := "X-AGON-KEY".
Definition CONSUMER_TOKEN : string := "X-AGON-TOKEN".
Definition PAYMENT_REQUIRED : string := "PAYMENT-REQUIRED".
Definition PAYMENT_SIGNATURE : string := "PAYMENT-SIGNATURE".
Definition PAYMENT_RESPONSE : string := "PAYMENT-RESPONSE".

(** A static price: [string | number | bigint]. *)
Inductive Price :=
| PriceBigint (p : Z)
| PriceNumber (n : number)
| PriceText (s : string).

(** [parsePrice] (config.ts).  The text branch runs [parseFloat], a
    floating-point product and [Math.round]; its outcome on each string is
    the argument [text_units] (an [Abrupt] where the source throws). *)
Definition parsePrice (text_units : string -> Completion Z) (price : Price)
  : Completion Z :=
  match price with
  | PriceBigint p => Normal p
  | PriceNumber n => BigInt_of_number n
  | PriceText s => text_units s
  end.

(** An HTTP response as the SDK reads it: [res.json()] yields [body] when
    the payload is JSON and throws otherwise. *)
Record Response := {
  status : Z;
  headers : gmap string string;
  body : option JVal;
}.

(** [res.ok] *)
Definition ok (r : Response) : bool := (200 <=? status r) && (status r <=? 299).

(** [Response.json(data, { status })]: a [RangeError] unless the status
    lies in 200..599. *)
Definition Response_json (data : JVal) (st : Z) : Completion Response :=
  if (200 <=? st) && (st <=? 599) then
    Normal {| status := st;
              headers := {[ "content-type" := "application/json" ]};
              body := Some data |}
  else Abrupt (RangeError "init.status is out of range").

(** *** Asynchronous code

    A computation maps the history of the call (the events so far, oldest
    first) to its completion and the extended history. *)
Definition Eff (E A : Type) : Type := list E -> Completion A * list E.

Definition ret {E A} (a : A) : Eff E A := fun tr => (Normal a, tr).

Definition throw {E A} (t : Thrown) : Eff E A := fun tr => (Abrupt t, tr).

Definition bind {E A B} (c : Eff E A) (k : A -> Eff E B) : Eff E B :=
  fun tr =>
    match c tr with
    | (Normal a, tr') => k a tr'
    | (Abrupt t, tr') => (Abrupt t, tr')
    end.

(** [try { c } catch (err) { h err }] *)
Definition try_catch {E A} (c : Eff E A) (h : Thrown -> Eff E A) : Eff E A :=
  fun tr =>
    match c tr with
    | (Normal a, tr') => (Normal a, tr')
    | (Abrupt t, tr') => h t tr'
    end.

(** [try { x = c } catch (err) { ... }] with the two ways out told apart
    afterwards. *)
Definition attempt {E A} (c : Eff E A) : Eff E (Completion A) :=
  fun tr => let (r, tr') := c tr in (Normal r, tr').

(** A pure evaluation inside asynchronous code. *)
Definition lift {E A} (c : Completion A) : Eff E A := fun tr => (c, tr).

(** One interaction with the outside: the event is recorded and the outside
    answers from the history before it. *)
Definition perform {E A} (e : E) (answer : list E -> Completion A) : Eff E A :=
  fun tr => (answer tr, tr ++ [e]).

End Types.

Declare Scope eff_scope.
Delimit Scope eff_scope with eff.
Notation "x <- c ;; k" := (Types.bind c (fun x => k))
  (at level 100, c at next level, right associativity) : eff_scope.
Notation "c ;;; k" := (Types.bind c (fun _ => k))
  (at level 100, k at level 200, right associativity) : eff_scope.

(** ** The merchant side: packages/platform *)
Module Platform.
Import Js Types.
Local Open Scope eff_scope.

(** A value of [Record<string, string | string[] | undefined>]; a key bound
    to [undefined] reads like a key that is not there. *)
Inductive HeaderValue :=
| HString (s : string)
| HArray (l : list string).

Definition header_value (h : option HeaderValue) : JVal :=
  match h with
  | None => JUndefined
  | Some (HString s) => JStr s
  | Some (HArray l) => JArr (JStr <$> l)
  end.

(** What a [PricingFunction] resolves to: [number | bigint]. *)
Inductive Amount :=
| AmountBigint (p : Z)
| AmountNumber (n : number).

(** What the interceptor does to the outside, in order. *)
Inductive Event :=
| Priced
| ClockRead
| RandomRead
| Posted (url : string) (payload : JVal)
| Handled
| Ended (statusCode : Z).

(** What the global [fetch] followed by [res.json()] comes to. *)
Inductive NetOutcome :=
| Replied (r : Response)
| TimedOut
| Unreachable (cause : string).

(** The outside of the interceptor. *)
Record World := {
  text_units : string -> Completion Z;
  now : list Event -> Z;
  random_suffix : list Event -> string;
  backend : list Event -> string -> JVal -> NetOutcome;
}.

Section Core.
Context {Req : Type}.

(** [number | string | PricingFunction] *)
Inductive Pricing :=
| Static (p : Price)
| Dynamic (f : Req -> list Event -> Completion Amount).

(** [AgonPlatformConfig] (config.ts), without its unused hooks. *)
Record AgonPlatformConfig := {
  agonUrl : string;
  platformKey : string;
  pricing : Pricing;
  description : option string;
  mimeType : option string;
  timeout : option Z;
}.

Variable config : AgonPlatformConfig.
Variable world : World.

(** *** [AgonHttpClient] (http.ts) *)

(** [s.replace(/\/$/, "")] *)
Fixpoint strip_trailing_slash (s : string) : string :=
  match s with
  | EmptyString => EmptyString
  | String c EmptyString => if Ascii.eqb c "/" then EmptyString else s
  | String c rest => String c (strip_trailing_slash rest)
  end.

Definition baseUrl : string := strip_trailing_slash (agonUrl config).

Definition client_timeout : Z := default 5000 (timeout config).

(** [err instanceof Error ? err.message : String(err)] *)
Definition thrown_message (t : Thrown) : string :=
  match t with
  | ThrownAgon e => message e
  | TypeError what | RangeError what | SyntaxError what | ThrownError what => what
  | AbortError => "This operation was aborted"
  end.

(** [res.json()] *)
Definition json (r : Response) : Completion JVal :=
  match body r with
  | Some v => Normal v
  | None => Abrupt (SyntaxError "Unexpected token in JSON")
  end.

Definition post (path : string) (payload : JVal) : Eff Event JVal :=
  let url := baseUrl +:+ path in
  try_catch
    (res <- perform (Posted url payload)
              (fun tr => match backend world tr url payload with
                         | Replied r => Normal r
                         | TimedOut => Abrupt AbortError
                         | Unreachable cause => Abrupt (TypeError cause)
                         end) ;;
     data <- lift (json res) ;;
     if negb (ok res) then
       e <- lift (get_prop data "error") ;;
       if truthy e then throw (ThrownAgon (AgonError_of_body (status res) data))
       else throw (ThrownAgon
                     (new_AgonError (status res) (JStr "internal_error")
                        (JStr ("Agon API returned " +:+ show_Z (status res)))
                        JUndefined))
     else ret data)
    (fun err =>
       match err with
       | ThrownAgon _ => throw err
       | AbortError =>
           throw (ThrownAgon
                    (new_AgonError 504 (JStr "internal_error")
                       (JStr ("Agon API request timed out after "
                              +:+ show_Z client_timeout +:+ "ms"))
                       JUndefined))
       | _ =>
           throw (ThrownAgon
                    (new_AgonError 502 (JStr "internal_error")
                       (JStr ("Failed to reach Agon API: " +:+ thrown_message err))
                       JUndefined))
       end).

(** *** [AgonPlatformCore] (core.ts) *)

Definition extractConsumerToken (hdrs : gmap string HeaderValue) : JVal :=
  let token := nullish_or (header_value (hdrs !! toLowerCase CONSUMER_TOKEN))
                          (header_value (hdrs !! CONSUMER_TOKEN)) in
  if negb (truthy token) then JNull
  else match token with
       | JArr items => default JUndefined (head items)
       | _ => token
       end.

Definition extractOverride (hdrs : gmap string HeaderValue) : JVal :=
  let sig := nullish_or (header_value (hdrs !! "x-agon-override-sig"))
                        (header_value (hdrs !! "X-AGON-OVERRIDE-SIG")) in
  let msg := nullish_or (header_value (hdrs !! "x-agon-override-msg"))
                        (header_value (hdrs !! "X-AGON-OVERRIDE-MSG")) in
  if negb (truthy sig) || negb (truthy msg) then JNull
  else
    let sigStr := match sig with JArr l => default JUndefined (head l) | _ => sig end in
    let msgStr := match msg with JArr l => default JUndefined (head l) | _ => msg end in
    if negb (truthy sigStr) || negb (truthy msgStr) then JNull
    else JObj [("signature", sigStr); ("message", msgStr)].

Definition calculatePrice (request : Req) : Eff Event Z :=
  match pricing config with
  | Dynamic f =>
      result <- perform Priced (f request) ;;
      match result with
      | AmountBigint p => ret p
      | AmountNumber n => lift (BigInt_of_number n)
      end
  | Static p => lift (parsePrice (text_units world) p)
  end.

Definition authorize_body (consumerToken : JVal) (requestId : string)
    (amount : Z) (override : JVal) : JVal :=
  let fields := [ ("consumer_token", consumerToken);
                  ("request_id", JStr requestId);
                  ("amount", JNum (Number_of_bigint amount)) ] in
  JObj (if truthy override then obj_set "override" override fields else fields).

Definition authorize (consumerToken : JVal) (requestId : string)
    (amount : Z) (override : JVal) : Eff Event JVal :=
  post "/authorize" (authorize_body consumerToken requestId amount override).

Definition consume (reservationId : JVal) : Eff Event JVal :=
  post "/consume" (JObj [("reservation_id", reservationId)]).

Definition release (reservationId : JVal) : Eff Event JVal :=
  post "/release" (JObj [("reservation_id", reservationId)]).

Definition opt_string (o : option string) : JVal :=
  match o with
  | Some s => JStr s
  | None => JUndefined
  end.

(** The [status] and the fields of the [body] of the 402 reply. *)
Definition buildPaymentRequiredResponse (price : Z)
  : Z * list (string * JVal) :=
  (402,
   [ ("error", JStr "payment_required");
     ("message", JStr "This resource requires payment via Agon");
     ("payment_info",
      JObj [ ("price", JNum (Number_of_bigint price));
             ("currency", JStr "USDC");
             ("description",
              nullish_or (opt_string (description config)) (JStr "Protected resource"));
             ("mime_type", opt_string (mimeType config));
             ("instructions",
              JStr "Include your Agon auth token as the X-AGON-TOKEN header (create via POST /account/create-token)");
             ("register_url", JStr (agonUrl config +:+ "/account/register")) ]) ]).

(** [generateRequestId]: [Math.random().toString(36).substring(2, 10)] is
    floating point, so the outside hands over the suffix itself. *)
Definition generateRequestId : Eff Event string :=
  timestamp <- perform ClockRead (fun tr => Normal (toString36 (now world tr))) ;;
  random <- perform RandomRead (fun tr => Normal (random_suffix world tr)) ;;
  ret ("req_" +:+ timestamp +:+ "_" +:+ random).

End Core.

Arguments Pricing Req : clear implicits.
Arguments AgonPlatformConfig Req : clear implicits.

(** *** [withAgon] (next.ts) *)

(** The inbound [Request]; [next_headers] is what [req.headers.forEach]
    enumerates. *)
Record NextRequest := {
  next_url : string;
  next_method : string;
  next_headers : gmap string string;
  next_body : option string;
}.

(** The protected route handler: user code, which answers or throws. *)
Definition NextHandler : Type := NextRequest -> list Event -> Completion Response.

(** [AgonRouteConfig & { agonUrl: string }] *)
Record AgonRouteConfig := {
  route_agonUrl : string;
  route_platformKey : string;
  route_pricing : Pricing NextRequest;
  route_description : option string;
  route_mimeType : option string;
}.

Definition route_core (config : AgonRouteConfig) : AgonPlatformConfig NextRequest :=
  {| agonUrl := route_agonUrl config;
     platformKey := route_platformKey config;
     pricing := route_pricing config;
     description := route_description config;
     mimeType := route_mimeType config;
     timeout := None |}.

Definition internal_error (msg : string) : JVal :=
  JObj [("error", JStr "internal_error"); ("message", JStr msg)].

Definition withAgon (handler : NextHandler) (config : AgonRouteConfig)
    (world : World) (req : NextRequest) : Eff Event Response :=
  let core := route_core config in
  let headerObj : gmap string HeaderValue := HString <$> next_headers req in
  let consumerToken := extractConsumerToken headerObj in
  priced <- attempt (calculatePrice core world req) ;;
  match priced with
  | Abrupt _ => lift (Response_json (internal_error "Failed to calculate price") 500)
  | Normal price =>
      if negb (truthy consumerToken) then
        let '(st, payload) := buildPaymentRequiredResponse core price in
        lift (Response_json (JObj payload) st)
      else
        requestId <- generateRequestId world ;;
        let override := extractOverride headerObj in
        authorized <- attempt (authorize core world consumerToken requestId price override) ;;
        match authorized with
        | Abrupt (ThrownAgon err) => lift (Response_json (toJSON err) (statusCode err))
        | Abrupt _ =>
            lift (Response_json (internal_error "Payment authorization failed") 502)
        | Normal authResult =>
            st <- lift (get_prop authResult "status") ;;
            if is_string st "denied" then
              let '(_, payload) := buildPaymentRequiredResponse core price in
              lift (Response_json
                      (JObj (obj_set "denial_reason" (member authResult "reason") payload))
                      402)
            else
              let reservationId := member authResult "reservation_id" in
              handled <- attempt (perform Handled (handler req)) ;;
              match handled with
              | Abrupt _ =>
                  _ <- attempt (release core world reservationId) ;;
                  lift (Response_json (internal_error "Handler error") 500)
              | Normal response =>
                  _ <- (if status response <? 400
                        then attempt (consume core world reservationId)
                        else attempt (release core world reservationId)) ;;
                  ret response
              end
        end
  end.

(** *** [agonMiddleware] (express.ts) *)

(** The inbound request: [req.headers] may be missing. *)
Record ExpressRequest := {
  x_url : string;
  x_headers : option (gmap string HeaderValue);
}.

(** What the middleware itself does with [res]: [res.status(s).json(b)], or
    nothing, having called [next()]. *)
Inductive Reply :=
| Json (statusCode : Z) (payload : JVal)
| Passed.

(** One call of [res.end] by the code behind [next()]: the [res.statusCode]
    at that moment and how the original [end] completes. *)
Record EndCall := {
  end_statusCode : Z;
  end_original : Completion unit;
}.

(** The replacement the middleware installs as [res.end].  [consume] and
    [release] are asynchronous: they issue their request at once and their
    rejection goes to the empty [catch]. *)
Definition patched_end (core : AgonPlatformConfig ExpressRequest) (world : World)
    (reservationId : JVal) (call : EndCall) : Eff Event unit :=
  _ <- perform (Ended (end_statusCode call)) (fun _ => end_original call) ;;
  _ <- (if end_statusCode call <? 400
        then attempt (consume core world reservationId)
        else attempt (release core world reservationId)) ;;
  ret tt.

(** Every [res.end] call of the downstream code, each in its own caller. *)
Fixpoint downstream_ends (core : AgonPlatformConfig ExpressRequest) (world : World)
    (reservationId : JVal) (calls : list EndCall) : Eff Event unit :=
  match calls with
  | [] => ret tt
  | call :: rest =>
      _ <- attempt (patched_end core world reservationId call) ;;
      downstream_ends core world reservationId rest
  end.

(** The middleware, with the code behind [next()] given by the [res.end]
    calls it makes. *)
Definition agonMiddleware (config : AgonPlatformConfig ExpressRequest)
    (world : World) (next : list Event -> list EndCall) (req : ExpressRequest)
  : Eff Event Reply :=
  let core := config in
  let hdrs := default ∅ (x_headers req) in
  let consumerToken := extractConsumerToken hdrs in
  priced <- attempt (calculatePrice core world req) ;;
  match priced with
  | Abrupt _ => ret (Json 500 (internal_error "Failed to calculate price"))
  | Normal price =>
      if negb (truthy consumerToken) then
        let '(st, payload) := buildPaymentRequiredResponse core price in
        ret (Json st (JObj payload))
      else
        requestId <- generateRequestId world ;;
        let override := extractOverride hdrs in
        authorized <- attempt (authorize core world consumerToken requestId price override) ;;
        match authorized with
        | Abrupt (ThrownAgon err) => ret (Json (statusCode err) (toJSON err))
        | Abrupt _ => ret (Json 502 (internal_error "Payment authorization failed"))
        | Normal authResult =>
            st <- lift (get_prop authResult "status") ;;
            if is_string st "denied" then
              let '(_, payload) := buildPaymentRequiredResponse core price in
              ret (Json 402
                     (JObj (obj_set "denial_reason" (member authResult "reason") payload)))
            else
              let reservationId := member authResult "reservation_id" in
              calls <- perform Handled (fun tr => Normal (next tr)) ;;
              _ <- downstream_ends core world reservationId calls ;;
              ret Passed
        end
  end.

End Platform.

(** ** The consumer side: packages/client *)
Module Client.
Import Js Types.
Local Open Scope eff_scope.

(** What [fetch] does to the outside, in order: a request of the SDK's own
    HTTP client to the Agon backend, a dispatch to the merchant through
    [fetchImpl], a question to the [onLimitExceeded] callback, a signature,
    a reading of the clock or of the random source. *)
Inductive Event :=
| Requested (method path : string) (hdrs : list (string * string))
    (payload : option JVal)
| Dispatched (url : string) (method : option string)
    (hdrs : gmap string string) (payload : option string)
| Asked (question : JVal)
| Signed (msg : JVal)
| ClockRead
| RandomRead.

Inductive NetOutcome :=
| Replied (r : Response)
| TimedOut
| Unreachable (cause : string).

(** The outside of the orchestrator.  [stringify] is [JSON.stringify],
    [new_Response] the host's [Response] constructor on a body, a status
    and headers, [sign_bs58] the base-58 text of [nacl.sign.detached]. *)
Record World := {
  now : list Event -> Z;
  random_suffix : list Event -> string;
  backend : list Event -> string -> string -> option JVal -> NetOutcome;
  merchant : list Event -> string -> option string -> gmap string string ->
             option string -> Completion Response;
  stringify : JVal -> string;
  new_Response : JVal -> JVal -> JVal -> Completion Response;
  sign_bs58 : string -> string -> string;
}.

(** [OnLimitExceeded] and [OverrideSigner]: user code, which answers or
    throws. *)
Definition OnLimitExceeded : Type := JVal -> list Event -> Completion JVal.
Definition OverrideSigner : Type := JVal -> list Event -> Completion JVal.

(** A [Keypair], as far as overrides use it. *)
Record Keypair := { secretKey : string }.

(** The fields of an [AgonClient] that a paid fetch reads.  [http_apiKey]
    is the copy of the key inside its [AgonHttpClient]. *)
Record AgonClient := {
  baseUrl : string;
  http_apiKey : option string;
  http_timeout : Z;
  wallet : option Keypair;
  apiKey : option string;
  onLimitExceeded : option OnLimitExceeded;
  customSigner : option OverrideSigner;
}.

(** [RequestInit] *)
Record RequestInit := {
  init_method : option string;
  init_headers : option (list (string * string));
  init_body : option string;
}.

Section Fetch.
Variable this : AgonClient.
Variable world : World.

(** *** [Headers]: names are kept in lower case. *)

Definition headers_append (name value : string) (h : gmap string string)
  : gmap string string :=
  let k := toLowerCase name in
  match h !! k with
  | Some old => <[k := old +:+ ", " +:+ value]> h
  | None => <[k := value]> h
  end.

Definition headers_set (name value : string) (h : gmap string string)
  : gmap string string :=
  <[toLowerCase name := value]> h.

Definition headers_get (name : string) (h : gmap string string) : option string :=
  h !! toLowerCase name.

(** [new Headers(init?.headers)] *)
Definition new_Headers (init : option RequestInit) : gmap string string :=
  match init with
  | Some i =>
      match init_headers i with
      | Some l => foldl (fun h kv => headers_append kv.1 kv.2 h) ∅ l
      | None => ∅
      end
  | None => ∅
  end.

(** *** [AgonHttpClient] of the consumer SDK (http.ts) *)

Definition thrown_message (t : Thrown) : string :=
  match t with
  | ThrownAgon e => message e
  | TypeError what | RangeError what | SyntaxError what | ThrownError what => what
  | AbortError => "This operation was aborted"
  end.

Definition json (r : Response) : Completion JVal :=
  match body r with
  | Some v => Normal v
  | None => Abrupt (SyntaxError "Unexpected token in JSON")
  end.

(** The authentication headers: the key when there is one; the HTTP client
    of an [AgonClient] holds no wallet. *)
Definition request_headers : list (string * string) :=
  ("Content-Type", "application/json")
  :: match http_apiKey this with
     | Some k => if String.eqb k "" then [] else [("X-AGON-KEY", k)]
     | None => []
     end.

Definition request (method path : string) (payload : option JVal)
  : Eff Event JVal :=
  let url := baseUrl this +:+ path in
  try_catch
    (res <- perform (Requested method path request_headers payload)
              (fun tr => match backend world tr method url payload with
                         | Replied r => Normal r
                         | TimedOut => Abrupt AbortError
                         | Unreachable cause => Abrupt (TypeError cause)
                         end) ;;
     data <- lift (json res) ;;
     if negb (ok res) then
       e <- lift (get_prop data "error") ;;
       if truthy e then throw (ThrownAgon (AgonError_of_body (status res) data))
       else throw (ThrownAgon
                     (new_AgonError (status res) (JStr "internal_error")
                        (JStr ("Agon API returned " +:+ show_Z (status res)
                               +:+ ": " +:+ stringify world data))
                        JUndefined))
     else ret data)
    (fun err =>
       match err with
       | ThrownAgon _ => throw err
       | AbortError =>
           throw (ThrownAgon
                    (new_AgonError 504 (JStr "internal_error")
                       (JStr ("Agon API request timed out after "
                              +:+ show_Z (http_timeout this) +:+ "ms"))
                       JUndefined))
       | _ =>
           throw (ThrownAgon
                    (new_AgonError 502 (JStr "internal_error")
                       (JStr ("Failed to reach Agon API at " +:+ url +:+ ": "
                              +:+ thrown_message err))
                       JUndefined))
       end).

Definition post (path : string) (payload : JVal) : Eff Event JVal :=
  request "POST" path (Some payload).

(** *** [AgonClient] (client.ts) *)

Definition requireAuth : Eff Event unit :=
  match apiKey this with
  | Some k =>
      if String.eqb k "" then
        throw (ThrownAgon
                 (new_AgonError 401 (JStr "invalid_api_key")
                    (JStr "API key not set. Call register() first or setApiKey() with an existing key.")
                    JUndefined))
      else ret tt
  | None =>
      throw (ThrownAgon
               (new_AgonError 401 (JStr "invalid_api_key")
                  (JStr "API key not set. Call register() first or setApiKey() with an existing key.")
                  JUndefined))
  end.

(** [{ ttl?: number; maxAmount?: number }] *)
Record TokenOpts := {
  ttl : option number;
  maxAmount : option number;
}.

Definition no_opts : TokenOpts := {| ttl := None; maxAmount := None |}.

(** The body of [POST /account/create-token]. *)
Definition create_token_body (opts : option TokenOpts) : JVal :=
  let t := match opts with
           | Some o => match ttl o with Some n => JNum n | None => JUndefined end
           | None => JUndefined
           end in
  let cap := match opts with
             | Some o => match maxAmount o with
                         | Some n => [("max_amount", JNum n)]
                         | None => []
                         end
             | None => []
             end in
  JObj (("ttl", nullish_or t (JInt 60)) :: cap).

Definition createAuthToken (opts : option TokenOpts) : Eff Event JVal :=
  _ <- requireAuth ;;
  post "/account/create-token" (create_token_body opts).

(** [signOverride] *)
Definition signOverride (msg : JVal) : Eff Event JVal :=
  match customSigner this with
  | Some signer => perform (Signed msg) (signer msg)
  | None =>
      match wallet this with
      | Some w =>
          perform (Signed msg)
            (fun _ => Normal (JObj [ ("signature",
                                      JStr (sign_bs58 world (secretKey w) (ToString msg)));
                                     ("message", msg) ]))
      | None =>
          throw (ThrownAgon
                   (new_AgonError 400 (JStr "validation_error")
                      (JStr "No signer available. Provide a wallet Keypair or a custom signer.")
                      JUndefined))
      end
  end.

(** The argument of the [onLimitExceeded] callback. *)
Definition limit_question (error : AgonError) : JVal :=
  let d := details error in
  JObj [ ("limitType", member d "limit_type");
         ("requested", member d "requested");
         ("limit", member d "limit");
         ("dailySpent", member d "daily_spent");
         ("merchantDomain", member d "merchant_domain");
         ("signMessage", nullish_or (getOverrideSignMessage error) JUndefined) ].

(** The error [fetch] builds from the parsed body of a 402. *)
Definition denial_of_body (errorBody : JVal) : Completion AgonError :=
  match get_prop errorBody "error" with
  | Abrupt t => Abrupt t
  | Normal e =>
      Normal (new_AgonError 402
                (nullish_or e (JStr "insufficient_balance"))
                (nullish_or (member errorBody "message") (JStr "Payment required"))
                (nullish_or (member errorBody "details")
                            (member errorBody "payment_info")))
  end.

(** The error [handleSpendingLimitOverride] builds from the parsed body of
    the 402 that answers the retry. *)
Definition override_failure_of_body (retryBody : JVal) : Completion AgonError :=
  match get_prop retryBody "error" with
  | Abrupt t => Abrupt t
  | Normal e =>
      Normal (new_AgonError 402
                (nullish_or e (JStr "spending_limit_exceeded"))
                (nullish_or (member retryBody "message")
                            (JStr "Spending limit override failed"))
                (member retryBody "details"))
  end.

Definition init_method_of (init : option RequestInit) : option string :=
  match init with Some i => init_method i | None => None end.

Definition init_body_of (init : option RequestInit) : option string :=
  match init with Some i => init_body i | None => None end.

(** [this.fetchImpl(url, { ...init, headers })] *)
Definition dispatch (url : string) (init : option RequestInit)
    (hdrs : gmap string string) : Eff Event Response :=
  perform (Dispatched url (init_method_of init) hdrs (init_body_of init))
    (fun tr => merchant world tr url (init_method_of init) hdrs (init_body_of init)).

Definition handleSpendingLimitOverride (url : string) (init : option RequestInit)
    (error : AgonError) : Eff Event Response :=
  match onLimitExceeded this with
  | None => throw (ThrownAgon error)
  | Some callback =>
      let signMsg := getOverrideSignMessage error in
      decision <- perform (Asked (limit_question error))
                    (callback (limit_question error)) ;;
      if negb (is_string decision "approve") then throw (ThrownAgon error)
      else if negb (truthy signMsg) then throw (ThrownAgon error)
      else
        override <- signOverride signMsg ;;
        created <- createAuthToken (Some no_opts) ;;
        retryToken <- lift (get_prop created "token") ;;
        signature <- lift (get_prop override "signature") ;;
        msg <- lift (get_prop override "message") ;;
        let retryHeaders :=
          headers_set "X-AGON-OVERRIDE-MSG" (ToString msg)
            (headers_set "X-AGON-OVERRIDE-SIG" (ToString signature)
               (headers_set CONSUMER_TOKEN (ToString retryToken) (new_Headers init))) in
        retryRes <- dispatch url init retryHeaders ;;
        if status retryRes =? 402 then
          parsed <- attempt (lift (json retryRes)) ;;
          match parsed with
          | Abrupt _ => throw (ThrownAgon error)
          | Normal retryBody =>
              failure <- lift (override_failure_of_body retryBody) ;;
              throw (ThrownAgon failure)
          end
        else ret retryRes
  end.

(** [extractHeaders] *)
Definition extractHeaders (init : option RequestInit) : JVal :=
  match init with
  | Some i =>
      match init_headers i with
      | Some _ => JObj (prod_map id JStr <$> map_to_list (new_Headers init))
      | None => JUndefined
      end
  | None => JUndefined
  end.

(** [toBase64]: [btoa] on a string of bytes. *)
Definition b64_digit (n : N) : ascii :=
  if (n <? 26)%N then ascii_of_N (65 + n)
  else if (n <? 52)%N then ascii_of_N (71 + n)
  else if (n <? 62)%N then ascii_of_N (n - 4)
  else if (n =? 62)%N then "+"%char
  else "/"%char.

Fixpoint toBase64 (s : string) : string :=
  match s with
  | EmptyString => EmptyString
  | String a EmptyString =>
      let n := (N_of_ascii a * 65536)%N in
      String (b64_digit (n / 262144)) (String (b64_digit ((n / 4096) mod 64)) "==")
  | String a (String b EmptyString) =>
      let n := (N_of_ascii a * 65536 + N_of_ascii b * 256)%N in
      String (b64_digit (n / 262144))
        (String (b64_digit ((n / 4096) mod 64))
           (String (b64_digit ((n / 64) mod 64)) "="))
  | String a (String b (String c rest)) =>
      let n := (N_of_ascii a * 65536 + N_of_ascii b * 256 + N_of_ascii c)%N in
      String (b64_digit (n / 262144))
        (String (b64_digit ((n / 4096) mod 64))
           (String (b64_digit ((n / 64) mod 64))
              (String (b64_digit (n mod 64)) (toBase64 rest))))
  end.

(** The body of [POST /proxy], before any override is added. *)
Definition proxy_body (url : string) (init : option RequestInit)
    (paymentRequiredBase64 requestId : string) : list (string * JVal) :=
  [ ("url", JStr url);
    ("method", JStr (default "GET" (init_method_of init)));
    ("headers", extractHeaders init);
    ("body", match init_body_of init with
             | Some b => if String.eqb b "" then JUndefined else JStr b
             | None => JUndefined
             end);
    ("payment_required", JStr paymentRequiredBase64);
    ("request_id", JStr requestId) ].

(** [new Response(result.body, { status: result.status, headers: result.headers ?? {} })] *)
Definition response_of_proxy (result : JVal) : Completion Response :=
  match get_prop result "body" with
  | Abrupt t => Abrupt t
  | Normal b =>
      new_Response world b (member result "status")
        (nullish_or (member result "headers") (JObj []))
  end.

Definition proxyX402 (url : string) (init : option RequestInit)
    (paymentRequired : string) : Eff Event Response :=
  let paymentRequiredBase64 := toBase64 paymentRequired in
  timestamp <- perform ClockRead (fun tr => Normal (now world tr)) ;;
  random <- perform RandomRead (fun tr => Normal (random_suffix world tr)) ;;
  let requestId := "proxy_" +:+ show_Z timestamp +:+ "_" +:+ random in
  let payload := proxy_body url init paymentRequiredBase64 requestId in
  try_catch
    (proxyResult <- post "/proxy" (JObj payload) ;;
     lift (response_of_proxy proxyResult))
    (fun thrown =>
       match thrown with
       | ThrownAgon err =>
           if negb (isSpendingLimitExceeded err) || negb (isOverrideAvailable err)
           then throw thrown
           else
             match onLimitExceeded this with
             | None => throw thrown
             | Some callback =>
                 let signMsg := getOverrideSignMessage err in
                 decision <- perform (Asked (limit_question err))
                               (callback (limit_question err)) ;;
                 if negb (is_string decision "approve") then throw thrown
                 else if negb (truthy signMsg) then throw thrown
                 else
                   override <- signOverride signMsg ;;
                   signature <- lift (get_prop override "signature") ;;
                   msg <- lift (get_prop override "message") ;;
                   retryResult <-
                     post "/proxy"
                       (JObj (obj_set "override"
                                (JObj [("signature", signature); ("message", msg)])
                                payload)) ;;
                   lift (response_of_proxy retryResult)
             end
       | _ => throw thrown
       end).

(** [AgonClient.fetch] *)
Definition fetch (url : string) (init : option RequestInit) : Eff Event Response :=
  _ <- requireAuth ;;
  created <- createAuthToken (Some no_opts) ;;
  token <- lift (get_prop created "token") ;;
  let hdrs := headers_set CONSUMER_TOKEN (ToString token) (new_Headers init) in
  res <- dispatch url init hdrs ;;
  if negb (status res =? 402) then ret res
  else
    let paymentRequired :=
      match headers_get PAYMENT_REQUIRED (headers res) with
      | Some v => JStr v
      | None => JNull
      end in
    if truthy paymentRequired then proxyX402 url init (ToString paymentRequired)
    else
      parsed <- attempt (lift (json res)) ;;
      match parsed with
      | Abrupt _ =>
          throw (ThrownAgon
                   (new_AgonError 402 (JStr "insufficient_balance")
                      (JStr "Payment required but no details available")
                      JUndefined))
      | Normal errorBody =>
          error <- lift (denial_of_body errorBody) ;;
          if isSpendingLimitExceeded error && isOverrideAvailable error
          then handleSpendingLimitOverride url init error
          else throw (ThrownAgon error)
      end.

End Fetch.
End Client.


(** ** Reading a history *)
Module Observe.
Import Js Types.

(** The requests the interceptor sent to the Agon backend, in order. *)
Definition posts (tr : list Platform.Event) : list (string * JVal) :=
  omap (fun e => match e with
                 | Platform.Posted url payload => Some (url, payload)
                 | _ => None
                 end) tr.

(** How often the protected handler was run. *)
Definition handler_runs (tr : list Platform.Event) : nat :=
  length (List.filter (fun e => match e with
                                | Platform.Handled => true
                                | _ => false
                                end) tr).

(** The request that settles a reservation after a reply with status [st]:
    [/consume] below 400, [/release] from 400 on. *)
Definition settlement (base : string) (st : Z) (reservationId : JVal)
  : string * JVal :=
  (base +:+ (if st <? 400 then "/consume" else "/release"),
   JObj [("reservation_id", reservationId)]).

(** The steps of a paid fetch, with the idempotency key of each
    [POST /proxy]. *)
Inductive Step :=
| TokenIssued
| ProxyPosted (request_id : JVal)
| BackendCalled
| Sent
| ConsumerAsked
| OverrideSigned
| ClockConsulted
| RandomDrawn.

Definition step_of (e : Client.Event) : Step :=
  match e with
  | Client.Requested _ path _ payload =>
      if String.eqb path "/account/create-token" then TokenIssued
      else if String.eqb path "/proxy" then
        ProxyPosted (member (default JUndefined payload) "request_id")
      else BackendCalled
  | Client.Dispatched _ _ _ _ => Sent
  | Client.Asked _ => ConsumerAsked
  | Client.Signed _ => OverrideSigned
  | Client.ClockRead => ClockConsulted
  | Client.RandomRead => RandomDrawn
  end.

Definition steps (tr : list Client.Event) : list Step := step_of <$> tr.

(** The idempotency keys of the [POST /proxy] requests, in order. *)
Definition proxy_ids (tr : list Client.Event) : list JVal :=
  omap (fun e => match step_of e with
                 | ProxyPosted id => Some id
                 | _ => None
                 end) tr.

(** How often an idempotency key was generated. *)
Definition clock_reads (tr : list Client.Event) : nat :=
  length (List.filter (fun e => match e with
                                | Client.ClockRead => true
                                | _ => false
                                end) tr).

(** The idempotency key [proxyX402] builds when it starts after the
    history [pre]. *)
Definition proxy_request_id (world : Client.World) (pre : list Client.Event) : string :=
  "proxy_" +:+ show_Z (Client.now world pre) +:+ "_"
  +:+ Client.random_suffix world (pre ++ [Client.ClockRead]).

(** An event that neither reads the clock nor posts to [/proxy]. *)
Definition quiet (e : Client.Event) : Prop :=
  e <> Client.ClockRead /\ forall v, step_of e <> ProxyPosted v.

(** An event that does not read the clock and, if it posts to [/proxy],
    does so under the key [id]. *)
Definition keyed (id : string) (e : Client.Event) : Prop :=
  e <> Client.ClockRead /\ forall v, step_of e = ProxyPosted v -> v = JStr id.

(** A computation that extends any history by events that satisfy [Q]. *)
Definition extends {A} (Q : Client.Event -> Prop) (c : Eff Client.Event A) : Prop :=
  forall tr, exists r evs, c tr = (r, tr ++ evs) /\ Forall Q evs.

(** A computation whose events are quiet, or quiet up to one reading of
    clock and random source and keyed by what was read from there on. *)
Definition keyed_once {A} (world : Client.World) (c : Eff Client.Event A) : Prop :=
  forall tr, exists r evs,
    c tr = (r, tr ++ evs)
    /\ (Forall quiet evs
        \/ exists pre rest,
             evs = pre ++ Client.ClockRead :: Client.RandomRead :: rest
             /\ Forall quiet pre
             /\ Forall (keyed (proxy_request_id world (tr ++ pre))) rest).

(** The 402 carries a non-empty [PAYMENT-REQUIRED] header: a merchant that
    speaks plain x402. *)
Definition x402_challenge (res : Response) : bool :=
  match Client.headers_get PAYMENT_REQUIRED (headers res) with
  | Some v => negb (String.eqb v "")
  | None => false
  end.

End Observe.

(** ** Sample runs: a merchant, a backend, a consumer *)
Module Samples.
Import Js Types.

Definition agon : string := "https://api.agon.so".

Definition plain (st : Z) (data : JVal) : Response :=
  {| status := st; headers := ∅; body := Some data |}.

(** A backend that approves every authorization and echoes the reservation
    on [/consume] and [/release]. *)
Definition approving_backend (_ : list Platform.Event) (url : string)
    (payload : JVal) : Platform.NetOutcome :=
  if String.eqb url (agon +:+ "/authorize") then
    Platform.Replied
      (plain 200 (JObj [ ("reservation_id", JStr "res_1");
                         ("status", JStr "approved");
                         ("amount", member payload "amount");
                         ("expires_at", JStr "2026-01-01T00:00:00Z") ]))
  else
    Platform.Replied
      (plain 200 (JObj [ ("reservation_id", member payload "reservation_id");
                         ("status", JStr "settled");
                         ("amount", JInt 1000) ])).

(** A backend that approves every authorization and cannot be reached
    afterwards. *)
Definition vanishing_backend (_ : list Platform.Event) (url : string)
    (payload : JVal) : Platform.NetOutcome :=
  if String.eqb url (agon +:+ "/authorize") then
    Platform.Replied
      (plain 200 (JObj [ ("reservation_id", JStr "res_1");
                         ("status", JStr "approved");
                         ("amount", member payload "amount");
                         ("expires_at", JStr "2026-01-01T00:00:00Z") ]))
  else Platform.Unreachable "connect ECONNREFUSED".

(** A backend that denies every authorization and is unreachable for
    anything else. *)
Definition denying_backend (_ : list Platform.Event) (url : string)
    (payload : JVal) : Platform.NetOutcome :=
  if String.eqb url (agon +:+ "/authorize") then
    Platform.Replied
      (plain 200 (JObj [ ("reservation_id", JNull);
                         ("status", JStr "denied");
                         ("amount", member payload "amount");
                         ("expires_at", JNull);
                         ("reason", JStr "insufficient_balance") ]))
  else Platform.Unreachable "connect ECONNREFUSED".

Definition merchant_world (backend : list Platform.Event -> string -> JVal ->
                                     Platform.NetOutcome) : Platform.World :=
  {| Platform.text_units := fun _ => Abrupt (ThrownError "Invalid price string");
     Platform.now := fun _ => 1700000000000;
     Platform.random_suffix := fun _ => "k3j9x0ab";
     Platform.backend := backend |}.

Definition weather_route : Platform.AgonRouteConfig :=
  {| Platform.route_agonUrl := agon;
     Platform.route_platformKey := "pk_live_1";
     Platform.route_pricing := Platform.Static (PriceBigint 1000);
     Platform.route_description := Some "Premium weather data";
     Platform.route_mimeType := None |}.

(** A route whose pricing function throws. *)
Definition broken_pricing_route : Platform.AgonRouteConfig :=
  {| Platform.route_agonUrl := agon;
     Platform.route_platformKey := "pk_live_1";
     Platform.route_pricing :=
       Platform.Dynamic (fun _ _ => Abrupt (ThrownError "price table unavailable"));
     Platform.route_description := None;
     Platform.route_mimeType := None |}.

Definition paying_request : Platform.NextRequest :=
  {| Platform.next_url := "https://merchant.example/api/weather";
     Platform.next_method := "GET";
     Platform.next_headers := {[ "x-agon-token" := "tok_1" ]};
     Platform.next_body := None |}.

Definition bare_request : Platform.NextRequest :=
  {| Platform.next_url := "https://merchant.example/api/weather";
     Platform.next_method := "GET";
     Platform.next_headers := ∅;
     Platform.next_body := None |}.

Definition premium_page : Response :=
  plain 200 (JObj [("data", JStr "premium content")]).

Definition serving_handler : Platform.NextHandler := fun _ _ => Normal premium_page.

Definition crashing_handler : Platform.NextHandler :=
  fun _ _ => Abrupt (ThrownError "database is down").

Definition express_config : Platform.AgonPlatformConfig Platform.ExpressRequest :=
  {| Platform.agonUrl := agon;
     Platform.platformKey := "pk_live_1";
     Platform.pricing := Platform.Static (PriceBigint 1000);
     Platform.description := None;
     Platform.mimeType := Some "application/json";
     Platform.timeout := None |}.

Definition express_request : Platform.ExpressRequest :=
  {| Platform.x_url := "/api/premium/data";
     Platform.x_headers := Some {[ "x-agon-token" := Platform.HString "tok_1" ]} |}.

(** A downstream route that ends the response once, with status 404. *)
Definition not_found_route (_ : list Platform.Event) : list Platform.EndCall :=
  [ {| Platform.end_statusCode := 404; Platform.end_original := Normal tt |} ].

(** A downstream route that ends the response, fails afterwards, and has
    its error handler set status 500 and end the response again. *)
Definition ended_twice_route (_ : list Platform.Event) : list Platform.EndCall :=
  [ {| Platform.end_statusCode := 200; Platform.end_original := Normal tt |};
    {| Platform.end_statusCode := 500; Platform.end_original := Normal tt |} ].

(** *** The consumer *)

Definition override_message : string :=
  "agon:override:acct1:req1:2000000:merchant.com:1700000000".

(** The denial of the specification's scenario: two dollars requested,
    over the limit, override on offer. *)
Definition limit_denial : JVal :=
  JObj [ ("error", JStr "spending_limit_exceeded");
         ("message", JStr "Spending limit exceeded");
         ("details",
          JObj [ ("limit_type", JStr "max_per_request");
                 ("requested", JInt 2000000);
                 ("limit", JInt 1000000);
                 ("override_available", JBool true);
                 ("sign_message", JStr override_message) ]) ].

(** Approve anything under five dollars. *)
Definition approve_under_five : Client.OnLimitExceeded :=
  fun question _ =>
    match member question "requested" with
    | JNum (Finite z) => Normal (JStr (if z <? 5000000 then "approve" else "reject"))
    | _ => Normal (JStr "reject")
    end.

Definition consumer : Client.AgonClient :=
  {| Client.baseUrl := agon;
     Client.http_apiKey := Some "ak_1";
     Client.http_timeout := 10000;
     Client.wallet := Some {| Client.secretKey := "sk_1" |};
     Client.apiKey := Some "ak_1";
     Client.onLimitExceeded := Some approve_under_five;
     Client.customSigner := None |}.

Definition has_override (hdrs : gmap string string) : bool :=
  match hdrs !! "x-agon-override-sig" with
  | Some _ => true
  | None => false
  end.

(** A merchant that denies with the spending limit until an override
    comes, and then answers [retry]. *)
Definition limiting_merchant (retry : Response) (_ : list Client.Event)
    (_ : string) (_ : option string) (hdrs : gmap string string)
    (_ : option string) : Completion Response :=
  if has_override hdrs then Normal retry else Normal (plain 402 limit_denial).

(** A merchant that reports an empty balance. *)
Definition broke_denial : JVal :=
  JObj [ ("error", JStr "insufficient_balance");
         ("message", JStr "Insufficient balance") ].

Definition refusing_merchant (_ : list Client.Event) (_ : string) (_ : option string)
    (_ : gmap string string) (_ : option string) : Completion Response :=
  Normal (plain 402 broke_denial).

(** A merchant that answers 402 with the JSON body [null]. *)
Definition null_denial_merchant (_ : list Client.Event) (_ : string) (_ : option string)
    (_ : gmap string string) (_ : option string) : Completion Response :=
  Normal (plain 402 JNull).

(** A merchant that speaks plain x402. *)
Definition x402_merchant (_ : list Client.Event) (_ : string) (_ : option string)
    (_ : gmap string string) (_ : option string) : Completion Response :=
  Normal {| status := 402;
            headers := {[ "payment-required" := "x402-challenge" ]};
            body := Some (JObj []) |}.

(** A backend that issues tokens and, on [/proxy], asks for an override
    first and pays once it gets one. *)
Definition consumer_backend (_ : list Client.Event) (_ : string) (url : string)
    (payload : option JVal) : Client.NetOutcome :=
  if String.eqb url (agon +:+ "/account/create-token") then
    Client.Replied (plain 200 (JObj [("token", JStr "tok_1"); ("expires_in", JInt 60)]))
  else if String.eqb url (agon +:+ "/proxy") then
    if is_nullish (member (default JUndefined payload) "override") then
      Client.Replied (plain 403 limit_denial)
    else
      Client.Replied (plain 200 (JObj [ ("status", JInt 200);
                                         ("headers", JObj []);
                                         ("body", JStr "paid content") ]))
  else Client.Unreachable "connect ECONNREFUSED".

Definition consumer_world (merchant : list Client.Event -> string -> option string ->
                                      gmap string string -> option string ->
                                      Completion Response) : Client.World :=
  {| Client.now := fun _ => 1700000000000;
     Client.random_suffix := fun _ => "k3j9x0ab";
     Client.backend := consumer_backend;
     Client.merchant := merchant;
     Client.stringify := fun _ => "{}";
     Client.new_Response :=
       fun b st _ =>
         match st with
         | JNum (Finite z) => Normal (plain z b)
         | _ => Abrupt (RangeError "init.status is out of range")
         end;
     Client.sign_bs58 := fun key msg => "sig:" +:+ msg |}.

Definition merchant_url : string := "https://merchant.com/api/premium".

End Samples.

(** ** The sentences of the specification that the code does not bear out,
    as they are worded *)
Module Stated.
Import Js Types.

Section Merchant.
Import Platform.

(** The claim C5 as the specification words it: an absent token always
    gets the 402. *)
Definition absent_token_always_402 : Prop :=
  forall handler config world req,
    truthy (extractConsumerToken (HString <$> next_headers req)) = false ->
    exists response tr,
      withAgon handler config world req [] = (Normal response, tr)
      /\ status response = 402.

(** The second half of C10 as the specification words it: no amount above
    2^53 - 1 reaches the wire unchanged. *)
Definition unsafe_amounts_never_exact : Prop :=
  forall token requestId amount override,
    MAX_SAFE_INTEGER < Z.abs amount ->
    member (authorize_body token requestId amount override) "amount" <> JInt amount.

End Merchant.

Section Consumer.
Import Client.

(** The claim C7 as the specification words it: whatever [ttl] is passed,
    the one sent lies in 1..300. *)
Definition ttl_always_clamped : Prop :=
  forall opts : option TokenOpts,
    exists z, member (create_token_body opts) "ttl" = JInt z /\ 1 <= z <= 300.

End Consumer.

End Stated.

(** ** The other adapters of the merchant SDK *)
Module Adapters.
Import Js Types Platform.
Local Open Scope eff_scope.

(** *** [agonProxy] (next.ts) *)

(** The [price] of a route: [string | number]. *)
Inductive RoutePrice :=
| RouteNumber (n : number)
| RouteText (s : string).

Definition price_of (p : RoutePrice) : Price :=
  match p with
  | RouteNumber n => PriceNumber n
  | RouteText s => PriceText s
  end.

(** One entry of [routes]. *)
Record ProxyRoute := {
  route_price : RoutePrice;
  route_text : option string;
}.

Record AgonProxyConfig := {
  proxy_agonUrl : string;
  proxy_platformKey : string;
  proxy_routes : gmap string ProxyRoute;
}.

(** The core built for one route when the proxy is set up. *)
Definition proxy_core (config : AgonProxyConfig) (route : ProxyRoute)
  : AgonPlatformConfig NextRequest :=
  {| agonUrl := proxy_agonUrl config;
     platformKey := proxy_platformKey config;
     pricing := Static (price_of (route_price route));
     description := route_text route;
     mimeType := None;
     timeout := None |}.

(** The function [agonProxy] returns; [None] is its [null], which lets the
    request through.  [pathname] is [new URL(req.url).pathname], the host's
    URL parser. *)
Definition agonProxy (pathname : string -> Completion string)
    (config : AgonProxyConfig) (world : World) (req : NextRequest)
  : Eff Event (option Response) :=
  path <- lift (pathname (next_url req)) ;;
  match proxy_routes config !! path with
  | None => ret None
  | Some route =>
      let core := proxy_core config route in
      let hdrObj : gmap string HeaderValue := HString <$> next_headers req in
      let consumerToken := extractConsumerToken hdrObj in
      price <- calculatePrice core world req ;;
      if negb (truthy consumerToken) then
        let '(st, payload) := buildPaymentRequiredResponse core price in
        response <- lift (Response_json (JObj payload) st) ;;
        ret (Some response)
      else
        requestId <- generateRequestId world ;;
        let override := extractOverride hdrObj in
        try_catch
          (authResult <- authorize core world consumerToken requestId price override ;;
           st <- lift (get_prop authResult "status") ;;
           if is_string st "denied" then
             let '(_, payload) := buildPaymentRequiredResponse core price in
             response <- lift (Response_json
                                 (JObj (obj_set "denial_reason"
                                          (member authResult "reason") payload))
                                 402) ;;
             ret (Some response)
           else ret None)
          (fun err =>
             match err with
             | ThrownAgon e =>
                 response <- lift (Response_json (toJSON e) (statusCode e)) ;;
                 ret (Some response)
             | _ =>
                 response <- lift (Response_json
                                     (internal_error "Payment authorization failed")
                                     502) ;;
                 ret (Some response)
             end)
  end.

(** *** [agonPlugin] (fastify.ts) *)

Record FastifyRequest := {
  f_url : string;
  f_headers : option (gmap string HeaderValue);
}.

(** What the [preHandler] hook leaves behind: a reply it sent, or the
    value it stored in [request.agonReservationId]. *)
Inductive PreHandled :=
| Answered (statusCode : Z) (payload : JVal)
| Reserved (reservationId : JVal).

Definition preHandler (core : AgonPlatformConfig FastifyRequest) (world : World)
    (request : FastifyRequest) : Eff Event PreHandled :=
  let hdrs := default ∅ (f_headers request) in
  let consumerToken := extractConsumerToken hdrs in
  priced <- attempt (calculatePrice core world request) ;;
  match priced with
  | Abrupt _ => ret (Answered 500 (internal_error "Failed to calculate price"))
  | Normal price =>
      if negb (truthy consumerToken) then
        let '(st, payload) := buildPaymentRequiredResponse core price in
        ret (Answered st (JObj payload))
      else
        requestId <- generateRequestId world ;;
        let override := extractOverride hdrs in
        authorized <- attempt (authorize core world consumerToken requestId price override) ;;
        match authorized with
        | Abrupt (ThrownAgon err) => ret (Answered (statusCode err) (toJSON err))
        | Abrupt _ => ret (Answered 502 (internal_error "Payment authorization failed"))
        | Normal authResult =>
            st <- lift (get_prop authResult "status") ;;
            if is_string st "denied" then
              let '(_, payload) := buildPaymentRequiredResponse core price in
              ret (Answered 402
                     (JObj (obj_set "denial_reason" (member authResult "reason") payload)))
            else ret (Reserved (member authResult "reservation_id"))
        end
  end.

(** The [onResponse] hook, on the stored reservation id and the status of
    the reply. *)
Definition onResponse (core : AgonPlatformConfig FastifyRequest) (world : World)
    (reservationId : JVal) (statusCode : Z) : Eff Event unit :=
  if negb (truthy reservationId) then ret tt
  else
    _ <- (if statusCode <? 400
          then attempt (consume core world reservationId)
          else attempt (release core world reservationId)) ;;
    ret tt.

(** One request through Fastify with the plugin registered: [preHandler],
    then the route unless a reply was sent, then [onResponse] with the
    status of the reply that went out.  [route] gives that status for the
    route (or for the error reply Fastify sends when the route throws). *)
Definition agonPlugin_request (core : AgonPlatformConfig FastifyRequest)
    (world : World) (route : list Event -> Z) (request : FastifyRequest)
  : Eff Event Reply :=
  pre <- preHandler core world request ;;
  match pre with
  | Answered st payload =>
      _ <- onResponse core world JUndefined st ;;
      ret (Json st payload)
  | Reserved reservationId =>
      st <- perform Handled (fun tr => Normal (route tr)) ;;
      _ <- onResponse core world reservationId st ;;
      ret Passed
  end.

End Adapters.

(** ** Keys and spending controls of the consumer SDK *)
Module Account.
Import Js Types Client.
Local Open Scope eff_scope.

(** [setApiKey]: the client and its HTTP client take the key. *)
Definition setApiKey (this : AgonClient) (key : string) : AgonClient :=
  {| baseUrl := baseUrl this;
     http_apiKey := Some key;
     http_timeout := http_timeout this;
     wallet := wallet this;
     apiKey := Some key;
     onLimitExceeded := onLimitExceeded this;
     customSigner := customSigner this |}.

(** [revokeKey]: the client as it is after the call when the call
    resolves; when it rejects, nothing was assigned. *)
Definition revokeKey (this : AgonClient) (world : World) : Eff Event AgonClient :=
  _ <- requireAuth this ;;
  _ <- post this world "/keys/revoke" (JObj []) ;;
  ret {| baseUrl := baseUrl this;
         http_apiKey := http_apiKey this;
         http_timeout := http_timeout this;
         wallet := wallet this;
         apiKey := None;
         onLimitExceeded := onLimitExceeded this;
         customSigner := customSigner this |}.

(** The argument of [setSpendingControls]; [proxyAllowedDomains] may be
    given as [null]. *)
Record ControlsUpdate := {
  maxPerRequest : option number;
  dailySpendingLimit : option number;
  proxyEnabled : option bool;
  proxyAllowedDomains : option (option (list string));
}.

Definition given {A} (key : string) (render : A -> JVal) (field : option A)
  : list (string * JVal) :=
  match field with
  | Some v => [(key, render v)]
  | None => []
  end.

Definition domains_value (d : option (list string)) : JVal :=
  match d with
  | Some l => JArr (JStr <$> l)
  | None => JNull
  end.

(** The body of [POST /account/spending-controls]. *)
Definition spending_controls_body (controls : ControlsUpdate) : JVal :=
  JObj (given "max_per_request" JNum (maxPerRequest controls)
        ++ given "daily_spending_limit" JNum (dailySpendingLimit controls)
        ++ given "proxy_enabled" JBool (proxyEnabled controls)
        ++ given "proxy_allowed_domains" domains_value (proxyAllowedDomains controls)).

(** The [SpendingControls] read off a reply. *)
Definition spending_controls_of (result : JVal) : Completion JVal :=
  match get_prop result "max_per_request" with
  | Abrupt t => Abrupt t
  | Normal m =>
      Normal (JObj [ ("maxPerRequest", m);
                     ("dailySpendingLimit", member result "daily_spending_limit");
                     ("dailySpent", member result "daily_spent");
                     ("dailyResetAt", member result "daily_reset_at");
                     ("proxyEnabled", member result "proxy_enabled");
                     ("proxyAllowedDomains", member result "proxy_allowed_domains") ])
  end.

Definition getSpendingControls (this : AgonClient) (world : World) : Eff Event JVal :=
  _ <- requireAuth this ;;
  result <- request this world "GET" "/account/spending-controls" None ;;
  lift (spending_controls_of result).

Definition setSpendingControls (this : AgonClient) (world : World)
    (controls : ControlsUpdate) : Eff Event JVal :=
  _ <- requireAuth this ;;
  result <- post this world "/account/spending-controls"
              (spending_controls_body controls) ;;
  lift (spending_controls_of result).

End Account.

(** ** Counting what a call does *)
Module Budget.
Import Js Types Observe.

(** What a paid fetch can do more than once. *)
Inductive Kind :=
| Tokens
| Dispatches
| Questions
| Signatures
| ProxyPosts.

Definition is_kind (k : Kind) (e : Client.Event) : bool :=
  match step_of e, k with
  | TokenIssued, Tokens => true
  | Sent, Dispatches => true
  | ConsumerAsked, Questions => true
  | OverrideSigned, Signatures => true
  | ProxyPosted _, ProxyPosts => true
  | _, _ => false
  end.

Definition count (k : Kind) (tr : list Client.Event) : nat :=
  length (List.filter (is_kind k) tr).

(** What one event adds to the count of kind [k]. *)
Definition weight (k : Kind) (e : Client.Event) : nat :=
  if is_kind k e then 1%nat else 0%nat.

(** A computation that adds at most [n] events of kind [k] to any
    history. *)
Definition bounded {A} (k : Kind) (n : nat) (c : Eff Client.Event A) : Prop :=
  forall tr, exists r evs, c tr = (r, tr ++ evs) /\ (count k evs <= n)%nat.

(** What one override retry may use. *)
Definition retry_limit (k : Kind) : nat :=
  match k with
  | ProxyPosts => 0
  | _ => 1
  end.

(** What the passthrough may use. *)
Definition passthrough_limit (k : Kind) : nat :=
  match k with
  | ProxyPosts => 2
  | Questions | Signatures => 1
  | Tokens | Dispatches => 0
  end.

(** What a whole paid fetch may use. *)
Definition fetch_limit (k : Kind) : nat :=
  match k with
  | Tokens | Dispatches | ProxyPosts => 2
  | Questions | Signatures => 1
  end.

(** The settling requests the Express middleware sends for the [res.end]
    calls of the downstream code: one for each call whose original [end]
    completed. *)
Definition settled (base : string) (reservationId : JVal)
    (calls : list Platform.EndCall) : list (string * JVal) :=
  flat_map (fun call => match Platform.end_original call with
                        | Normal _ =>
                            [settlement base (Platform.end_statusCode call) reservationId]
                        | Abrupt _ => []
                        end) calls.

End Budget.

(** ** More sample runs *)
Module MoreSamples.
Import Js Types Samples.

(** A backend that never answers in time. *)
Definition silent_backend (_ : list Platform.Event) (_ : string) (_ : JVal)
  : Platform.NetOutcome := Platform.TimedOut.

(** The route of [weather_route], configured with a trailing slash. *)
Definition slashed_config : Platform.AgonPlatformConfig Platform.ExpressRequest :=
  {| Platform.agonUrl := "https://api.agon.so/";
     Platform.platformKey := "pk_live_1";
     Platform.pricing := Platform.Static (PriceBigint 1000);
     Platform.description := None;
     Platform.mimeType := None;
     Platform.timeout := None |}.

(** A request that carries a token and a complete override. *)
Definition overriding_headers : gmap string Platform.HeaderValue :=
  {[ "x-agon-token" := Platform.HString "tok_1";
     "x-agon-override-sig" := Platform.HString "sig_1";
     "x-agon-override-msg" := Platform.HString "agon:override:acct1:req1:2000000:merchant.com:1700000000" ]}.

(** A downstream route that calls [res.end] twice. *)
Definition double_end_route (_ : list Platform.Event) : list Platform.EndCall :=
  [ {| Platform.end_statusCode := 200; Platform.end_original := Normal tt |};
    {| Platform.end_statusCode := 200; Platform.end_original := Normal tt |} ].

(** A proxy with one priced route, and one whose price is not a price. *)
Definition sample_proxy : Adapters.AgonProxyConfig :=
  {| Adapters.proxy_agonUrl := agon;
     Adapters.proxy_platformKey := "pk_live_1";
     Adapters.proxy_routes :=
       {[ "/api/weather" := {| Adapters.route_price := Adapters.RouteNumber (Finite 1000);
                               Adapters.route_text := Some "Weather data" |};
          "/api/broken" := {| Adapters.route_price := Adapters.RouteText "bogus";
                              Adapters.route_text := None |} ]} |}.

(** A toy [pathname]: what follows the origin of the sample merchant. *)
Definition sample_pathname (url : string) : Completion string :=
  if String.prefix "https://merchant.example" url
  then Normal (String.substring 24 (String.length url - 24) url)
  else Abrupt (TypeError "Invalid URL").

Definition broken_request : Platform.NextRequest :=
  {| Platform.next_url := "https://merchant.example/api/broken";
     Platform.next_method := "GET";
     Platform.next_headers := {[ "x-agon-token" := "tok_1" ]};
     Platform.next_body := None |}.

(** A backend that answers every request with 200 and the body [null]. *)
Definition null_backend (_ : list Platform.Event) (_ : string) (_ : JVal)
  : Platform.NetOutcome := Platform.Replied (plain 200 JNull).

Definition fastify_config : Platform.AgonPlatformConfig Adapters.FastifyRequest :=
  {| Platform.agonUrl := agon;
     Platform.platformKey := "pk_live_1";
     Platform.pricing := Platform.Static (PriceBigint 1000);
     Platform.description := None;
     Platform.mimeType := None;
     Platform.timeout := None |}.

Definition fastify_request : Adapters.FastifyRequest :=
  {| Adapters.f_url := "/api/premium/data";
     Adapters.f_headers := Some {[ "x-agon-token" := Platform.HString "tok_1" ]} |}.

(** A consumer without a key. *)
Definition keyless_consumer : Client.AgonClient :=
  {| Client.baseUrl := agon;
     Client.http_apiKey := None;
     Client.http_timeout := 10000;
     Client.wallet := Some {| Client.secretKey := "sk_1" |};
     Client.apiKey := None;
     Client.onLimitExceeded := None;
     Client.customSigner := None |}.

(** A consumer whose callback rejects every override. *)
Definition cautious_consumer : Client.AgonClient :=
  {| Client.baseUrl := agon;
     Client.http_apiKey := Some "ak_1";
     Client.http_timeout := 10000;
     Client.wallet := Some {| Client.secretKey := "sk_1" |};
     Client.apiKey := Some "ak_1";
     Client.onLimitExceeded := Some (fun _ _ => Normal (JStr "reject"));
     Client.customSigner := None |}.

(** A merchant that serves everybody. *)
Definition free_merchant (_ : list Client.Event) (_ : string) (_ : option string)
    (_ : gmap string string) (_ : option string) : Completion Response :=
  Normal (plain 200 (JStr "free content")).

(** A backend that cannot be reached. *)
Definition dead_backend (_ : list Client.Event) (_ : string) (_ : string)
    (_ : option JVal) : Client.NetOutcome := Client.Unreachable "connect ECONNREFUSED".

Definition offline_world : Client.World :=
  {| Client.now := fun _ => 1700000000000;
     Client.random_suffix := fun _ => "k3j9x0ab";
     Client.backend := dead_backend;
     Client.merchant := free_merchant;
     Client.stringify := fun _ => "{}";
     Client.new_Response := fun _ _ _ => Abrupt (RangeError "init.status is out of range");
     Client.sign_bs58 := fun key msg => "sig:" +:+ msg |}.

(** A backend that accepts whatever it is sent. *)
Definition revoking_world : Client.World :=
  {| Client.now := fun _ => 1700000000000;
     Client.random_suffix := fun _ => "k3j9x0ab";
     Client.backend := fun _ _ _ _ => Client.Replied (plain 200 (JObj [("revoked", JBool true)]));
     Client.merchant := free_merchant;
     Client.stringify := fun _ => "{}";
     Client.new_Response := fun _ _ _ => Abrupt (RangeError "init.status is out of range");
     Client.sign_bs58 := fun key msg => "sig:" +:+ msg |}.

End MoreSamples.

Module PlatformFacts.
Import Js Types Platform Observe Samples Stated.

Section Transport.
Context {Req : Type}.
Variable config : AgonPlatformConfig Req.
Variable world : World.

(** [post] sends one request, whatever comes of it. *)
Lemma post_appends path payload tr :
  exists r, post config world path payload tr
            = (r, tr ++ [Posted (baseUrl config +:+ path) payload]).
Proof.
  unfold post, try_catch, bind, perform, lift, throw, ret.
  destruct (backend world tr _ payload) as [r | | cause]; simpl.
  - destruct (json r) as [data | t]; simpl.
    + destruct (negb (ok r)); simpl; [| eauto].
      destruct (get_prop data "error") as [e | t]; simpl.
      * destruct (truthy e); simpl; eauto.
      * destruct t; simpl; eauto.
    + destruct t; simpl; eauto.
  - eauto.
  - eauto.
Qed.

End Transport.

Lemma posts_app (a b : list Event) : posts (a ++ b) = posts a ++ posts b.
Proof. unfold posts. apply omap_app. Qed.

Section Steps.
Context {Req : Type}.
Variable config : AgonPlatformConfig Req.
Variable world : World.

(** Pricing never talks to the backend. *)
Lemma calculatePrice_posts req tr r tr' :
  calculatePrice config world req tr = (r, tr') -> posts tr' = posts tr.
Proof.
  unfold calculatePrice, bind, perform, lift, ret.
  destruct (pricing config) as [p | f]; simpl.
  - intros [= _ <-]. reflexivity.
  - destruct (f req tr) as [[p | n] | t]; simpl.
    + intros [= _ <-]. rewrite posts_app. simpl. apply app_nil_r.
    + intros [= _ <-]. rewrite posts_app. simpl. apply app_nil_r.
    + intros [= _ <-]. rewrite posts_app. simpl. apply app_nil_r.
Qed.

(** Nor does it run the protected handler. *)
Lemma calculatePrice_handler_runs req tr r tr' :
  calculatePrice config world req tr = (r, tr') -> handler_runs tr' = handler_runs tr.
Proof.
  unfold calculatePrice, bind, perform, lift, ret, handler_runs.
  destruct (pricing config) as [p | f]; simpl.
  - intros [= _ <-]. reflexivity.
  - destruct (f req tr) as [[p | n] | t]; simpl;
      intros [= _ <-]; rewrite List.filter_app, length_app; simpl; lia.
Qed.

Lemma generateRequestId_trace tr :
  exists id, generateRequestId world tr = (Normal id, tr ++ [ClockRead; RandomRead]).
Proof.
  unfold generateRequestId, bind, perform, ret. simpl.
  rewrite <- app_assoc. simpl. eauto.
Qed.

Lemma authorize_trace token requestId amount override tr r tr' :
  authorize config world token requestId amount override tr = (r, tr') ->
  tr' = tr ++ [Posted (baseUrl config +:+ "/authorize")
                 (authorize_body token requestId amount override)].
Proof.
  unfold authorize. intros H.
  destruct (post_appends config world "/authorize"
              (authorize_body token requestId amount override) tr) as [r0 Hr].
  rewrite Hr in H. congruence.
Qed.

(** Settling is one request to the backend, and its failure is not seen. *)
Lemma settle_trace st reservationId tr :
  exists r,
    (if st <? 400 then attempt (consume config world reservationId)
     else attempt (release config world reservationId)) tr
    = (Normal r, tr ++ [Posted (settlement (baseUrl config) st reservationId).1
                          (settlement (baseUrl config) st reservationId).2]).
Proof.
  unfold settlement, attempt, consume, release. simpl.
  destruct (st <? 400).
  - destruct (post_appends config world "/consume"
                (JObj [("reservation_id", reservationId)]) tr) as [r Hr].
    rewrite Hr. eauto.
  - destruct (post_appends config world "/release"
                (JObj [("reservation_id", reservationId)]) tr) as [r Hr].
    rewrite Hr. eauto.
Qed.

Lemma release_trace reservationId tr :
  exists r,
    attempt (release config world reservationId) tr
    = (Normal r, tr ++ [Posted (baseUrl config +:+ "/release")
                          (JObj [("reservation_id", reservationId)])]).
Proof.
  unfold attempt, release.
  destruct (post_appends config world "/release"
              (JObj [("reservation_id", reservationId)]) tr) as [r Hr].
  rewrite Hr. eauto.
Qed.

(** The backend requests up to and including [authorize]. *)
Lemma posts_until_authorized req token requestId override price tr1 id tr2 r tr3 :
  calculatePrice config world req [] = (Normal price, tr1) ->
  generateRequestId world tr1 = (Normal id, tr2) ->
  authorize config world token requestId price override tr2 = (r, tr3) ->
  posts tr3 = [(baseUrl config +:+ "/authorize",
                authorize_body token requestId price override)].
Proof.
  intros Hp Hg Ha.
  apply calculatePrice_posts in Hp. simpl in Hp.
  destruct (generateRequestId_trace tr1) as [id' Hid]. rewrite Hid in Hg.
  injection Hg as _ <-.
  apply authorize_trace in Ha. subst tr3.
  rewrite !posts_app, Hp. reflexivity.
Qed.

(** The handler has not run when [authorize] has answered. *)
Lemma handler_idle_until_authorized req token requestId override price tr1 id tr2 r tr3 :
  calculatePrice config world req [] = (Normal price, tr1) ->
  generateRequestId world tr1 = (Normal id, tr2) ->
  authorize config world token requestId price override tr2 = (r, tr3) ->
  handler_runs tr3 = 0%nat.
Proof.
  intros Hp Hg Ha.
  apply calculatePrice_handler_runs in Hp. simpl in Hp.
  destruct (generateRequestId_trace tr1) as [id' Hid]. rewrite Hid in Hg.
  injection Hg as _ <-.
  apply authorize_trace in Ha. subst tr3.
  unfold handler_runs in *. rewrite !List.filter_app, !length_app, Hp. reflexivity.
Qed.

End Steps.

Lemma approved_not_denied authResult :
  member authResult "status" = JStr "approved" ->
  exists st, get_prop authResult "status" = Normal st /\ is_string st "denied" = false.
Proof.
  intros H. unfold get_prop.
  destruct authResult; simpl in *; try discriminate.
  rewrite H. eauto.
Qed.

(** One completed call of the patched [res.end]: the original [end], then
    one settling request chosen by the status at that call. *)
Lemma patched_end_trace (core : AgonPlatformConfig ExpressRequest) world
    reservationId call tr :
  end_original call = Normal tt ->
  attempt (patched_end core world reservationId call) tr
  = (Normal (Normal tt),
     tr ++ [Ended (end_statusCode call);
            Posted (settlement (baseUrl core) (end_statusCode call) reservationId).1
              (settlement (baseUrl core) (end_statusCode call) reservationId).2]).
Proof.
  intros Horig.
  destruct (settle_trace core world (end_statusCode call) reservationId
              (tr ++ [Ended (end_statusCode call)])) as [r Hr].
  unfold patched_end.
  unfold attempt at 1. unfold bind at 1. unfold perform at 1. rewrite Horig.
  unfold bind at 1. rewrite Hr. unfold ret.
  rewrite <- app_assoc. reflexivity.
Qed.

(** C1.  When [authorize] answers "approved" and the protected handler
    returns a response, [withAgon] sends exactly one settling request for
    the reservation id after it: [/consume] when the status is below 400
    (what the code takes as the success range, so a redirect is consumed),
    [/release] otherwise; the call makes two backend requests, [/authorize]
    and that one.  The Express middleware does the same when the code
    behind [next()] calls [res.end] once.  It settles inside [res.end]
    without remembering that it did: a second call of [res.end] sends a
    second settling request for the same reservation, so a response ended
    at status 200 and ended again at status 500 is both consumed and
    released. *)
Theorem settles_at_each_end_call :
  (forall handler config world req price tr1 requestId tr2 authResult tr3 response,
      let core := route_core config in
      let hdrs : gmap string HeaderValue := HString <$> next_headers req in
      let token := extractConsumerToken hdrs in
      let settle := settlement (baseUrl core) (status response)
                      (member authResult "reservation_id") in
      truthy token = true ->
      calculatePrice core world req [] = (Normal price, tr1) ->
      generateRequestId world tr1 = (Normal requestId, tr2) ->
      authorize core world token requestId price (extractOverride hdrs) tr2
        = (Normal authResult, tr3) ->
      member authResult "status" = JStr "approved" ->
      handler req tr3 = Normal response ->
      withAgon handler config world req []
        = (Normal response, tr3 ++ [Handled; Posted settle.1 settle.2])
      /\ posts (tr3 ++ [Handled; Posted settle.1 settle.2])
         = [(baseUrl core +:+ "/authorize",
             authorize_body token requestId price (extractOverride hdrs));
            settle])
  /\
  (forall config world next req price tr1 requestId tr2 authResult tr3,
      let hdrs : gmap string HeaderValue := default ∅ (x_headers req) in
      let token := extractConsumerToken hdrs in
      let reservationId := member authResult "reservation_id" in
      let asked := (baseUrl config +:+ "/authorize",
                    authorize_body token requestId price (extractOverride hdrs)) in
      truthy token = true ->
      calculatePrice config world req [] = (Normal price, tr1) ->
      generateRequestId world tr1 = (Normal requestId, tr2) ->
      authorize config world token requestId price (extractOverride hdrs) tr2
        = (Normal authResult, tr3) ->
      member authResult "status" = JStr "approved" ->
      (forall call,
          let settle := settlement (baseUrl config) (end_statusCode call) reservationId in
          next tr3 = [call] ->
          end_original call = Normal tt ->
          agonMiddleware config world next req []
            = (Normal Passed,
               tr3 ++ [Handled; Ended (end_statusCode call); Posted settle.1 settle.2])
          /\ posts (tr3 ++ [Handled; Ended (end_statusCode call);
                            Posted settle.1 settle.2])
             = [asked; settle])
      /\
      (forall first second,
          let settle1 := settlement (baseUrl config) (end_statusCode first)
                           reservationId in
          let settle2 := settlement (baseUrl config) (end_statusCode second)
                           reservationId in
          let tr := tr3 ++ [Handled;
                            Ended (end_statusCode first); Posted settle1.1 settle1.2;
                            Ended (end_statusCode second); Posted settle2.1 settle2.2] in
          next tr3 = [first; second] ->
          end_original first = Normal tt ->
          end_original second = Normal tt ->
          agonMiddleware config world next req [] = (Normal Passed, tr)
          /\ posts tr = [asked; settle1; settle2]
          /\ (end_statusCode first < 400 <= end_statusCode second ->
              posts tr
              = [asked;
                 (baseUrl config +:+ "/consume", JObj [("reservation_id", reservationId)]);
                 (baseUrl config +:+ "/release", JObj [("reservation_id", reservationId)])]))).
Proof.
  split.
  - intros handler config world req price tr1 requestId tr2 authResult tr3 response
      core hdrs token settle Htok Hprice Hid Hauth Hok Hhandler.
    split.
    + destruct (approved_not_denied _ Hok) as (st & Hst & Hden).
      destruct (settle_trace core world (status response)
                  (member authResult "reservation_id") (tr3 ++ [Handled]))
        as [r Hr].
      unfold withAgon.
      fold core. fold hdrs. fold token.
      unfold bind at 1. unfold attempt at 1. rewrite Hprice.
      rewrite Htok. cbn [negb].
      unfold bind at 1. rewrite Hid.
      unfold bind at 1. unfold attempt at 1. rewrite Hauth.
      unfold bind at 1. unfold lift at 1. rewrite Hst. rewrite Hden.
      unfold bind at 1. unfold attempt at 1. unfold perform at 1.
      rewrite Hhandler.
      unfold bind at 1. rewrite Hr. unfold ret.
      rewrite <- app_assoc. reflexivity.
    + rewrite posts_app.
      rewrite (posts_until_authorized core world req token requestId
                 (extractOverride hdrs) price tr1 requestId tr2 _ tr3 Hprice Hid Hauth).
      destruct settle. reflexivity.
  - intros config world next req price tr1 requestId tr2 authResult tr3
      hdrs token reservationId asked Htok Hprice Hid Hauth Hok.
    destruct (approved_not_denied _ Hok) as (st & Hst & Hden).
    assert (Hposts : posts tr3 = [asked]).
    { apply (posts_until_authorized config world req token requestId
               (extractOverride hdrs) price tr1 requestId tr2 _ tr3 Hprice Hid Hauth). }
    assert (Hstart : agonMiddleware config world next req []
                     = bind (downstream_ends config world reservationId (next tr3))
                         (fun _ => ret Passed) (tr3 ++ [Handled])).
    { unfold agonMiddleware.
      fold hdrs. fold token.
      unfold bind at 1. unfold attempt at 1. rewrite Hprice.
      rewrite Htok. cbn [negb].
      unfold bind at 1. rewrite Hid.
      unfold bind at 1. unfold attempt at 1. rewrite Hauth.
      unfold bind at 1. unfold lift at 1. rewrite Hst. rewrite Hden.
      unfold bind at 1. unfold perform at 1. reflexivity. }
    split.
    + intros call settle Hnext Horig. split.
      * rewrite Hstart, Hnext. cbn [downstream_ends].
        unfold bind at 1. unfold bind at 1.
        rewrite (patched_end_trace config world reservationId call _ Horig).
        unfold ret. rewrite <- app_assoc. reflexivity.
      * rewrite posts_app, Hposts. destruct settle. reflexivity.
    + intros first second settle1 settle2 tr Hnext Horig1 Horig2.
      assert (Hall : posts tr = [asked; settle1; settle2]).
      { subst tr. rewrite posts_app, Hposts. destruct settle1, settle2. reflexivity. }
      split; [| split].
      * rewrite Hstart, Hnext. cbn [downstream_ends].
        unfold bind at 1. unfold bind at 1.
        rewrite (patched_end_trace config world reservationId first _ Horig1).
        unfold bind at 1.
        rewrite (patched_end_trace config world reservationId second _ Horig2).
        unfold ret. subst tr. rewrite <- !app_assoc. reflexivity.
      * exact Hall.
      * intros [Hlow Hhigh]. rewrite Hall. subst settle1 settle2. unfold settlement.
        destruct (Z.ltb_spec (end_statusCode first) 400) as [_ | Hge]; [| lia].
        destruct (Z.ltb_spec (end_statusCode second) 400) as [Hlt | _]; [lia |].
        reflexivity.
Qed.

Lemma settles_at_each_end_call_witness :
  withAgon serving_handler weather_route (merchant_world approving_backend)
    paying_request []
  = (Normal premium_page,
     [ ClockRead; RandomRead;
       Posted "https://api.agon.so/authorize"
         (JObj [ ("consumer_token", JStr "tok_1");
                 ("request_id", JStr "req_loyw3v28_k3j9x0ab");
                 ("amount", JInt 1000) ]);
       Handled;
       Posted "https://api.agon.so/consume" (JObj [("reservation_id", JStr "res_1")]) ])
  /\
  agonMiddleware express_config (merchant_world approving_backend) not_found_route
    express_request []
  = (Normal Passed,
     [ ClockRead; RandomRead;
       Posted "https://api.agon.so/authorize"
         (JObj [ ("consumer_token", JStr "tok_1");
                 ("request_id", JStr "req_loyw3v28_k3j9x0ab");
                 ("amount", JInt 1000) ]);
       Handled; Ended 404;
       Posted "https://api.agon.so/release" (JObj [("reservation_id", JStr "res_1")]) ])
  /\
  agonMiddleware express_config (merchant_world approving_backend) ended_twice_route
    express_request []
  = (Normal Passed,
     [ ClockRead; RandomRead;
       Posted "https://api.agon.so/authorize"
         (JObj [ ("consumer_token", JStr "tok_1");
                 ("request_id", JStr "req_loyw3v28_k3j9x0ab");
                 ("amount", JInt 1000) ]);
       Handled;
       Ended 200;
       Posted "https://api.agon.so/consume" (JObj [("reservation_id", JStr "res_1")]);
       Ended 500;
       Posted "https://api.agon.so/release" (JObj [("reservation_id", JStr "res_1")]) ]).
Proof.
  destruct settles_at_each_end_call as [Hnext Hexpress].
  split; [| split].
  - refine (proj1 (Hnext serving_handler weather_route (merchant_world approving_backend)
                     paying_request 1000 [] "req_loyw3v28_k3j9x0ab"
                     [ClockRead; RandomRead]
                     (JObj [ ("reservation_id", JStr "res_1");
                             ("status", JStr "approved");
                             ("amount", JInt 1000);
                             ("expires_at", JStr "2026-01-01T00:00:00Z") ])
                     [ ClockRead; RandomRead;
                       Posted "https://api.agon.so/authorize"
                         (JObj [ ("consumer_token", JStr "tok_1");
                                 ("request_id", JStr "req_loyw3v28_k3j9x0ab");
                                 ("amount", JInt 1000) ]) ]
                     premium_page _ _ _ _ _ _)); vm_compute; reflexivity.
  - refine (proj1 (proj1 (Hexpress express_config (merchant_world approving_backend)
                            not_found_route express_request 1000 []
                            "req_loyw3v28_k3j9x0ab"
                            [ClockRead; RandomRead]
                            (JObj [ ("reservation_id", JStr "res_1");
                                    ("status", JStr "approved");
                                    ("amount", JInt 1000);
                                    ("expires_at", JStr "2026-01-01T00:00:00Z") ])
                            [ ClockRead; RandomRead;
                              Posted "https://api.agon.so/authorize"
                                (JObj [ ("consumer_token", JStr "tok_1");
                                        ("request_id", JStr "req_loyw3v28_k3j9x0ab");
                                        ("amount", JInt 1000) ]) ]
                            _ _ _ _ _)
                     {| end_statusCode := 404; end_original := Normal tt |} _ _));
      vm_compute; reflexivity.
  - refine (proj1 (proj2 (Hexpress express_config (merchant_world approving_backend)
                            ended_twice_route express_request 1000 []
                            "req_loyw3v28_k3j9x0ab"
                            [ClockRead; RandomRead]
                            (JObj [ ("reservation_id", JStr "res_1");
                                    ("status", JStr "approved");
                                    ("amount", JInt 1000);
                                    ("expires_at", JStr "2026-01-01T00:00:00Z") ])
                            [ ClockRead; RandomRead;
                              Posted "https://api.agon.so/authorize"
                                (JObj [ ("consumer_token", JStr "tok_1");
                                        ("request_id", JStr "req_loyw3v28_k3j9x0ab");
                                        ("amount", JInt 1000) ]) ]
                            _ _ _ _ _)
                     {| end_statusCode := 200; end_original := Normal tt |}
                     {| end_statusCode := 500; end_original := Normal tt |} _ _ _));
      vm_compute; reflexivity.
Defined.


(** C2.  When [authorize] answers "approved" and the protected handler
    throws, [withAgon] sends [/release] for the reservation id, whatever the
    backend makes of it, and answers the caller with status 500 and the
    code [internal_error]; the status is not 402. *)
Theorem handler_failure_releases :
  forall handler config world req price tr1 requestId tr2 authResult tr3 thrown,
    let core := route_core config in
    let hdrs : gmap string HeaderValue := HString <$> next_headers req in
    let token := extractConsumerToken hdrs in
    truthy token = true ->
    calculatePrice core world req [] = (Normal price, tr1) ->
    generateRequestId world tr1 = (Normal requestId, tr2) ->
    authorize core world token requestId price (extractOverride hdrs) tr2
      = (Normal authResult, tr3) ->
    member authResult "status" = JStr "approved" ->
    handler req tr3 = Abrupt thrown ->
    exists response,
      withAgon handler config world req []
        = (Normal response,
           tr3 ++ [ Handled;
                    Posted (baseUrl core +:+ "/release")
                      (JObj [("reservation_id", member authResult "reservation_id")]) ])
      /\ status response = 500
      /\ (exists payload, body response = Some payload
                          /\ member payload "error" = JStr "internal_error")
      /\ status response <> 402.
Proof.
  intros handler config world req price tr1 requestId tr2 authResult tr3 thrown
    core hdrs token Htok Hprice Hid Hauth Hok Hhandler.
  destruct (approved_not_denied _ Hok) as (st & Hst & Hden).
  destruct (release_trace core world (member authResult "reservation_id")
              (tr3 ++ [Handled])) as [r Hr].
  eexists. split.
  - unfold withAgon.
    fold core. fold hdrs. fold token.
    unfold bind at 1. unfold attempt at 1. rewrite Hprice.
    rewrite Htok. cbn [negb].
    unfold bind at 1. rewrite Hid.
    unfold bind at 1. unfold attempt at 1. rewrite Hauth.
    unfold bind at 1. unfold lift at 1. rewrite Hst. rewrite Hden.
    unfold bind at 1. unfold attempt at 1. unfold perform at 1.
    rewrite Hhandler.
    unfold bind at 1. rewrite Hr. unfold lift.
    rewrite <- app_assoc. reflexivity.
  - simpl. repeat split; try lia. eexists. split; reflexivity.
Qed.

Lemma handler_failure_releases_witness :
  exists response,
    withAgon crashing_handler weather_route (merchant_world vanishing_backend)
      paying_request []
    = (Normal response,
       [ ClockRead; RandomRead;
         Posted "https://api.agon.so/authorize"
           (JObj [ ("consumer_token", JStr "tok_1");
                   ("request_id", JStr "req_loyw3v28_k3j9x0ab");
                   ("amount", JInt 1000) ]) ]
       ++ [ Handled;
            Posted "https://api.agon.so/release"
              (JObj [("reservation_id", JStr "res_1")]) ])
    /\ status response = 500
    /\ (exists payload, body response = Some payload
                        /\ member payload "error" = JStr "internal_error")
    /\ status response <> 402.
Proof.
  refine (handler_failure_releases crashing_handler weather_route
            (merchant_world vanishing_backend) paying_request 1000 []
            "req_loyw3v28_k3j9x0ab" [ClockRead; RandomRead]
            (JObj [ ("reservation_id", JStr "res_1");
                    ("status", JStr "approved");
                    ("amount", JInt 1000);
                    ("expires_at", JStr "2026-01-01T00:00:00Z") ])
            _ (ThrownError "database is down") _ _ _ _ _ _); vm_compute; reflexivity.
Defined.

(** The fields every payment-required body carries. *)
Lemma payment_required_fields {Req} (core : AgonPlatformConfig Req) price :
  let payload := JObj (buildPaymentRequiredResponse core price).2 in
  member payload "error" = JStr "payment_required"
  /\ let info := member payload "payment_info" in
     member info "price" = JNum (Number_of_bigint price)
     /\ member info "currency" = JStr "USDC"
     /\ member info "description"
        = JStr (default "Protected resource" (description core))
     /\ member info "mime_type" = opt_string (mimeType core)
     /\ member info "instructions"
        = JStr "Include your Agon auth token as the X-AGON-TOKEN header (create via POST /account/create-token)".
Proof.
  cbv zeta. unfold buildPaymentRequiredResponse.
  split; [reflexivity |].
  repeat split; try reflexivity.
  destruct (description core); reflexivity.
Qed.

(** C5, as stated, fails: the price is computed before the token is looked
    at, and a pricing failure is answered with status 500. *)
Lemma absent_token_always_402_fails : ~ absent_token_always_402.
Proof.
  intros H.
  destruct (H serving_handler broken_pricing_route (merchant_world approving_backend)
              bare_request eq_refl) as (response & tr & Hrun & Hst).
  vm_compute in Hrun. injection Hrun as <- _. vm_compute in Hst. discriminate.
Qed.

(** C5, amended.  When the token header is absent and the price was
    computed, [withAgon] answers with status 402 and a body whose [error]
    is "payment_required" and whose [payment_info] carries the price, the
    currency "USDC", the description, the configured MIME type and the
    instructions to obtain a token; no request goes to the backend and the
    handler is not run. *)
Theorem absent_token_payment_required :
  forall handler config world req price tr1,
    let core := route_core config in
    truthy (extractConsumerToken (HString <$> next_headers req)) = false ->
    calculatePrice core world req [] = (Normal price, tr1) ->
    exists response payload,
      withAgon handler config world req [] = (Normal response, tr1)
      /\ status response = 402
      /\ body response = Some payload
      /\ member payload "error" = JStr "payment_required"
      /\ (let info := member payload "payment_info" in
          member info "price" = JNum (Number_of_bigint price)
          /\ member info "currency" = JStr "USDC"
          /\ member info "description"
             = JStr (default "Protected resource" (description core))
          /\ member info "mime_type" = opt_string (mimeType core)
          /\ member info "instructions"
             = JStr "Include your Agon auth token as the X-AGON-TOKEN header (create via POST /account/create-token)")
      /\ posts tr1 = []
      /\ handler_runs tr1 = 0%nat.
Proof.
  intros handler config world req price tr1 core Htok Hprice.
  do 2 eexists. split; [| split; [| split]].
  - unfold withAgon. fold core.
    unfold bind at 1. unfold attempt at 1. rewrite Hprice.
    rewrite Htok. cbn [negb]. reflexivity.
  - reflexivity.
  - reflexivity.
  - destruct (payment_required_fields core price) as (He & Hinfo).
    split; [exact He |]. split; [exact Hinfo |].
    split.
    + apply (calculatePrice_posts core world req [] _ _ Hprice).
    + apply (calculatePrice_handler_runs core world req [] _ _ Hprice).
Qed.

Lemma absent_token_payment_required_witness :
  exists response payload,
    withAgon serving_handler weather_route (merchant_world approving_backend)
      bare_request [] = (Normal response, [])
    /\ status response = 402
    /\ body response = Some payload
    /\ member payload "error" = JStr "payment_required"
    /\ (let info := member payload "payment_info" in
        member info "price" = JNum (Number_of_bigint 1000)
        /\ member info "currency" = JStr "USDC"
        /\ member info "description" = JStr "Premium weather data"
        /\ member info "mime_type" = JUndefined
        /\ member info "instructions"
           = JStr "Include your Agon auth token as the X-AGON-TOKEN header (create via POST /account/create-token)")
    /\ posts [] = []
    /\ handler_runs [] = 0%nat.
Proof.
  refine (absent_token_payment_required serving_handler weather_route
            (merchant_world approving_backend) bare_request 1000 [] _ _);
    vm_compute; reflexivity.
Defined.


Lemma denied_is_denied authResult :
  member authResult "status" = JStr "denied" ->
  exists st, get_prop authResult "status" = Normal st /\ is_string st "denied" = true.
Proof.
  intros H. unfold get_prop.
  destruct authResult; simpl in *; try discriminate.
  rewrite H. eauto.
Qed.

(** C6.  When [authorize] answers "denied", the interceptor answers with
    status 402 and the payment-required body extended with the backend's
    reason under [denial_reason], and the protected handler is not run:
    in [withAgon] and in the Express middleware, which does not call
    [next()]. *)
Theorem denied_never_served :
  (forall handler config world req price tr1 requestId tr2 authResult tr3,
      let core := route_core config in
      let hdrs : gmap string HeaderValue := HString <$> next_headers req in
      let token := extractConsumerToken hdrs in
      truthy token = true ->
      calculatePrice core world req [] = (Normal price, tr1) ->
      generateRequestId world tr1 = (Normal requestId, tr2) ->
      authorize core world token requestId price (extractOverride hdrs) tr2
        = (Normal authResult, tr3) ->
      member authResult "status" = JStr "denied" ->
      exists response payload,
        withAgon handler config world req [] = (Normal response, tr3)
        /\ status response = 402
        /\ body response = Some payload
        /\ payload = JObj ((buildPaymentRequiredResponse core price).2
                           ++ [("denial_reason", member authResult "reason")])
        /\ member payload "denial_reason" = member authResult "reason"
        /\ member payload "error" = JStr "payment_required"
        /\ member payload "payment_info"
           = member (JObj (buildPaymentRequiredResponse core price).2) "payment_info"
        /\ handler_runs tr3 = 0%nat)
  /\
  (forall config world next req price tr1 requestId tr2 authResult tr3,
      let hdrs : gmap string HeaderValue := default ∅ (x_headers req) in
      let token := extractConsumerToken hdrs in
      truthy token = true ->
      calculatePrice config world req [] = (Normal price, tr1) ->
      generateRequestId world tr1 = (Normal requestId, tr2) ->
      authorize config world token requestId price (extractOverride hdrs) tr2
        = (Normal authResult, tr3) ->
      member authResult "status" = JStr "denied" ->
      exists payload,
        agonMiddleware config world next req [] = (Normal (Json 402 payload), tr3)
        /\ payload = JObj ((buildPaymentRequiredResponse config price).2
                           ++ [("denial_reason", member authResult "reason")])
        /\ member payload "denial_reason" = member authResult "reason"
        /\ member payload "error" = JStr "payment_required"
        /\ member payload "payment_info"
           = member (JObj (buildPaymentRequiredResponse config price).2) "payment_info"
        /\ handler_runs tr3 = 0%nat).
Proof.
  split.
  - intros handler config world req price tr1 requestId tr2 authResult tr3
      core hdrs token Htok Hprice Hid Hauth Hden.
    destruct (denied_is_denied _ Hden) as (st & Hst & Hd).
    do 2 eexists. split; [| split; [| split; [| split]]].
    + unfold withAgon. fold core. fold hdrs. fold token.
      unfold bind at 1. unfold attempt at 1. rewrite Hprice.
      rewrite Htok. cbn [negb].
      unfold bind at 1. rewrite Hid.
      unfold bind at 1. unfold attempt at 1. rewrite Hauth.
      unfold bind at 1. unfold lift at 1. rewrite Hst. rewrite Hd.
      reflexivity.
    + reflexivity.
    + reflexivity.
    + reflexivity.
    + repeat split; try reflexivity.
      eapply handler_idle_until_authorized; eassumption.
  - intros config world next req price tr1 requestId tr2 authResult tr3
      hdrs token Htok Hprice Hid Hauth Hden.
    destruct (denied_is_denied _ Hden) as (st & Hst & Hd).
    eexists. split; [| split].
    + unfold agonMiddleware. fold hdrs. fold token.
      unfold bind at 1. unfold attempt at 1. rewrite Hprice.
      rewrite Htok. cbn [negb].
      unfold bind at 1. rewrite Hid.
      unfold bind at 1. unfold attempt at 1. rewrite Hauth.
      unfold bind at 1. unfold lift at 1. rewrite Hst. rewrite Hd.
      reflexivity.
    + reflexivity.
    + repeat split; try reflexivity.
      eapply handler_idle_until_authorized; eassumption.
Qed.

Lemma denied_never_served_witness :
  (exists response payload,
      withAgon serving_handler weather_route (merchant_world denying_backend)
        paying_request []
      = (Normal response,
         [ ClockRead; RandomRead;
           Posted "https://api.agon.so/authorize"
             (JObj [ ("consumer_token", JStr "tok_1");
                     ("request_id", JStr "req_loyw3v28_k3j9x0ab");
                     ("amount", JInt 1000) ]) ])
      /\ status response = 402
      /\ body response = Some payload
      /\ member payload "denial_reason" = JStr "insufficient_balance")
  /\
  (exists payload,
      agonMiddleware express_config (merchant_world denying_backend)
        not_found_route express_request []
      = (Normal (Json 402 payload),
         [ ClockRead; RandomRead;
           Posted "https://api.agon.so/authorize"
             (JObj [ ("consumer_token", JStr "tok_1");
                     ("request_id", JStr "req_loyw3v28_k3j9x0ab");
                     ("amount", JInt 1000) ]) ])
      /\ member payload "denial_reason" = JStr "insufficient_balance").
Proof.
  destruct denied_never_served as [Hnext Hexpress].
  pose (denial := JObj [ ("reservation_id", JNull);
                         ("status", JStr "denied");
                         ("amount", JInt 1000);
                         ("expires_at", JNull);
                         ("reason", JStr "insufficient_balance") ]).
  split.
  - destruct (Hnext serving_handler weather_route (merchant_world denying_backend)
                paying_request 1000 [] "req_loyw3v28_k3j9x0ab"
                [ClockRead; RandomRead] denial
                [ ClockRead; RandomRead;
                  Posted "https://api.agon.so/authorize"
                    (JObj [ ("consumer_token", JStr "tok_1");
                            ("request_id", JStr "req_loyw3v28_k3j9x0ab");
                            ("amount", JInt 1000) ]) ]
                eq_refl eq_refl eq_refl eq_refl eq_refl)
      as (response & payload & Hrun & Hst & Hbody & _ & Hreason & _).
    exists response, payload. repeat split; assumption.
  - destruct (Hexpress express_config (merchant_world denying_backend)
                not_found_route express_request 1000 [] "req_loyw3v28_k3j9x0ab"
                [ClockRead; RandomRead] denial
                [ ClockRead; RandomRead;
                  Posted "https://api.agon.so/authorize"
                    (JObj [ ("consumer_token", JStr "tok_1");
                            ("request_id", JStr "req_loyw3v28_k3j9x0ab");
                            ("amount", JInt 1000) ]) ]
                eq_refl eq_refl eq_refl eq_refl eq_refl)
      as (payload & Hrun & _ & Hreason & _).
    exists payload. split; assumption.
Defined.

(** C8, as stated, fails: a token stored under a mixed-case key is not
    found, and the answer is [null] although the header is there. *)
Lemma mixed_case_token_missed :
  let hdrs : gmap string HeaderValue := {[ "X-Agon-Token" := HString "tok_1" ]} in
  toLowerCase "X-Agon-Token" = toLowerCase CONSUMER_TOKEN
  /\ hdrs !! "X-Agon-Token" = Some (HString "tok_1")
  /\ extractConsumerToken hdrs = JNull.
Proof. vm_compute. repeat split; reflexivity. Qed.

(** C8, amended.  [extractConsumerToken] reads two keys only, the
    lower-case [x-agon-token] and, when that one is absent, the upper-case
    [X-AGON-TOKEN]: maps that agree on these two keys give the same answer.
    It returns the string found there when it is not empty (the first
    element when an array is found), and [null] when both keys are absent. *)
Theorem token_read_from_two_keys :
  (forall hdrs hdrs' : gmap string HeaderValue,
      hdrs !! "x-agon-token" = hdrs' !! "x-agon-token" ->
      hdrs !! "X-AGON-TOKEN" = hdrs' !! "X-AGON-TOKEN" ->
      extractConsumerToken hdrs = extractConsumerToken hdrs')
  /\ (forall (hdrs : gmap string HeaderValue) v,
         hdrs !! "x-agon-token" = Some (HString v) -> v <> "" ->
         extractConsumerToken hdrs = JStr v)
  /\ (forall (hdrs : gmap string HeaderValue) v,
         hdrs !! "x-agon-token" = None ->
         hdrs !! "X-AGON-TOKEN" = Some (HString v) -> v <> "" ->
         extractConsumerToken hdrs = JStr v)
  /\ (forall (hdrs : gmap string HeaderValue) v rest,
         hdrs !! "x-agon-token" = Some (HArray (v :: rest)) ->
         extractConsumerToken hdrs = JStr v)
  /\ (forall hdrs : gmap string HeaderValue,
         hdrs !! "x-agon-token" = None ->
         hdrs !! "X-AGON-TOKEN" = None ->
         extractConsumerToken hdrs = JNull).
Proof.
  assert (Hlow : toLowerCase CONSUMER_TOKEN = "x-agon-token") by reflexivity.
  assert (Hup : CONSUMER_TOKEN = "X-AGON-TOKEN") by reflexivity.
  assert (Hne : forall v, v <> "" -> negb (String.eqb v "") = true).
  { intros v Hv. destruct (String.eqb_spec v ""); [contradiction | reflexivity]. }
  unfold extractConsumerToken. rewrite Hlow, Hup.
  split; [| split; [| split; [| split]]].
  - intros hdrs hdrs' H1 H2. rewrite H1, H2. reflexivity.
  - intros hdrs v H1 Hv. rewrite H1. simpl. rewrite (Hne v Hv). reflexivity.
  - intros hdrs v H1 H2 Hv. rewrite H1, H2. simpl. rewrite (Hne v Hv). reflexivity.
  - intros hdrs v rest H1. rewrite H1. reflexivity.
  - intros hdrs H1 H2. rewrite H1, H2. reflexivity.
Qed.

Lemma token_read_from_two_keys_witness :
  extractConsumerToken ({[ "x-agon-token" := HString "tok_1" ]}
                          : gmap string HeaderValue) = JStr "tok_1"
  /\ extractConsumerToken ({[ "X-AGON-TOKEN" := HString "tok_2" ]}
                             : gmap string HeaderValue) = JStr "tok_2"
  /\ extractConsumerToken ({[ "x-agon-token" := HArray ["tok_3"; "tok_4"] ]}
                             : gmap string HeaderValue) = JStr "tok_3"
  /\ extractConsumerToken (∅ : gmap string HeaderValue) = JNull
  /\ extractConsumerToken ({[ "X-Agon-Token" := HString "tok_1" ]}
                             : gmap string HeaderValue)
     = extractConsumerToken (∅ : gmap string HeaderValue).
Proof.
  destruct token_read_from_two_keys as (Hsame & Hlow & Hup & Harr & Hnone).
  split; [| split; [| split; [| split]]].
  - apply (Hlow _ "tok_1"); [reflexivity | discriminate].
  - apply (Hup _ "tok_2"); [reflexivity | reflexivity | discriminate].
  - apply (Harr _ "tok_3" ["tok_4"]). reflexivity.
  - apply Hnone; reflexivity.
  - apply Hsame; reflexivity.
Defined.


(** Integers of up to 53 bits are doubles. *)
Lemma Number_of_bigint_safe z :
  Z.abs z <= MAX_SAFE_INTEGER -> Number_of_bigint z = Finite z.
Proof.
  unfold MAX_SAFE_INTEGER. intros Hz.
  assert (Ha : 0 <= Z.abs z < 2 ^ 53) by lia.
  assert (He : Z.log2 (Z.abs z) - 52 <= 0).
  { destruct (Z.eq_dec (Z.abs z) 0) as [-> | Hn]; [vm_compute; discriminate |].
    assert (Z.log2 (Z.abs z) < 53) by (apply Z.log2_lt_pow2; lia). lia. }
  unfold Number_of_bigint, round_to_double.
  destruct (Z.leb_spec (Z.log2 (Z.abs z) - 52) 0) as [_ | Hgt]; [| lia].
  assert (Hbig : (2 ^ 53 < 2 ^ 1024)) by reflexivity.
  destruct (Z.leb_spec (2 ^ 1024) (Z.abs z)) as [Hle | _]; [lia |].
  rewrite Z.mul_comm, Z.abs_sgn. reflexivity.
Qed.

Lemma authorize_body_amount token requestId amount override :
  member (authorize_body token requestId amount override) "amount"
  = JNum (Number_of_bigint amount).
Proof. unfold authorize_body. destruct (truthy override); reflexivity. Qed.

(** C10, as stated, fails: 2^53 is above the bound and is a double. *)
Lemma unsafe_amounts_never_exact_fails : ~ unsafe_amounts_never_exact.
Proof.
  intros H.
  apply (H (JStr "tok_1") "req_1" (2 ^ 53) JNull); [reflexivity |].
  rewrite authorize_body_amount. reflexivity.
Qed.

(** C10, amended.  [authorize] sends [Number(amount)] and the
    payment-required body carries [Number(price)]; for an amount of
    absolute value at most 2^53 - 1 that is the amount itself.  Above the
    bound the nearest double is sent, which can differ from the amount
    (2^53 + 1 goes out as 2^53) and need not (2^53 goes out unchanged). *)
Theorem safe_amounts_exact_on_the_wire :
  (forall (Req : Type) (core : AgonPlatformConfig Req) world token requestId
          amount override tr,
      Z.abs amount <= MAX_SAFE_INTEGER ->
      exists r payload,
        authorize core world token requestId amount override tr
          = (r, tr ++ [Posted (baseUrl core +:+ "/authorize") payload])
        /\ member payload "amount" = JInt amount)
  /\ (forall (Req : Type) (core : AgonPlatformConfig Req) price,
         Z.abs price <= MAX_SAFE_INTEGER ->
         member (member (JObj (buildPaymentRequiredResponse core price).2)
                   "payment_info") "price" = JInt price)
  /\ (forall token requestId override,
         member (authorize_body token requestId (2 ^ 53 + 1) override) "amount"
         = JInt (2 ^ 53))
  /\ (forall token requestId override,
         member (authorize_body token requestId (2 ^ 53) override) "amount"
         = JInt (2 ^ 53)).
Proof.
  split; [| split; [| split]].
  - intros Req core world token requestId amount override tr Hsafe.
    unfold authorize.
    destruct (post_appends core world "/authorize"
                (authorize_body token requestId amount override) tr) as [r Hr].
    exists r, (authorize_body token requestId amount override).
    split; [exact Hr |].
    rewrite authorize_body_amount, (Number_of_bigint_safe _ Hsafe). reflexivity.
  - intros Req core price Hsafe.
    destruct (payment_required_fields core price) as (_ & Hprice & _).
    cbv zeta in Hprice. rewrite Hprice, (Number_of_bigint_safe _ Hsafe). reflexivity.
  - intros. rewrite authorize_body_amount. reflexivity.
  - intros. rewrite authorize_body_amount. reflexivity.
Qed.

Lemma safe_amounts_exact_on_the_wire_witness :
  (exists r payload,
      authorize express_config (merchant_world approving_backend) (JStr "tok_1")
        "req_1" 9007199254740991 JNull []
      = (r, [] ++ [Posted (baseUrl express_config +:+ "/authorize") payload])
      /\ member payload "amount" = JInt 9007199254740991)
  /\ member (member (JObj (buildPaymentRequiredResponse express_config
                             (-9007199254740991)).2)
               "payment_info") "price" = JInt (-9007199254740991).
Proof.
  destruct safe_amounts_exact_on_the_wire as (Hauth & Hprice & _).
  split.
  - apply Hauth. vm_compute. discriminate.
  - apply Hprice. vm_compute. discriminate.
Defined.

End PlatformFacts.

Module ClientFacts.
Import Js Types Client Observe Samples Stated.

(** Closes a goal [exists r, run = (r, trace) /\ property r] once the run
    has been evaluated. *)
Ltac finish := eexists; split; [reflexivity | simpl; auto].

Section Traces.
Variable this : AgonClient.
Variable world : World.

(** The HTTP client sends one request and fails with an [AgonError] only. *)
Lemma request_appends method path payload tr :
  exists r,
    request this world method path payload tr
    = (r, tr ++ [Requested method path (request_headers this) payload])
    /\ match r with
       | Normal _ => True
       | Abrupt t => instanceof_AgonError t = true
       end.
Proof.
  unfold request, try_catch, bind, perform, lift, throw, ret.
  destruct (backend world tr method _ payload) as [r | | cause]; simpl.
  - destruct (json r) as [data | t]; simpl.
    + destruct (negb (ok r)); simpl; [| finish].
      destruct (get_prop data "error") as [e | t]; simpl.
      * destruct (truthy e); simpl; finish.
      * destruct t; simpl; finish.
    + destruct t; simpl; finish.
  - finish.
  - finish.
Qed.

Lemma requireAuth_pure tr :
  requireAuth this tr = (Normal tt, tr)
  \/ exists e, requireAuth this tr = (Abrupt (ThrownAgon e), tr).
Proof.
  unfold requireAuth, throw, ret.
  destruct (apiKey this) as [k |]; [destruct (String.eqb k "") |]; eauto.
Qed.

Lemma requireAuth_with_key key tr :
  apiKey this = Some key -> key <> "" -> requireAuth this tr = (Normal tt, tr).
Proof.
  intros Hk Hne. unfold requireAuth. rewrite Hk.
  destruct (String.eqb_spec key ""); [contradiction | reflexivity].
Qed.

End Traces.

(** C7, as stated, fails: a [ttl] of 1000 is sent as 1000. *)
Lemma ttl_always_clamped_fails : ~ ttl_always_clamped.
Proof.
  intros H.
  destruct (H (Some {| ttl := Some (Finite 1000); maxAmount := None |}))
    as (z & Hz & Hrange).
  vm_compute in Hz. injection Hz as <-. lia.
Qed.

(** C7, amended.  [createAuthToken] posts to [/account/create-token] a
    body whose [ttl] is the [opts.ttl] it was given, unchanged, and 60 when
    [opts.ttl] is undefined; nothing is clamped on the way, so the value
    sent lies in 1..300 exactly when the value passed does. *)
Theorem ttl_forwarded_or_defaulted :
  forall this world opts tr key,
    apiKey this = Some key -> key <> "" ->
    (exists r,
        createAuthToken this world opts tr
        = (r, tr ++ [Requested "POST" "/account/create-token" (request_headers this)
                       (Some (create_token_body opts))]))
    /\ member (create_token_body opts) "ttl"
       = match opts ≫= ttl with
         | Some n => JNum n
         | None => JInt 60
         end.
Proof.
  intros this world opts tr key Hkey Hne. split.
  - unfold createAuthToken, bind. rewrite (requireAuth_with_key this key tr Hkey Hne).
    unfold post.
    destruct (request_appends this world "POST" "/account/create-token"
                (Some (create_token_body opts)) tr) as (r & Hr & _).
    exists r. exact Hr.
  - destruct opts as [[[n |] [cap |]] |]; reflexivity.
Qed.


Lemma ttl_forwarded_or_defaulted_witness :
  (exists r,
      createAuthToken consumer (consumer_world x402_merchant)
        (Some {| ttl := Some (Finite 1000); maxAmount := None |}) []
      = (r, [] ++ [Requested "POST" "/account/create-token" (request_headers consumer)
                     (Some (create_token_body
                              (Some {| ttl := Some (Finite 1000); maxAmount := None |})))]))
  /\ member (create_token_body (Some {| ttl := Some (Finite 1000); maxAmount := None |}))
       "ttl" = JInt 1000.
Proof.
  apply (ttl_forwarded_or_defaulted consumer (consumer_world x402_merchant)
           (Some {| ttl := Some (Finite 1000); maxAmount := None |}) [] "ak_1").
  - reflexivity.
  - discriminate.
Defined.

Section Denials.
Variable this : AgonClient.
Variable world : World.

Lemma createAuthToken_requires_auth opts tr created tr1 :
  createAuthToken this world opts tr = (Normal created, tr1) ->
  requireAuth this tr = (Normal tt, tr).
Proof.
  unfold createAuthToken, bind.
  destruct (requireAuth_pure this tr) as [H | [e H]]; rewrite H.
  - reflexivity.
  - discriminate.
Qed.

Lemma payment_required_truthy res :
  truthy match headers_get PAYMENT_REQUIRED (headers res) with
         | Some v => JStr v
         | None => JNull
         end = x402_challenge res.
Proof.
  unfold x402_challenge.
  destruct (headers_get PAYMENT_REQUIRED (headers res)); reflexivity.
Qed.

(** [fetch] up to the first 402 that is not an x402 challenge. *)
Lemma fetch_native_402 url init created tr1 token res :
  let hdrs := headers_set CONSUMER_TOKEN (ToString token) (new_Headers init) in
  let sent := tr1 ++ [Dispatched url (init_method_of init) hdrs (init_body_of init)] in
  createAuthToken this world (Some no_opts) [] = (Normal created, tr1) ->
  get_prop created "token" = Normal token ->
  merchant world tr1 url (init_method_of init) hdrs (init_body_of init) = Normal res ->
  status res = 402 ->
  x402_challenge res = false ->
  fetch this world url init []
  = match body res with
    | None =>
        (Abrupt (ThrownAgon
                   (new_AgonError 402 (JStr "insufficient_balance")
                      (JStr "Payment required but no details available")
                      JUndefined)), sent)
    | Some errorBody =>
        match denial_of_body errorBody with
        | Abrupt t => (Abrupt t, sent)
        | Normal error =>
            if isSpendingLimitExceeded error && isOverrideAvailable error
            then handleSpendingLimitOverride this world url init error sent
            else (Abrupt (ThrownAgon error), sent)
        end
    end.
Proof.
  intros hdrs sent Hcreated Htoken Hres H402 Hnative.
  unfold fetch.
  unfold bind at 1. rewrite (createAuthToken_requires_auth _ _ _ _ Hcreated).
  unfold bind at 1. rewrite Hcreated.
  unfold bind at 1. unfold lift at 1. rewrite Htoken.
  unfold bind at 1. unfold dispatch, perform. fold hdrs. rewrite Hres.
  rewrite H402. change (negb (402 =? 402)) with false. cbv iota zeta.
  rewrite payment_required_truthy, Hnative.
  unfold bind at 1. unfold attempt, lift, json.
  destruct (body res) as [errorBody |]; [| reflexivity].
  unfold bind at 1.
  destruct (denial_of_body errorBody) as [error | t]; [| reflexivity].
  destruct (isSpendingLimitExceeded error && isOverrideAvailable error); reflexivity.
Qed.

End Denials.

Lemma is_string_eq v s : is_string v s = true <-> v = JStr s.
Proof.
  destruct v; simpl; try (split; [discriminate | discriminate]).
  destruct (String.eqb_spec s0 s); split; congruence.
Qed.

Lemma is_true_eq v : is_true v = true <-> v = JBool true.
Proof.
  destruct v as [| | [|] | | | |]; simpl; split; congruence.
Qed.

(** The scenario of the specification: the denial is overridable, the
    callback approves two dollars, the retry is served. *)
Example overridable_denial_recovered :
  let '(out, tr) := fetch consumer
                      (consumer_world (limiting_merchant (plain 200 (JStr "premium"))))
                      merchant_url None [] in
  out = Normal (plain 200 (JStr "premium"))
  /\ steps tr = [TokenIssued; Sent; ConsumerAsked; OverrideSigned; TokenIssued; Sent].
Proof. vm_compute. split; reflexivity. Qed.

(** A retry that comes back with status 402 ends the call there: nothing
    is issued, signed or dispatched after it, and the call throws.  What it
    throws is the original denial when the body is not JSON, and otherwise
    what [override_failure_of_body] makes of the body. *)
Lemma override_retry_402_is_terminal :
  forall this world url init error tr callback override tr2 created tr3
         retryToken signature msg retryRes,
    let question := limit_question error in
    let signMsg := getOverrideSignMessage error in
    let retryHeaders :=
      headers_set "X-AGON-OVERRIDE-MSG" (ToString msg)
        (headers_set "X-AGON-OVERRIDE-SIG" (ToString signature)
           (headers_set CONSUMER_TOKEN (ToString retryToken) (new_Headers init))) in
    onLimitExceeded this = Some callback ->
    callback question tr = Normal (JStr "approve") ->
    truthy signMsg = true ->
    signOverride this world signMsg (tr ++ [Asked question]) = (Normal override, tr2) ->
    createAuthToken this world (Some no_opts) tr2 = (Normal created, tr3) ->
    get_prop created "token" = Normal retryToken ->
    get_prop override "signature" = Normal signature ->
    get_prop override "message" = Normal msg ->
    merchant world tr3 url (init_method_of init) retryHeaders (init_body_of init)
      = Normal retryRes ->
    status retryRes = 402 ->
    handleSpendingLimitOverride this world url init error tr
    = (Abrupt match body retryRes with
              | None => ThrownAgon error
              | Some retryBody =>
                  match override_failure_of_body retryBody with
                  | Normal failure => ThrownAgon failure
                  | Abrupt t => t
                  end
              end,
       tr3 ++ [Dispatched url (init_method_of init) retryHeaders (init_body_of init)]).
Proof.
  intros this world url init error tr callback override tr2 created tr3
    retryToken signature msg retryRes question signMsg retryHeaders
    Hcb Hdecision Hmsg Hsign Hcreated Htoken Hsig Hmessage Hretry H402.
  unfold handleSpendingLimitOverride. rewrite Hcb.
  fold question. fold signMsg.
  unfold bind at 1. unfold perform at 1. rewrite Hdecision.
  change (negb (is_string (JStr "approve") "approve")) with false. cbv iota.
  rewrite Hmsg. cbn [negb].
  unfold bind at 1. rewrite Hsign.
  unfold bind at 1. rewrite Hcreated.
  unfold bind at 1. unfold lift at 1. rewrite Htoken.
  unfold bind at 1. unfold lift at 1. rewrite Hsig.
  unfold bind at 1. unfold lift at 1. rewrite Hmessage.
  unfold bind at 1. unfold dispatch, perform. fold retryHeaders. rewrite Hretry.
  rewrite H402. change (402 =? 402) with true. cbv iota.
  unfold bind at 1. unfold attempt, lift, json.
  destruct (body retryRes) as [retryBody |]; [| reflexivity].
  unfold bind. destruct (override_failure_of_body retryBody); reflexivity.
Qed.

(** A retry that comes back with any other status is the outcome of the
    call. *)
Lemma override_retry_served :
  forall this world url init error tr callback override tr2 created tr3
         retryToken signature msg retryRes,
    let question := limit_question error in
    let signMsg := getOverrideSignMessage error in
    let retryHeaders :=
      headers_set "X-AGON-OVERRIDE-MSG" (ToString msg)
        (headers_set "X-AGON-OVERRIDE-SIG" (ToString signature)
           (headers_set CONSUMER_TOKEN (ToString retryToken) (new_Headers init))) in
    onLimitExceeded this = Some callback ->
    callback question tr = Normal (JStr "approve") ->
    truthy signMsg = true ->
    signOverride this world signMsg (tr ++ [Asked question]) = (Normal override, tr2) ->
    createAuthToken this world (Some no_opts) tr2 = (Normal created, tr3) ->
    get_prop created "token" = Normal retryToken ->
    get_prop override "signature" = Normal signature ->
    get_prop override "message" = Normal msg ->
    merchant world tr3 url (init_method_of init) retryHeaders (init_body_of init)
      = Normal retryRes ->
    status retryRes <> 402 ->
    handleSpendingLimitOverride this world url init error tr
    = (Normal retryRes,
       tr3 ++ [Dispatched url (init_method_of init) retryHeaders (init_body_of init)]).
Proof.
  intros this world url init error tr callback override tr2 created tr3
    retryToken signature msg retryRes question signMsg retryHeaders
    Hcb Hdecision Hmsg Hsign Hcreated Htoken Hsig Hmessage Hretry Hserved.
  unfold handleSpendingLimitOverride. rewrite Hcb.
  fold question. fold signMsg.
  unfold bind at 1. unfold perform at 1. rewrite Hdecision.
  change (negb (is_string (JStr "approve") "approve")) with false. cbv iota.
  rewrite Hmsg. cbn [negb].
  unfold bind at 1. rewrite Hsign.
  unfold bind at 1. rewrite Hcreated.
  unfold bind at 1. unfold lift at 1. rewrite Htoken.
  unfold bind at 1. unfold lift at 1. rewrite Hsig.
  unfold bind at 1. unfold lift at 1. rewrite Hmessage.
  unfold bind at 1. unfold dispatch, perform. fold retryHeaders. rewrite Hretry.
  destruct (Z.eqb_spec (status retryRes) 402) as [Heq | _]; [contradiction |].
  reflexivity.
Qed.

(** Only a [null] (or [undefined]) body keeps the override failure from
    being an [AgonError]. *)
Lemma override_failure_of_body_spec retryBody :
  if is_nullish retryBody
  then override_failure_of_body retryBody
       = Abrupt (TypeError "Cannot read properties of null")
  else exists failure,
      override_failure_of_body retryBody = Normal failure
      /\ statusCode failure = 402
      /\ code failure = nullish_or (member retryBody "error")
                          (JStr "spending_limit_exceeded").
Proof.
  unfold override_failure_of_body, get_prop.
  destruct (is_nullish retryBody); [reflexivity |].
  eexists. split; [reflexivity |]. split; reflexivity.
Qed.

(** C3.  The retry is dispatched once and nothing follows it, but the
    error is not always an [AgonError]: when the merchant answers the retry
    with status 402 and the JSON body [null], reading [retryBody.error]
    throws a [TypeError], outside the [try] around [retryRes.json()]. *)
Theorem override_retry_null_body :
  let '(out, tr) := fetch consumer
                      (consumer_world (limiting_merchant (plain 402 JNull)))
                      merchant_url None [] in
  out = Abrupt (TypeError "Cannot read properties of null")
  /\ steps tr = [TokenIssued; Sent; ConsumerAsked; OverrideSigned; TokenIssued; Sent].
Proof. vm_compute. split; reflexivity. Qed.


(** *** Histories of a paid fetch *)

Section Extends.
Context {A : Type}.
Variable Q : Event -> Prop.

Lemma extends_ret (a : A) : extends Q (ret a).
Proof. intros tr. exists (Normal a), []. rewrite app_nil_r. split; [reflexivity | constructor]. Qed.

Lemma extends_throw t : extends Q (throw (A := A) t).
Proof. intros tr. exists (Abrupt t), []. rewrite app_nil_r. split; [reflexivity | constructor]. Qed.

Lemma extends_lift (c : Completion A) : extends Q (lift c).
Proof. intros tr. exists c, []. rewrite app_nil_r. split; [reflexivity | constructor]. Qed.

Lemma extends_perform e (answer : list Event -> Completion A) :
  Q e -> extends Q (perform e answer).
Proof.
  intros He tr. exists (answer tr), [e]. split; [reflexivity |].
  constructor; [exact He | constructor].
Qed.

Lemma extends_try_catch (c : Eff Event A) h :
  extends Q c -> (forall t, extends Q (h t)) -> extends Q (try_catch c h).
Proof.
  intros Hc Hh tr. unfold try_catch.
  destruct (Hc tr) as (r & evs & -> & Hevs).
  destruct r as [a | t].
  - exists (Normal a), evs. auto.
  - destruct (Hh t (tr ++ evs)) as (r' & evs' & -> & Hevs').
    exists r', (evs ++ evs'). rewrite app_assoc. split; [reflexivity |].
    apply Forall_app. auto.
Qed.

Lemma extends_attempt (c : Eff Event A) : extends Q c -> extends Q (attempt c).
Proof.
  intros Hc tr. unfold attempt.
  destruct (Hc tr) as (r & evs & -> & Hevs). eauto.
Qed.

End Extends.

Lemma extends_bind {A B} Q (c : Eff Event A) (k : A -> Eff Event B) :
  extends Q c -> (forall a, extends Q (k a)) -> extends Q (bind c k).
Proof.
  intros Hc Hk tr. unfold bind.
  destruct (Hc tr) as (r & evs & -> & Hevs).
  destruct r as [a | t].
  - destruct (Hk a (tr ++ evs)) as (r' & evs' & -> & Hevs').
    exists r', (evs ++ evs'). rewrite app_assoc. split; [reflexivity |].
    apply Forall_app. auto.
  - exists (Abrupt t), evs. auto.
Qed.

Lemma extends_weaken {A} (Q Q' : Event -> Prop) (c : Eff Event A) :
  (forall e, Q e -> Q' e) -> extends Q c -> extends Q' c.
Proof.
  intros Himp Hc tr. destruct (Hc tr) as (r & evs & -> & Hevs).
  exists r, evs. split; [reflexivity |]. eapply Forall_impl; eauto.
Qed.

Lemma quiet_keyed id e : quiet e -> keyed id e.
Proof. intros [Hc Hp]. split; [exact Hc |]. intros v Hv. destruct (Hp v Hv). Qed.

Lemma clock_reads_app a b : clock_reads (a ++ b) = (clock_reads a + clock_reads b)%nat.
Proof. unfold clock_reads. rewrite List.filter_app, length_app. reflexivity. Qed.

Lemma proxy_ids_app a b : proxy_ids (a ++ b) = proxy_ids a ++ proxy_ids b.
Proof. unfold proxy_ids. apply omap_app. Qed.

Lemma keyed_history id evs :
  Forall (keyed id) evs ->
  clock_reads evs = 0%nat /\ Forall (fun v => v = JStr id) (proxy_ids evs).
Proof.
  induction 1 as [| e evs [Hclock Hkey] _ [IHc IHp]].
  - split; [reflexivity | constructor].
  - split.
    + change (e :: evs) with ([e] ++ evs). rewrite clock_reads_app, IHc.
      destruct e; try reflexivity. contradiction.
    + change (e :: evs) with ([e] ++ evs). rewrite proxy_ids_app.
      apply Forall_app. split; [| exact IHp].
      unfold proxy_ids. cbn [omap list_omap].
      destruct (step_of e) eqn:Hstep; cbn; try constructor; try constructor.
      apply Hkey. reflexivity.
Qed.

Lemma quiet_history evs :
  Forall quiet evs -> clock_reads evs = 0%nat /\ proxy_ids evs = [].
Proof.
  induction 1 as [| e evs [Hclock Hkey] _ [IHc IHp]].
  - split; reflexivity.
  - split.
    + change (e :: evs) with ([e] ++ evs). rewrite clock_reads_app, IHc.
      destruct e; try reflexivity. contradiction.
    + change (e :: evs) with ([e] ++ evs). rewrite proxy_ids_app, IHp.
      unfold proxy_ids. cbn [omap list_omap].
      destruct (step_of e) eqn:Hstep; cbn; try reflexivity.
      destruct (Hkey _ eq_refl).
Qed.


Lemma quiet_requested method path hdrs payload :
  String.eqb path "/proxy" = false -> quiet (Requested method path hdrs payload).
Proof.
  intros Hpath. split; [discriminate |]. intros v. cbn. rewrite Hpath.
  destruct (String.eqb path "/account/create-token"); discriminate.
Qed.

Lemma quiet_dispatched url method hdrs payload : quiet (Dispatched url method hdrs payload).
Proof. split; [discriminate | intros v; discriminate]. Qed.

Lemma quiet_asked question : quiet (Asked question).
Proof. split; [discriminate | intros v; discriminate]. Qed.

Lemma quiet_signed msg : quiet (Signed msg).
Proof. split; [discriminate | intros v; discriminate]. Qed.

Lemma keyed_proxy_post id hdrs payload :
  member payload "request_id" = JStr id ->
  keyed id (Requested "POST" "/proxy" hdrs (Some payload)).
Proof.
  intros Hid. split; [discriminate |]. intros v Hv. cbn in Hv.
  injection Hv as <-. exact Hid.
Qed.

Create HintDb history.
#[local] Hint Resolve quiet_dispatched quiet_asked quiet_signed quiet_keyed : history.

Section Histories.
Variable this : AgonClient.
Variable world : World.

Lemma request_extends Q method path payload :
  Q (Requested method path (request_headers this) payload) ->
  extends Q (request this world method path payload).
Proof.
  intros He tr.
  destruct (request_appends this world method path payload tr) as (r & Hr & _).
  exists r, [Requested method path (request_headers this) payload].
  split; [exact Hr | constructor; [exact He | constructor]].
Qed.

Lemma requireAuth_extends Q : extends Q (requireAuth this).
Proof.
  unfold requireAuth.
  destruct (apiKey this) as [k |]; [destruct (String.eqb k "") |];
    first [apply extends_ret | apply extends_throw].
Qed.

Lemma createAuthToken_quiet opts : extends quiet (createAuthToken this world opts).
Proof.
  unfold createAuthToken. apply extends_bind; [apply requireAuth_extends |].
  intros _. apply request_extends. apply quiet_requested. reflexivity.
Qed.

Lemma signOverride_quiet msg : extends quiet (signOverride this world msg).
Proof.
  unfold signOverride.
  destruct (customSigner this); [apply extends_perform; auto with history |].
  destruct (wallet this); [apply extends_perform; auto with history |].
  apply extends_throw.
Qed.

Lemma dispatch_quiet url init hdrs : extends quiet (dispatch world url init hdrs).
Proof. apply extends_perform. auto with history. Qed.

End Histories.

(** Walks through a computation, one construct at a time. *)
Ltac walk :=
  repeat first
    [ apply extends_ret
    | apply extends_throw
    | apply extends_lift
    | apply extends_attempt
    | apply createAuthToken_quiet
    | apply signOverride_quiet
    | apply dispatch_quiet
    | apply extends_perform; solve [auto with history]
    | apply extends_bind; [| intros ?]
    | match goal with
      | |- extends _ (if ?b then _ else _) => destruct b
      | |- extends _ (match ?x with _ => _ end) => destruct x
      end ].

Section Orchestrator.
Variable this : AgonClient.
Variable world : World.

Lemma handleSpendingLimitOverride_quiet url init error :
  extends quiet (handleSpendingLimitOverride this world url init error).
Proof. unfold handleSpendingLimitOverride. walk. Qed.

End Orchestrator.

(** With a callback configured, the override starts by asking it. *)
Lemma handleSpendingLimitOverride_asks this world url init error callback tr :
  onLimitExceeded this = Some callback ->
  exists r rest,
    handleSpendingLimitOverride this world url init error tr
    = (r, tr ++ Asked (limit_question error) :: rest).
Proof.
  intros Hcb. unfold handleSpendingLimitOverride. rewrite Hcb. cbv zeta.
  match goal with
  | |- exists r rest, bind _ ?k _ = _ => assert (Hk : forall d, extends quiet (k d))
  end.
  { intros d. cbv beta. walk. }
  unfold bind at 1. unfold perform at 1.
  destruct (callback (limit_question error) tr) as [d | t].
  - destruct (Hk d (tr ++ [Asked (limit_question error)])) as (r & evs & Hrun & _).
    exists r, evs. cbv beta in Hrun. rewrite Hrun. rewrite <- app_assoc. reflexivity.
  - exists (Abrupt t), []. reflexivity.
Qed.

(** C4.  What [fetch] does with a 402 that is not an x402 challenge.  A
    denial is overridable when its code is [spending_limit_exceeded] and
    its [details.override_available] is [true].  With a callback
    configured, an overridable denial is taken up: the callback is asked,
    and when it approves, the message is signed, a new token issued and the
    retry served, [fetch] returns the retry's response.  Every other
    denial with a body to read, an overridable one without a callback, and
    a body that is not JSON are thrown as an [AgonError] with status 402,
    with nothing done after the dispatch; [fetch] returns a response in no
    other case.  A 402 whose JSON body is [null] is not raised as an
    [AgonError]: reading [errorBody.error] throws a [TypeError], outside the
    [try] around [res.json()]. *)
Theorem denial_recovered_or_raised :
  forall this world url init created tr1 token res,
    let hdrs := headers_set CONSUMER_TOKEN (ToString token) (new_Headers init) in
    let sent := tr1 ++ [Dispatched url (init_method_of init) hdrs (init_body_of init)] in
    createAuthToken this world (Some no_opts) [] = (Normal created, tr1) ->
    get_prop created "token" = Normal token ->
    merchant world tr1 url (init_method_of init) hdrs (init_body_of init) = Normal res ->
    status res = 402 ->
    x402_challenge res = false ->
    (body res = None ->
     exists e, fetch this world url init [] = (Abrupt (ThrownAgon e), sent)
               /\ statusCode e = 402)
    /\
    (forall errorBody,
        body res = Some errorBody ->
        is_nullish errorBody = true ->
        fetch this world url init []
        = (Abrupt (TypeError "Cannot read properties of null"), sent))
    /\
    (forall errorBody,
        body res = Some errorBody ->
        is_nullish errorBody = false ->
        let error :=
          new_AgonError 402
            (nullish_or (member errorBody "error") (JStr "insufficient_balance"))
            (nullish_or (member errorBody "message") (JStr "Payment required"))
            (nullish_or (member errorBody "details") (member errorBody "payment_info")) in
        let eligible := isSpendingLimitExceeded error && isOverrideAvailable error in
        let question := limit_question error in
        let signMsg := getOverrideSignMessage error in
        (eligible = true <->
         code error = JStr "spending_limit_exceeded"
         /\ member (details error) "override_available" = JBool true)
        /\ (eligible = false \/ onLimitExceeded this = None ->
            fetch this world url init [] = (Abrupt (ThrownAgon error), sent))
        /\ (forall callback,
               eligible = true ->
               onLimitExceeded this = Some callback ->
               (exists r rest,
                   fetch this world url init [] = (r, sent ++ Asked question :: rest))
               /\ (forall override tr2 created' tr3 retryToken signature msg retryRes,
                      let retryHeaders :=
                        headers_set "X-AGON-OVERRIDE-MSG" (ToString msg)
                          (headers_set "X-AGON-OVERRIDE-SIG" (ToString signature)
                             (headers_set CONSUMER_TOKEN (ToString retryToken)
                                (new_Headers init))) in
                      callback question sent = Normal (JStr "approve") ->
                      truthy signMsg = true ->
                      signOverride this world signMsg (sent ++ [Asked question])
                        = (Normal override, tr2) ->
                      createAuthToken this world (Some no_opts) tr2
                        = (Normal created', tr3) ->
                      get_prop created' "token" = Normal retryToken ->
                      get_prop override "signature" = Normal signature ->
                      get_prop override "message" = Normal msg ->
                      merchant world tr3 url (init_method_of init) retryHeaders
                        (init_body_of init) = Normal retryRes ->
                      status retryRes <> 402 ->
                      fetch this world url init []
                      = (Normal retryRes,
                         tr3 ++ [Dispatched url (init_method_of init) retryHeaders
                                   (init_body_of init)])))
        /\ (forall r tr,
               fetch this world url init [] = (Normal r, tr) ->
               eligible = true /\ onLimitExceeded this <> None)).
Proof.
  intros this world url init created tr1 token res hdrs sent
    Hcreated Htoken Hres H402 Hnative.
  pose proof (fetch_native_402 this world url init created tr1 token res
                Hcreated Htoken Hres H402 Hnative) as Hfetch.
  cbv zeta in Hfetch. fold hdrs in Hfetch. fold sent in Hfetch.
  split; [| split].
  - intros Hbody. rewrite Hbody in Hfetch. eexists. split; [exact Hfetch | reflexivity].
  - intros errorBody Hbody Hnull. rewrite Hbody in Hfetch.
    unfold denial_of_body, get_prop in Hfetch. rewrite Hnull in Hfetch. exact Hfetch.
  - intros errorBody Hbody Hobject error eligible question signMsg.
    rewrite Hbody in Hfetch.
    unfold denial_of_body, get_prop in Hfetch. rewrite Hobject in Hfetch.
    fold error in Hfetch. fold eligible in Hfetch.
    assert (Hraise : eligible = false \/ onLimitExceeded this = None ->
                     fetch this world url init [] = (Abrupt (ThrownAgon error), sent)).
    { intros [Hno | Hcb].
      - rewrite Hno in Hfetch. exact Hfetch.
      - destruct eligible; [| exact Hfetch].
        rewrite Hfetch. unfold handleSpendingLimitOverride. rewrite Hcb. reflexivity. }
    split; [| split; [| split]].
    + subst eligible. unfold isSpendingLimitExceeded, isOverrideAvailable.
      rewrite !andb_true_iff, !is_string_eq, is_true_eq. tauto.
    + exact Hraise.
    + intros callback Hel Hcb. rewrite Hel in Hfetch. rewrite Hfetch. split.
      * apply handleSpendingLimitOverride_asks with (callback := callback). exact Hcb.
      * intros override tr2 created' tr3 retryToken signature msg retryRes retryHeaders
          Hdecision Hmsg Hsign Hcreated' Htoken' Hsig Hmessage Hretry Hserved.
        apply (override_retry_served this world url init error sent callback override
                 tr2 created' tr3 retryToken signature msg retryRes
                 Hcb Hdecision Hmsg Hsign Hcreated' Htoken' Hsig Hmessage Hretry Hserved).
    + intros r tr Hrun.
      destruct eligible eqn:Hel.
      * split; [reflexivity |]. intros Hcb.
        rewrite (Hraise (or_intror Hcb)) in Hrun. discriminate.
      * rewrite (Hraise (or_introl eq_refl)) in Hrun. discriminate.
Qed.

Lemma denial_recovered_or_raised_witness :
  fetch consumer (consumer_world null_denial_merchant) merchant_url None []
  = (Abrupt (TypeError "Cannot read properties of null"),
     [ Requested "POST" "/account/create-token" (request_headers consumer)
         (Some (create_token_body (Some no_opts))) ]
     ++ [ Dispatched merchant_url None
            (headers_set CONSUMER_TOKEN "tok_1" (new_Headers None)) None ])
  /\
  fetch consumer (consumer_world refusing_merchant) merchant_url None []
  = (Abrupt (ThrownAgon (new_AgonError 402 (JStr "insufficient_balance")
                           (JStr "Insufficient balance") JUndefined)),
     [ Requested "POST" "/account/create-token" (request_headers consumer)
         (Some (create_token_body (Some no_opts))) ]
     ++ [ Dispatched merchant_url None
            (headers_set CONSUMER_TOKEN "tok_1" (new_Headers None)) None ])
  /\
  (fetch consumer (consumer_world (limiting_merchant (plain 200 (JStr "premium"))))
     merchant_url None []).1
  = Normal (plain 200 (JStr "premium")).
Proof.
  split; [| split].
  - refine (proj1 (proj2 (denial_recovered_or_raised consumer
                            (consumer_world null_denial_merchant) merchant_url None
                            (JObj [("token", JStr "tok_1"); ("expires_in", JInt 60)])
                            [ Requested "POST" "/account/create-token"
                                (request_headers consumer)
                                (Some (create_token_body (Some no_opts))) ]
                            (JStr "tok_1") (plain 402 JNull) _ _ _ _ _))
              JNull _ _); reflexivity.
  - refine (proj1 (proj2 (proj2 (proj2 (denial_recovered_or_raised consumer
                            (consumer_world refusing_merchant) merchant_url None
                            (JObj [("token", JStr "tok_1"); ("expires_in", JInt 60)])
                            [ Requested "POST" "/account/create-token"
                                (request_headers consumer)
                                (Some (create_token_body (Some no_opts))) ]
                            (JStr "tok_1") (plain 402 broke_denial) _ _ _ _ _))
                            broke_denial _ _)) (or_introl _)); reflexivity.
  - pose proof (proj2 (proj2 (denial_recovered_or_raised consumer
                         (consumer_world (limiting_merchant (plain 200 (JStr "premium"))))
                         merchant_url None
                         (JObj [("token", JStr "tok_1"); ("expires_in", JInt 60)])
                         [ Requested "POST" "/account/create-token"
                             (request_headers consumer)
                             (Some (create_token_body (Some no_opts))) ]
                         (JStr "tok_1") (plain 402 limit_denial)
                         eq_refl eq_refl eq_refl eq_refl eq_refl))
                  limit_denial eq_refl eq_refl) as Hdenial.
    cbv zeta in Hdenial.
    destruct Hdenial as (_ & _ & Htaken & _).
    destruct (Htaken approve_under_five eq_refl eq_refl) as [_ Hserved].
    erewrite Hserved.
    + reflexivity.
    + reflexivity.
    + reflexivity.
    + reflexivity.
    + lazy. reflexivity.
    + reflexivity.
    + reflexivity.
    + reflexivity.
    + reflexivity.
    + discriminate.
Defined.


Section Passthrough.
Variable this : AgonClient.
Variable world : World.

Lemma keyed_once_of_quiet {A} (c : Eff Event A) : extends quiet c -> keyed_once world c.
Proof.
  intros Hc tr. destruct (Hc tr) as (r & evs & Hrun & Hevs).
  exists r, evs. split; [exact Hrun | left; exact Hevs].
Qed.

Lemma keyed_once_bind {A B} (c : Eff Event A) (k : A -> Eff Event B) :
  extends quiet c -> (forall a, keyed_once world (k a)) -> keyed_once world (bind c k).
Proof.
  intros Hc Hk tr. unfold bind.
  destruct (Hc tr) as (r & evs & -> & Hevs).
  destruct r as [a | t].
  - destruct (Hk a (tr ++ evs)) as (r' & evs' & -> & [Hq | (pre & rest & -> & Hpre & Hrest)]).
    + exists r', (evs ++ evs'). rewrite app_assoc. split; [reflexivity |].
      left. apply Forall_app. auto.
    + exists r', (evs ++ pre ++ ClockRead :: RandomRead :: rest).
      split; [rewrite <- !app_assoc; reflexivity |].
      right. exists (evs ++ pre), rest.
      split; [rewrite <- !app_assoc; reflexivity |].
      split; [apply Forall_app; auto |].
      rewrite app_assoc. exact Hrest.
  - exists (Abrupt t), evs. split; [reflexivity | left; exact Hevs].
Qed.

(** Both [POST /proxy] requests of [proxyX402] carry the key it built. *)
Lemma proxyX402_keyed_once url init paymentRequired :
  keyed_once world (proxyX402 this world url init paymentRequired).
Proof.
  intros tr. unfold proxyX402.
  unfold bind at 1. unfold perform at 1.
  unfold bind at 1. unfold perform at 1.
  change (Client.random_suffix world (tr ++ [ClockRead]))
    with (random_suffix world (tr ++ [ClockRead])).
  fold (proxy_request_id world tr).
  set (id := proxy_request_id world tr).
  match goal with
  | |- exists r evs, ?c _ = _ /\ _ =>
      assert (Hrest : extends (keyed id) c)
  end.
  { apply extends_try_catch.
    - apply extends_bind; [| intros ?; apply extends_lift].
      apply request_extends. apply keyed_proxy_post. reflexivity.
    - intros thrown. destruct thrown; try apply extends_throw.
      destruct (negb (isSpendingLimitExceeded e) || negb (isOverrideAvailable e));
        [apply extends_throw |].
      destruct (onLimitExceeded this); [| apply extends_throw].
      apply extends_bind; [apply extends_perform; auto with history |].
      intros decision.
      destruct (negb (is_string decision "approve")); [apply extends_throw |].
      destruct (negb (truthy (getOverrideSignMessage e))); [apply extends_throw |].
      apply extends_bind;
        [eapply extends_weaken; [apply quiet_keyed | apply signOverride_quiet] |].
      intros override.
      apply extends_bind; [apply extends_lift |]. intros signature.
      apply extends_bind; [apply extends_lift |]. intros msg.
      apply extends_bind; [| intros ?; apply extends_lift].
      apply request_extends. apply keyed_proxy_post. reflexivity. }
  destruct (Hrest ((tr ++ [ClockRead]) ++ [RandomRead])) as (r & evs & Hrun & Hevs).
  exists r, ([] ++ ClockRead :: RandomRead :: evs).
  split.
  - rewrite Hrun. rewrite <- !app_assoc. reflexivity.
  - right. exists [], evs. split; [reflexivity |]. split; [constructor |].
    rewrite app_nil_r. exact Hevs.
Qed.

(** A paid fetch builds at most one key, and every [POST /proxy] it makes
    carries it. *)
Lemma fetch_keyed_once url init : keyed_once world (fetch this world url init).
Proof.
  unfold fetch.
  apply keyed_once_bind; [apply requireAuth_extends |]. intros _.
  apply keyed_once_bind; [apply createAuthToken_quiet |]. intros created.
  apply keyed_once_bind; [apply extends_lift |]. intros token.
  apply keyed_once_bind; [apply dispatch_quiet |]. intros res.
  destruct (negb (status res =? 402)); [apply keyed_once_of_quiet, extends_ret |].
  cbv zeta.
  destruct (truthy _); [apply proxyX402_keyed_once |].
  apply keyed_once_of_quiet.
  apply extends_bind; [apply extends_attempt, extends_lift |]. intros parsed.
  destruct parsed as [errorBody | t]; [| apply extends_throw].
  apply extends_bind; [apply extends_lift |]. intros error.
  destruct (isSpendingLimitExceeded error && isOverrideAvailable error);
    [apply handleSpendingLimitOverride_quiet | apply extends_throw].
Qed.

End Passthrough.

(** *** The idempotency key of the passthrough *)

Lemma obj_get_set k k' v fields :
  obj_get k (obj_set k' v fields)
  = if String.eqb k' k then Some v else obj_get k fields.
Proof.
  unfold obj_set. induction fields as [| [k0 v0] rest IH]; cbn.
  - destruct (String.eqb k' k); reflexivity.
  - rewrite IH. destruct (String.eqb k' k); reflexivity.
Qed.

(** [proxyX402] once the key is built. *)
Lemma proxyX402_started this world url init paymentRequired tr :
  let started := tr ++ [ClockRead; RandomRead] in
  let payload :=
    proxy_body url init (toBase64 paymentRequired) (proxy_request_id world tr) in
  proxyX402 this world url init paymentRequired tr
  = try_catch
      (bind (post this world "/proxy" (JObj payload))
         (fun proxyResult => lift (response_of_proxy world proxyResult)))
      (fun thrown =>
         match thrown with
         | ThrownAgon err =>
             if negb (isSpendingLimitExceeded err) || negb (isOverrideAvailable err)
             then throw thrown
             else
               match onLimitExceeded this with
               | None => throw thrown
               | Some callback =>
                   let signMsg := getOverrideSignMessage err in
                   bind (perform (Asked (limit_question err))
                           (callback (limit_question err)))
                     (fun decision =>
                        if negb (is_string decision "approve") then throw thrown
                        else if negb (truthy signMsg) then throw thrown
                        else
                          bind (signOverride this world signMsg)
                            (fun override =>
                               bind (lift (get_prop override "signature"))
                                 (fun signature =>
                                    bind (lift (get_prop override "message"))
                                      (fun msg =>
                                         bind (post this world "/proxy"
                                                 (JObj (obj_set "override"
                                                          (JObj [("signature", signature);
                                                                 ("message", msg)])
                                                          payload)))
                                           (fun retryResult =>
                                              lift (response_of_proxy world retryResult))))))
               end
         | _ => throw thrown
         end)
      started.
Proof.
  intros started payload.
  unfold proxyX402.
  unfold bind at 1. unfold perform at 1.
  unfold bind at 1. unfold perform at 1.
  subst started. rewrite <- app_assoc. reflexivity.
Qed.

Lemma proxy_body_request_id url init encoded id :
  member (JObj (proxy_body url init encoded id)) "request_id" = JStr id.
Proof. reflexivity. Qed.

Lemma retry_body_request_id url init encoded id override :
  member (JObj (obj_set "override" override (proxy_body url init encoded id))) "request_id"
  = JStr id.
Proof. unfold member. rewrite obj_get_set. reflexivity. Qed.

Lemma proxy_ids_post hdrs payload :
  proxy_ids [Requested "POST" "/proxy" hdrs (Some payload)]
  = [member payload "request_id"].
Proof. reflexivity. Qed.

Section FallingBack.
Variable this : AgonClient.
Variable world : World.
Variable url : string.
Variable init : option RequestInit.

(** [fetch] hands a 402 with a non-empty [PAYMENT-REQUIRED] header to
    [proxyX402]. *)
Lemma fetch_falls_back created tr1 token res paymentRequired :
  let hdrs := headers_set CONSUMER_TOKEN (ToString token) (new_Headers init) in
  let sent := tr1 ++ [Dispatched url (init_method_of init) hdrs (init_body_of init)] in
  createAuthToken this world (Some no_opts) [] = (Normal created, tr1) ->
  get_prop created "token" = Normal token ->
  merchant world tr1 url (init_method_of init) hdrs (init_body_of init) = Normal res ->
  status res = 402 ->
  headers_get PAYMENT_REQUIRED (headers res) = Some paymentRequired ->
  paymentRequired <> "" ->
  fetch this world url init [] = proxyX402 this world url init paymentRequired sent
  /\ clock_reads sent = 0%nat /\ proxy_ids sent = [].
Proof.
  intros hdrs sent Hcreated Htoken Hres H402 Hheader Hne.
  split.
  - unfold fetch.
    unfold bind at 1. rewrite (createAuthToken_requires_auth _ _ _ _ _ _ Hcreated).
    unfold bind at 1. rewrite Hcreated.
    unfold bind at 1. unfold lift at 1. rewrite Htoken.
    unfold bind at 1. unfold dispatch, perform. fold hdrs. rewrite Hres.
    rewrite H402. change (negb (402 =? 402)) with false. cbv iota zeta.
    rewrite Hheader. cbn [truthy ToString].
    destruct (String.eqb_spec paymentRequired ""); [contradiction | reflexivity].
  - destruct (createAuthToken_quiet this world (Some no_opts) [])
      as (r & evs & Hrun & Hquiet).
    rewrite Hcreated in Hrun. injection Hrun as _ ->. cbn [app] in *.
    assert (Hall : Forall quiet sent).
    { apply Forall_app. split; [exact Hquiet |].
      constructor; [apply quiet_dispatched | constructor]. }
    apply quiet_history. exact Hall.
Qed.

(** Whatever the backend answers, [proxyX402] reads clock and random source
    and posts to [/proxy] under the key made from them; what follows reads
    no clock and posts under that key only. *)
Lemma proxyX402_first_post paymentRequired tr :
  let id := proxy_request_id world tr in
  let payload := proxy_body url init (toBase64 paymentRequired) id in
  exists r rest,
    proxyX402 this world url init paymentRequired tr
    = (r, (tr ++ [ClockRead; RandomRead])
          ++ Requested "POST" "/proxy" (request_headers this) (Some (JObj payload)) :: rest)
    /\ Forall (keyed id) rest.
Proof.
  intros id payload.
  pose proof (proxyX402_started this world url init paymentRequired tr) as Hstart.
  cbv zeta in Hstart. fold id in Hstart. fold payload in Hstart. rewrite Hstart.
  match goal with
  | |- exists r rest, try_catch _ ?h _ = _ /\ _ =>
      assert (Hh : forall t, extends (keyed id) (h t))
  end.
  { intros thrown. destruct thrown; try apply extends_throw.
    destruct (negb (isSpendingLimitExceeded e) || negb (isOverrideAvailable e));
      [apply extends_throw |].
    destruct (onLimitExceeded this); [| apply extends_throw].
    apply extends_bind; [apply extends_perform; auto with history |].
    intros decision.
    destruct (negb (is_string decision "approve")); [apply extends_throw |].
    destruct (negb (truthy (getOverrideSignMessage e))); [apply extends_throw |].
    apply extends_bind;
      [eapply extends_weaken; [apply quiet_keyed | apply signOverride_quiet] |].
    intros override.
    apply extends_bind; [apply extends_lift |]. intros signature.
    apply extends_bind; [apply extends_lift |]. intros msg.
    apply extends_bind; [| intros ?; apply extends_lift].
    apply request_extends. apply keyed_proxy_post. reflexivity. }
  unfold try_catch, bind at 1. unfold post.
  destruct (request_appends this world "POST" "/proxy" (Some (JObj payload))
              (tr ++ [ClockRead; RandomRead])) as (r & -> & _).
  destruct r as [data | t].
  - unfold lift. destruct (response_of_proxy world data) as [response | t].
    + exists (Normal response), []. split; [reflexivity | constructor].
    + destruct (Hh t ((tr ++ [ClockRead; RandomRead])
                      ++ [Requested "POST" "/proxy" (request_headers this)
                            (Some (JObj payload))]))
        as (r' & evs & Hrun & Hevs).
      exists r', evs. split; [| exact Hevs].
      etransitivity; [exact Hrun |]. rewrite <- app_assoc. reflexivity.
  - destruct (Hh t ((tr ++ [ClockRead; RandomRead])
                    ++ [Requested "POST" "/proxy" (request_headers this)
                          (Some (JObj payload))]))
      as (r' & evs & Hrun & Hevs).
    exists r', evs. split; [| exact Hevs].
    etransitivity; [exact Hrun |]. rewrite <- app_assoc. reflexivity.
Qed.

End FallingBack.

(** C9.  In one call of [fetch] the clock is read at most once, so at most
    one idempotency key is built, and every [POST /proxy] of the call
    carries that key as its [request_id].  A call that falls back to the
    passthrough (a 402 with a non-empty [PAYMENT-REQUIRED] header) builds
    the key [proxy_<timestamp>_<random suffix>] exactly once and sends it
    with the first [POST /proxy], whatever the backend answers; and when
    that attempt is refused with an overridable spending limit, the
    callback approves and the message is signed, the retry is a second
    [POST /proxy] whose [request_id] is the same key: the two attempts are
    the only [/proxy] requests and share it. *)
Theorem proxy_request_id_shared :
  forall this world url init,
    (forall out tr,
        fetch this world url init [] = (out, tr) ->
        (clock_reads tr <= 1)%nat
        /\ exists id,
             Forall (fun v => v = JStr id) (proxy_ids tr)
             /\ (proxy_ids tr <> [] ->
                 exists pre rest,
                   tr = pre ++ ClockRead :: RandomRead :: rest
                   /\ id = "proxy_" +:+ show_Z (now world pre) +:+ "_"
                           +:+ random_suffix world (pre ++ [ClockRead])))
    /\
    (forall created tr1 token res paymentRequired,
        let hdrs := headers_set CONSUMER_TOKEN (ToString token) (new_Headers init) in
        let sent := tr1 ++ [Dispatched url (init_method_of init) hdrs (init_body_of init)] in
        let id := "proxy_" +:+ show_Z (now world sent) +:+ "_"
                  +:+ random_suffix world (sent ++ [ClockRead]) in
        let payload := proxy_body url init (toBase64 paymentRequired) id in
        let first := Requested "POST" "/proxy" (request_headers this)
                       (Some (JObj payload)) in
        let started := sent ++ [ClockRead; RandomRead] in
        createAuthToken this world (Some no_opts) [] = (Normal created, tr1) ->
        get_prop created "token" = Normal token ->
        merchant world tr1 url (init_method_of init) hdrs (init_body_of init)
          = Normal res ->
        status res = 402 ->
        headers_get PAYMENT_REQUIRED (headers res) = Some paymentRequired ->
        paymentRequired <> "" ->
        member (JObj payload) "request_id" = JStr id
        /\ (exists out rest,
               fetch this world url init [] = (out, started ++ first :: rest)
               /\ clock_reads (started ++ first :: rest) = 1%nat
               /\ exists more,
                    proxy_ids (started ++ first :: rest) = JStr id :: more
                    /\ Forall (fun v => v = JStr id) more)
        /\ (forall err callback override signed signature msg,
               let question := limit_question err in
               let signMsg := getOverrideSignMessage err in
               let retryPayload :=
                 JObj (obj_set "override"
                         (JObj [("signature", signature); ("message", msg)]) payload) in
               let second := Requested "POST" "/proxy" (request_headers this)
                               (Some retryPayload) in
               post this world "/proxy" (JObj payload) started
               = (Abrupt (ThrownAgon err), started ++ [first]) ->
               isSpendingLimitExceeded err = true ->
               isOverrideAvailable err = true ->
               onLimitExceeded this = Some callback ->
               callback question (started ++ [first]) = Normal (JStr "approve") ->
               truthy signMsg = true ->
               signOverride this world signMsg (started ++ [first; Asked question])
               = (Normal override, signed) ->
               get_prop override "signature" = Normal signature ->
               get_prop override "message" = Normal msg ->
               member retryPayload "request_id" = JStr id
               /\ exists out,
                    fetch this world url init [] = (out, signed ++ [second])
                    /\ proxy_ids (signed ++ [second]) = [JStr id; JStr id])).
Proof.
  intros this world url init. split.
  - intros out tr Hrun.
    destruct (fetch_keyed_once this world url init [])
      as (r & evs & Hrun' & [Hq | (pre & rest & -> & Hpre & Hrest)]).
    + rewrite Hrun in Hrun'. injection Hrun' as _ ->. simpl.
      destruct (quiet_history _ Hq) as [Hc Hp].
      split; [lia |]. exists "". rewrite Hp. split; [constructor | congruence].
    + rewrite Hrun in Hrun'. injection Hrun' as _ ->. simpl in *.
      destruct (quiet_history _ Hpre) as [Hc Hp].
      destruct (keyed_history _ _ Hrest) as [Hc' Hp'].
      split.
      * rewrite clock_reads_app, Hc.
        change (ClockRead :: RandomRead :: rest) with ([ClockRead; RandomRead] ++ rest).
        rewrite clock_reads_app, Hc'. simpl. lia.
      * exists (proxy_request_id world pre). split.
        -- rewrite proxy_ids_app, Hp.
           change (ClockRead :: RandomRead :: rest) with ([ClockRead; RandomRead] ++ rest).
           rewrite proxy_ids_app. exact Hp'.
        -- intros _. exists pre, rest. split; reflexivity.
  - intros created tr1 token res paymentRequired hdrs sent id payload first started
      Hcreated Htoken Hres H402 Hheader Hne.
    destruct (fetch_falls_back this world url init created tr1 token res paymentRequired
                Hcreated Htoken Hres H402 Hheader Hne) as (Hfall & Hclock & Hids).
    fold hdrs in Hfall, Hclock, Hids. fold sent in Hfall, Hclock, Hids.
    change (proxy_request_id world sent) with id in *.
    assert (Hstarted : clock_reads started = 1%nat /\ proxy_ids started = []).
    { subst started. rewrite clock_reads_app, proxy_ids_app, Hclock, Hids.
      split; reflexivity. }
    destruct Hstarted as [Hclock' Hids'].
    split; [apply proxy_body_request_id |]. split.
    + destruct (proxyX402_first_post this world url init paymentRequired sent)
        as (r & rest & Hrun & Hkeyed).
      change (proxy_request_id world sent) with id in Hrun, Hkeyed.
      fold payload in Hrun. fold first in Hrun. fold started in Hrun.
      destruct (keyed_history _ _ Hkeyed) as [Hc Hp].
      exists r, rest. split; [rewrite Hfall; exact Hrun |].
      change (first :: rest) with ([first] ++ rest).
      rewrite !clock_reads_app, !proxy_ids_app, Hclock', Hids', Hc.
      split; [reflexivity |].
      exists (proxy_ids rest). split; [| exact Hp].
      unfold first, payload. rewrite proxy_ids_post, proxy_body_request_id. reflexivity.
    + intros err callback override signed signature msg question signMsg retryPayload
        second Hpost Hlimit Havailable Hcb Hdecision Hmsg Hsign Hsig Hmessage.
      split; [apply retry_body_request_id |].
      pose proof (proxyX402_started this world url init paymentRequired sent) as Hstart.
      cbv zeta in Hstart.
      change (proxy_request_id world sent) with id in Hstart.
      fold payload in Hstart. fold started in Hstart.
      destruct (request_appends this world "POST" "/proxy" (Some retryPayload) signed)
        as (r & Hretry & _).
      fold second in Hretry.
      destruct (signOverride_quiet this world signMsg (started ++ [first; Asked question]))
        as (r' & evs & Hsign' & Hquiet).
      rewrite Hsign in Hsign'. injection Hsign' as _ Hsigned.
      destruct (quiet_history _ Hquiet) as [_ Hevs].
      exists match r with
             | Normal retryResult => response_of_proxy world retryResult
             | Abrupt t => Abrupt t
             end.
      split.
      * rewrite Hfall, Hstart.
        unfold try_catch, bind at 1. rewrite Hpost.
        rewrite Hlimit, Havailable. cbn [negb orb]. rewrite Hcb.
        fold question. fold signMsg.
        unfold bind at 1. unfold perform at 1. rewrite Hdecision.
        change (negb (is_string (JStr "approve") "approve")) with false. cbv iota.
        rewrite Hmsg. cbn [negb].
        replace ((started ++ [first]) ++ [Asked question])
          with (started ++ [first; Asked question])
          by (rewrite <- app_assoc; reflexivity).
        unfold bind at 1. rewrite Hsign.
        unfold bind at 1. unfold lift at 1. rewrite Hsig.
        unfold bind at 1. unfold lift at 1. rewrite Hmessage.
        fold retryPayload.
        unfold bind at 1. unfold post. rewrite Hretry.
        destruct r as [retryResult | t]; reflexivity.
      * rewrite Hsigned.
        rewrite !proxy_ids_app, Hids', Hevs.
        change [first; Asked question] with ([first] ++ [Asked question]).
        rewrite proxy_ids_app.
        unfold first, second, retryPayload, payload. rewrite !proxy_ids_post.
        rewrite proxy_body_request_id, retry_body_request_id.
        reflexivity.
Qed.

Lemma proxy_request_id_shared_witness :
  exists out tr,
    fetch consumer (consumer_world x402_merchant) merchant_url None [] = (out, tr)
    /\ proxy_ids tr
       = [JStr "proxy_1700000000000_k3j9x0ab"; JStr "proxy_1700000000000_k3j9x0ab"].
Proof.
  edestruct (proj2 (proxy_request_id_shared consumer (consumer_world x402_merchant)
                      merchant_url None)
               (JObj [("token", JStr "tok_1"); ("expires_in", JInt 60)])
               [ Requested "POST" "/account/create-token" (request_headers consumer)
                   (Some (create_token_body (Some no_opts))) ]
               (JStr "tok_1")
               {| status := 402;
                  headers := {[ "payment-required" := "x402-challenge" ]};
                  body := Some (JObj []) |}
               "x402-challenge")
    as (_ & _ & Hretry).
  - vm_compute. reflexivity.
  - reflexivity.
  - vm_compute. reflexivity.
  - reflexivity.
  - vm_compute. reflexivity.
  - discriminate.
  - cbv zeta in Hretry.
    edestruct (Hretry (AgonError_of_body 403 limit_denial) approve_under_five)
      as (_ & out & Hrun & Hids).
    + vm_compute. reflexivity.
    + reflexivity.
    + reflexivity.
    + reflexivity.
    + vm_compute. reflexivity.
    + reflexivity.
    + lazy. reflexivity.
    + reflexivity.
    + reflexivity.
    + exists out. eexists. split; [exact Hrun |].
      etransitivity; [exact Hids |]. vm_compute. reflexivity.
Defined.

(** The run behind it: both passthrough attempts, one key. *)
Example passthrough_retry_keeps_key :
  let '(out, tr) := fetch consumer (consumer_world x402_merchant) merchant_url None [] in
  out = Normal (plain 200 (JStr "paid content"))
  /\ steps tr = [ TokenIssued; Sent; ClockConsulted; RandomDrawn;
                  ProxyPosted (JStr "proxy_1700000000000_k3j9x0ab");
                  ConsumerAsked; OverrideSigned;
                  ProxyPosted (JStr "proxy_1700000000000_k3j9x0ab") ].
Proof. vm_compute. split; reflexivity. Qed.

End ClientFacts.

(** ** More about the merchant side *)
Module PlatformMore.
Import Js Types Platform Adapters Observe Budget Samples MoreSamples PlatformFacts.

Section Transport.
Context {Req : Type}.
Variable config : AgonPlatformConfig Req.
Variable world : World.

(** X1.  What [post] makes of each answer of the network.  A timeout is
    an [AgonError] 504, an unreachable host and a reply that is not JSON
    are an [AgonError] 502, a 2xx reply resolves with its parsed body, and
    any other reply is an [AgonError] with the reply's status: under the
    backend's own code when the body has a truthy [error], under
    [internal_error] otherwise.  A non-2xx reply whose body is [null] is
    reported as 502.  In every case one request was sent. *)
Theorem post_outcomes path payload tr :
  let url := baseUrl config +:+ path in
  let sent := tr ++ [Posted url payload] in
  (backend world tr url payload = TimedOut ->
   exists e, post config world path payload tr = (Abrupt (ThrownAgon e), sent)
             /\ statusCode e = 504 /\ code e = JStr "internal_error")
  /\ (forall cause,
         backend world tr url payload = Unreachable cause ->
         exists e, post config world path payload tr = (Abrupt (ThrownAgon e), sent)
                   /\ statusCode e = 502 /\ code e = JStr "internal_error"
                   /\ message e = "Failed to reach Agon API: " +:+ cause)
  /\ (forall r,
         backend world tr url payload = Replied r -> body r = None ->
         exists e, post config world path payload tr = (Abrupt (ThrownAgon e), sent)
                   /\ statusCode e = 502 /\ code e = JStr "internal_error")
  /\ (forall r data,
         backend world tr url payload = Replied r -> body r = Some data ->
         ok r = true ->
         post config world path payload tr = (Normal data, sent))
  /\ (forall r data,
         backend world tr url payload = Replied r -> body r = Some data ->
         ok r = false -> truthy (member data "error") = true ->
         exists e, post config world path payload tr = (Abrupt (ThrownAgon e), sent)
                   /\ statusCode e = status r /\ code e = member data "error"
                   /\ details e = nullish_or (member data "details") (JObj []))
  /\ (forall r data,
         backend world tr url payload = Replied r -> body r = Some data ->
         ok r = false -> is_nullish data = false ->
         truthy (member data "error") = false ->
         exists e, post config world path payload tr = (Abrupt (ThrownAgon e), sent)
                   /\ statusCode e = status r /\ code e = JStr "internal_error")
  /\ (forall r data,
         backend world tr url payload = Replied r -> body r = Some data ->
         ok r = false -> is_nullish data = true ->
         exists e, post config world path payload tr = (Abrupt (ThrownAgon e), sent)
                   /\ statusCode e = 502 /\ code e = JStr "internal_error").
Proof.
  cbv zeta.
  unfold post, try_catch, bind, perform, lift, throw, ret, json.
  repeat split.
  - intros H. rewrite H. eexists. repeat split.
  - intros cause H. rewrite H. eexists. repeat split.
  - intros r H Hb. rewrite H, Hb. eexists. repeat split.
  - intros r data H Hb Hok. rewrite H, Hb, Hok. reflexivity.
  - intros r data H Hb Hok Herr. rewrite H, Hb, Hok. cbn [negb].
    assert (Hn : is_nullish data = false) by (destruct data; simpl in *; congruence).
    unfold get_prop. rewrite Hn, Herr. eexists. repeat split.
  - intros r data H Hb Hok Hn Herr. rewrite H, Hb, Hok. cbn [negb].
    unfold get_prop. rewrite Hn, Herr. eexists. repeat split.
  - intros r data H Hb Hok Hn. rewrite H, Hb, Hok. cbn [negb].
    unfold get_prop. rewrite Hn. eexists. repeat split.
Qed.

(** Whatever [post] throws is an [AgonError]. *)
Lemma post_throws_AgonError path payload tr t tr' :
  post config world path payload tr = (Abrupt t, tr') -> exists e, t = ThrownAgon e.
Proof.
  unfold post, try_catch, bind, perform, lift, throw, ret.
  destruct (backend world tr _ payload) as [r | | cause]; simpl.
  - destruct (json r) as [data | t0]; simpl.
    + destruct (negb (ok r)); simpl; [| discriminate].
      destruct (get_prop data "error") as [e | t0]; simpl.
      * destruct (truthy e); simpl; intros [= <- _]; eauto.
      * destruct t0; simpl; intros [= <- _]; eauto.
    + destruct t0; simpl; intros [= <- _]; eauto.
  - intros [= <- _]; eauto.
  - intros [= <- _]; eauto.
Qed.

(** A request that is not answered in time is reported as 504. *)
Lemma post_timed_out path payload tr :
  backend world tr (baseUrl config +:+ path) payload = TimedOut ->
  exists e,
    post config world path payload tr
    = (Abrupt (ThrownAgon e), tr ++ [Posted (baseUrl config +:+ path) payload])
    /\ statusCode e = 504.
Proof.
  intros H. unfold post, try_catch, bind, perform, lift, throw, ret.
  rewrite H. eexists. split; reflexivity.
Qed.

End Transport.

Lemma post_outcomes_witness :
  exists e,
    post express_config (merchant_world silent_backend) "/authorize" (JObj []) []
    = (Abrupt (ThrownAgon e),
       [] ++ [Posted (baseUrl express_config +:+ "/authorize") (JObj [])])
    /\ statusCode e = 504 /\ code e = JStr "internal_error".
Proof.
  apply (post_outcomes express_config (merchant_world silent_backend)
           "/authorize" (JObj []) []).
  reflexivity.
Defined.

Lemma strip_trailing_slash_app s : strip_trailing_slash (s +:+ "/") = s.
Proof.
  induction s as [| c rest IH]; [reflexivity |].
  destruct rest as [| c' rest']; [reflexivity |].
  change (strip_trailing_slash (String c (String c' rest') +:+ "/"))
    with (String c (strip_trailing_slash (String c' rest' +:+ "/"))).
  rewrite IH. reflexivity.
Qed.

Lemma string_app_assoc (a b c : string) : (a +:+ b) +:+ c = a +:+ (b +:+ c).
Proof.
  induction a as [| x a IH]; [reflexivity |].
  change (String x ((a +:+ b) +:+ c) = String x (a +:+ (b +:+ c))).
  rewrite IH. reflexivity.
Qed.

(** X2.  One trailing slash on [agonUrl] is dropped for the requests to
    the backend, so they go to the same URL with it and without it; the
    [register_url] of the payment-required body is built from [agonUrl] as
    it stands and then has two slashes. *)
Theorem trailing_slash_dropped :
  forall (Req : Type) (config : AgonPlatformConfig Req) world base path payload tr price,
    agonUrl config = base +:+ "/" ->
    (post config world path payload tr).2 = tr ++ [Posted (base +:+ path) payload]
    /\ member (member (JObj (buildPaymentRequiredResponse config price).2)
                 "payment_info") "register_url"
       = JStr (base +:+ "//account/register").
Proof.
  intros Req config world base path payload tr price Hurl. split.
  - destruct (post_appends config world path payload tr) as [r Hr].
    rewrite Hr. unfold baseUrl. rewrite Hurl, strip_trailing_slash_app. reflexivity.
  - unfold buildPaymentRequiredResponse. cbn. rewrite Hurl, string_app_assoc.
    reflexivity.
Qed.

Lemma trailing_slash_dropped_witness :
  (post slashed_config (merchant_world approving_backend) "/authorize" (JObj []) []).2
  = [] ++ [Posted ("https://api.agon.so" +:+ "/authorize") (JObj [])]
  /\ member (member (JObj (buildPaymentRequiredResponse slashed_config 1000).2)
               "payment_info") "register_url"
     = JStr ("https://api.agon.so" +:+ "//account/register").
Proof.
  apply (trailing_slash_dropped _ slashed_config (merchant_world approving_backend)
           "https://api.agon.so").
  reflexivity.
Defined.


Lemma negb_truthy_false v : negb (truthy v) = false -> truthy v = true.
Proof. destruct (truthy v); [reflexivity | discriminate]. Qed.

(** X3.  [extractOverride] yields a whole override or none: its result is
    [null] or an object whose [signature] and [message] are both truthy.
    It is [null] as soon as one of the two headers is missing under both of
    its keys, and it is the pair of the two strings when both are there and
    not empty.  [authorize] puts the override into its body exactly when
    there is one. *)
Theorem override_whole_or_absent :
  (forall hdrs : gmap string HeaderValue,
      extractOverride hdrs = JNull
      \/ exists sig msg,
           extractOverride hdrs = JObj [("signature", sig); ("message", msg)]
           /\ truthy sig = true /\ truthy msg = true)
  /\ (forall hdrs : gmap string HeaderValue,
         (hdrs !! "x-agon-override-sig" = None /\ hdrs !! "X-AGON-OVERRIDE-SIG" = None)
         \/ (hdrs !! "x-agon-override-msg" = None /\ hdrs !! "X-AGON-OVERRIDE-MSG" = None) ->
         extractOverride hdrs = JNull)
  /\ (forall (hdrs : gmap string HeaderValue) sig msg,
         hdrs !! "x-agon-override-sig" = Some (HString sig) -> sig <> "" ->
         hdrs !! "x-agon-override-msg" = Some (HString msg) -> msg <> "" ->
         extractOverride hdrs = JObj [("signature", JStr sig); ("message", JStr msg)])
  /\ (forall token requestId amount (hdrs : gmap string HeaderValue),
         member (authorize_body token requestId amount (extractOverride hdrs)) "override"
         = if is_nullish (extractOverride hdrs) then JUndefined
           else extractOverride hdrs).
Proof.
  assert (Hwhole : forall hdrs : gmap string HeaderValue,
             extractOverride hdrs = JNull
             \/ exists sig msg,
                  extractOverride hdrs = JObj [("signature", sig); ("message", msg)]
                  /\ truthy sig = true /\ truthy msg = true).
  { intros hdrs. unfold extractOverride. cbv zeta.
    destruct (negb (truthy _) || negb (truthy _)); [left; reflexivity |].
    match goal with
    | |- context [if negb (truthy ?a) || negb (truthy ?b) then _ else _] =>
        destruct (negb (truthy a) || negb (truthy b)) eqn:Hboth
    end; [left; reflexivity |].
    apply orb_false_elim in Hboth. destruct Hboth as [Ha Hb].
    right. eexists _, _. split; [reflexivity |].
    split; apply negb_truthy_false; assumption. }
  assert (Hne : forall v, v <> "" -> negb (String.eqb v "") = true).
  { intros v Hv. destruct (String.eqb_spec v ""); [contradiction | reflexivity]. }
  split; [exact Hwhole |]. split; [| split].
  - intros hdrs [[H1 H2] | [H1 H2]]; unfold extractOverride; rewrite H1, H2; cbn.
    + reflexivity.
    + rewrite orb_true_r. reflexivity.
  - intros hdrs sig msg Hs Hsne Hm Hmne. unfold extractOverride.
    rewrite Hs, Hm. cbn. rewrite (Hne sig Hsne), (Hne msg Hmne). reflexivity.
  - intros token requestId amount hdrs. unfold authorize_body.
    destruct (Hwhole hdrs) as [-> | (sig & msg & -> & _ & _)]; reflexivity.
Qed.

Lemma override_whole_or_absent_witness :
  extractOverride ({[ "x-agon-override-sig" := HString "sig_1" ]}
                     : gmap string HeaderValue) = JNull
  /\ extractOverride overriding_headers
     = JObj [ ("signature", JStr "sig_1");
              ("message",
               JStr "agon:override:acct1:req1:2000000:merchant.com:1700000000") ].
Proof.
  destruct override_whole_or_absent as (_ & Hmissing & Hboth & _). split.
  - apply Hmissing. right. split; reflexivity.
  - apply Hboth; [reflexivity | discriminate | reflexivity | discriminate].
Defined.

(** X4.  A price that cannot be computed is answered with status 500 and
    the code [internal_error] by [withAgon], by the Express middleware and
    by the Fastify hook alike, before the token is looked at: nothing is
    sent to the backend and the handler is not run. *)
Theorem pricing_failure_is_500 :
  (forall handler config world req thrown tr1,
      calculatePrice (route_core config) world req [] = (Abrupt thrown, tr1) ->
      exists response,
        withAgon handler config world req [] = (Normal response, tr1)
        /\ status response = 500
        /\ body response = Some (internal_error "Failed to calculate price")
        /\ posts tr1 = [] /\ handler_runs tr1 = 0%nat)
  /\ (forall config world next req thrown tr1,
         calculatePrice config world req [] = (Abrupt thrown, tr1) ->
         agonMiddleware config world next req []
         = (Normal (Json 500 (internal_error "Failed to calculate price")), tr1)
         /\ posts tr1 = [] /\ handler_runs tr1 = 0%nat)
  /\ (forall config world req thrown tr1,
         calculatePrice config world req [] = (Abrupt thrown, tr1) ->
         preHandler config world req []
         = (Normal (Answered 500 (internal_error "Failed to calculate price")), tr1)
         /\ posts tr1 = []).
Proof.
  split; [| split].
  - intros handler config world req thrown tr1 Hprice.
    eexists. split; [| split; [| split; [| split]]].
    + unfold withAgon. unfold bind at 1. unfold attempt at 1. rewrite Hprice.
      reflexivity.
    + reflexivity.
    + reflexivity.
    + apply (calculatePrice_posts _ _ _ _ _ _ Hprice).
    + apply (calculatePrice_handler_runs _ _ _ _ _ _ Hprice).
  - intros config world next req thrown tr1 Hprice. split; [| split].
    + unfold agonMiddleware. unfold bind at 1. unfold attempt at 1. rewrite Hprice.
      reflexivity.
    + apply (calculatePrice_posts _ _ _ _ _ _ Hprice).
    + apply (calculatePrice_handler_runs _ _ _ _ _ _ Hprice).
  - intros config world req thrown tr1 Hprice. split.
    + unfold preHandler. unfold bind at 1. unfold attempt at 1. rewrite Hprice.
      reflexivity.
    + apply (calculatePrice_posts _ _ _ _ _ _ Hprice).
Qed.

Lemma pricing_failure_is_500_witness :
  exists response,
    withAgon serving_handler broken_pricing_route (merchant_world approving_backend)
      paying_request [] = (Normal response, [Priced])
    /\ status response = 500
    /\ body response = Some (internal_error "Failed to calculate price")
    /\ posts [Priced] = [] /\ handler_runs [Priced] = 0%nat.
Proof.
  destruct pricing_failure_is_500 as (Hnext & _).
  apply (Hnext serving_handler broken_pricing_route (merchant_world approving_backend)
           paying_request (ThrownError "price table unavailable")).
  reflexivity.
Defined.

(** X5.  When [authorize] fails, [withAgon] answers with the status and
    the JSON of the [AgonError] that [post] threw, and the handler is not
    run; the other [catch] branch, the plain 502, is never taken because
    [post] throws nothing else.  A backend that does not answer in time
    thus gives a 504. *)
Theorem authorize_failure_is_relayed :
  forall handler config world req price tr1 requestId tr2 thrown tr3,
    let core := route_core config in
    let hdrs : gmap string HeaderValue := HString <$> next_headers req in
    let token := extractConsumerToken hdrs in
    truthy token = true ->
    calculatePrice core world req [] = (Normal price, tr1) ->
    generateRequestId world tr1 = (Normal requestId, tr2) ->
    authorize core world token requestId price (extractOverride hdrs) tr2
      = (Abrupt thrown, tr3) ->
    exists e,
      thrown = ThrownAgon e
      /\ withAgon handler config world req []
         = (Response_json (toJSON e) (statusCode e), tr3)
      /\ handler_runs tr3 = 0%nat
      /\ (backend world tr2 (baseUrl core +:+ "/authorize")
            (authorize_body token requestId price (extractOverride hdrs)) = TimedOut ->
          statusCode e = 504).
Proof.
  intros handler config world req price tr1 requestId tr2 thrown tr3
    core hdrs token Htok Hprice Hid Hauth.
  destruct (post_throws_AgonError core world _ _ _ _ _ Hauth) as [e ->].
  exists e. split; [reflexivity |]. split; [| split].
  - unfold withAgon. fold core. fold hdrs. fold token.
    unfold bind at 1. unfold attempt at 1. rewrite Hprice.
    rewrite Htok. cbn [negb].
    unfold bind at 1. rewrite Hid.
    unfold bind at 1. unfold attempt at 1. rewrite Hauth.
    reflexivity.
  - eapply handler_idle_until_authorized; eassumption.
  - intros Htimeout.
    destruct (post_timed_out core world "/authorize"
                (authorize_body token requestId price (extractOverride hdrs)) tr2
                Htimeout) as (e' & Hrun & Hst).
    unfold authorize in Hauth. rewrite Hrun in Hauth. injection Hauth as <- _.
    exact Hst.
Qed.

Lemma authorize_failure_is_relayed_witness :
  exists e,
    withAgon serving_handler weather_route (merchant_world silent_backend)
      paying_request []
    = (Response_json (toJSON e) (statusCode e),
       [ ClockRead; RandomRead;
         Posted "https://api.agon.so/authorize"
           (JObj [ ("consumer_token", JStr "tok_1");
                   ("request_id", JStr "req_loyw3v28_k3j9x0ab");
                   ("amount", JInt 1000) ]) ])
    /\ statusCode e = 504.
Proof.
  destruct (authorize_failure_is_relayed serving_handler weather_route
              (merchant_world silent_backend) paying_request 1000 []
              "req_loyw3v28_k3j9x0ab" [ClockRead; RandomRead]
              (ThrownAgon
                 (new_AgonError 504 (JStr "internal_error")
                    (JStr "Agon API request timed out after 5000ms") JUndefined))
              [ ClockRead; RandomRead;
                Posted "https://api.agon.so/authorize"
                  (JObj [ ("consumer_token", JStr "tok_1");
                          ("request_id", JStr "req_loyw3v28_k3j9x0ab");
                          ("amount", JInt 1000) ]) ]
              eq_refl eq_refl eq_refl eq_refl)
    as (e & _ & Hrun & _ & Hto).
  exists e. split; [exact Hrun | apply Hto; reflexivity].
Defined.


Lemma handler_runs_app (a b : list Event) :
  handler_runs (a ++ b) = (handler_runs a + handler_runs b)%nat.
Proof. unfold handler_runs. rewrite List.filter_app, length_app. reflexivity. Qed.



Section ExpressEnds.
Variable core : AgonPlatformConfig ExpressRequest.
Variable world : World.

(** The history of the [res.end] calls behind [next()]. *)
Lemma downstream_ends_history reservationId calls tr :
  exists tr',
    downstream_ends core world reservationId calls tr = (Normal tt, tr')
    /\ posts tr' = posts tr ++ settled (baseUrl core) reservationId calls
    /\ handler_runs tr' = handler_runs tr.
Proof.
  revert tr. induction calls as [| call calls IH]; intros tr.
  - exists tr. cbn. rewrite app_nil_r. auto.
  - change (settled (baseUrl core) reservationId (call :: calls))
      with (match end_original call with
            | Normal _ => [settlement (baseUrl core) (end_statusCode call) reservationId]
            | Abrupt _ => []
            end ++ settled (baseUrl core) reservationId calls).
    set (x := settlement (baseUrl core) (end_statusCode call) reservationId).
    assert (Hx : posts [Posted x.1 x.2] = [x]) by (destruct x; reflexivity).
    assert (He : posts [Ended (end_statusCode call)] = []) by reflexivity.
    cbn [downstream_ends]. unfold bind at 1. unfold attempt at 1.
    unfold patched_end. unfold bind at 1. unfold perform at 1.
    destruct (end_original call) as [[] | t] eqn:Horig.
    + unfold bind at 1.
      destruct (settle_trace core world (end_statusCode call) reservationId
                  (tr ++ [Ended (end_statusCode call)])) as [r ->].
      fold x. unfold ret at 1.
      destruct (IH ((tr ++ [Ended (end_statusCode call)]) ++ [Posted x.1 x.2]))
        as (tr' & Hrun & Hposts & Hruns).
      exists tr'. split; [exact Hrun |]. split.
      * rewrite Hposts, !posts_app, Hx, He, app_nil_r, <- app_assoc. reflexivity.
      * rewrite Hruns, !handler_runs_app. cbn. lia.
    + destruct (IH (tr ++ [Ended (end_statusCode call)]))
        as (tr' & Hrun & Hposts & Hruns).
      exists tr'. split; [exact Hrun |]. split.
      * rewrite Hposts, !posts_app, He, app_nil_r. reflexivity.
      * rewrite Hruns, !handler_runs_app. cbn. lia.
Qed.

End ExpressEnds.

(** X7.  The Express middleware settles at [res.end], each time it is
    called: after an approved [authorize] its backend requests are
    [authorize] followed by one [/consume] or [/release] for every call of
    [res.end] whose original [end] completed, chosen by the status at that
    call.  No call of [res.end] means no settling request; two calls mean
    two. *)
Theorem express_settles_at_each_end :
  forall config world next req price tr1 requestId tr2 authResult tr3,
    let hdrs : gmap string HeaderValue := default ∅ (x_headers req) in
    let token := extractConsumerToken hdrs in
    truthy token = true ->
    calculatePrice config world req [] = (Normal price, tr1) ->
    generateRequestId world tr1 = (Normal requestId, tr2) ->
    authorize config world token requestId price (extractOverride hdrs) tr2
      = (Normal authResult, tr3) ->
    member authResult "status" = JStr "approved" ->
    exists tr,
      agonMiddleware config world next req [] = (Normal Passed, tr)
      /\ posts tr
         = (baseUrl config +:+ "/authorize",
            authorize_body token requestId price (extractOverride hdrs))
           :: settled (baseUrl config) (member authResult "reservation_id") (next tr3)
      /\ handler_runs tr = 1%nat.
Proof.
  intros config world next req price tr1 requestId tr2 authResult tr3
    hdrs token Htok Hprice Hid Hauth Hok.
  destruct (approved_not_denied _ Hok) as (st & Hst & Hden).
  destruct (downstream_ends_history config world (member authResult "reservation_id")
              (next tr3) (tr3 ++ [Handled])) as (tr & Hrun & Hposts & Hruns).
  exists tr. split; [| split].
  - unfold agonMiddleware. fold hdrs. fold token.
    unfold bind at 1. unfold attempt at 1. rewrite Hprice.
    rewrite Htok. cbn [negb].
    unfold bind at 1. rewrite Hid.
    unfold bind at 1. unfold attempt at 1. rewrite Hauth.
    unfold bind at 1. unfold lift at 1. rewrite Hst. rewrite Hden.
    unfold bind at 1. unfold perform at 1.
    unfold bind at 1. rewrite Hrun. reflexivity.
  - rewrite Hposts, posts_app.
    rewrite (posts_until_authorized config world req token requestId
               (extractOverride hdrs) price tr1 requestId tr2 _ tr3 Hprice Hid Hauth).
    reflexivity.
  - rewrite Hruns, handler_runs_app.
    rewrite (handler_idle_until_authorized config world req token requestId
               (extractOverride hdrs) price tr1 requestId tr2 _ tr3 Hprice Hid Hauth).
    reflexivity.
Qed.


Lemma express_settles_at_each_end_witness :
  exists tr,
    agonMiddleware express_config (merchant_world approving_backend) double_end_route
      express_request [] = (Normal Passed, tr)
    /\ posts tr
       = [ ("https://api.agon.so/authorize",
            JObj [ ("consumer_token", JStr "tok_1");
                   ("request_id", JStr "req_loyw3v28_k3j9x0ab");
                   ("amount", JInt 1000) ]);
           ("https://api.agon.so/consume", JObj [("reservation_id", JStr "res_1")]);
           ("https://api.agon.so/consume", JObj [("reservation_id", JStr "res_1")]) ]
    /\ handler_runs tr = 1%nat.
Proof.
  refine (express_settles_at_each_end express_config (merchant_world approving_backend)
            double_end_route express_request 1000 [] "req_loyw3v28_k3j9x0ab"
            [ClockRead; RandomRead]
            (JObj [ ("reservation_id", JStr "res_1");
                    ("status", JStr "approved");
                    ("amount", JInt 1000);
                    ("expires_at", JStr "2026-01-01T00:00:00Z") ])
            [ ClockRead; RandomRead;
              Posted "https://api.agon.so/authorize"
                (JObj [ ("consumer_token", JStr "tok_1");
                        ("request_id", JStr "req_loyw3v28_k3j9x0ab");
                        ("amount", JInt 1000) ]) ]
            _ _ _ _ _); reflexivity.
Defined.

(** The two kinds of history a run of [agonProxy] can leave. *)
Lemma agonProxy_history pathname config world req :
  exists r tr,
    agonProxy pathname config world req [] = (r, tr)
    /\ (posts tr = []
        \/ exists payload,
             posts tr = [(strip_trailing_slash (proxy_agonUrl config) +:+ "/authorize",
                          payload)]).
Proof.
  unfold agonProxy. unfold bind at 1. unfold lift at 1.
  destruct (pathname (next_url req)) as [path | t].
  2: { eexists _, _. split; [reflexivity | left; reflexivity]. }
  destruct (proxy_routes config !! path) as [route |].
  2: { eexists _, _. split; [reflexivity | left; reflexivity]. }
  set (core := proxy_core config route).
  set (hdrs := (HString <$> next_headers req : gmap string HeaderValue)).
  set (token := extractConsumerToken hdrs).
  unfold bind at 1.
  destruct (calculatePrice core world req []) as [[price | t] tr1] eqn:Hprice.
  2: { eexists _, _. split; [reflexivity |]. left.
       apply (calculatePrice_posts _ _ _ _ _ _ Hprice). }
  pose proof (calculatePrice_posts _ _ _ _ _ _ Hprice) as Hp1. cbn in Hp1.
  destruct (truthy token); cbn [negb].
  2: { destruct (buildPaymentRequiredResponse core price) as [st payload].
       unfold bind, lift, ret.
       destruct (Response_json (JObj payload) st);
         (eexists _, _; split; [reflexivity | left; exact Hp1]). }
  unfold bind at 1.
  destruct (generateRequestId_trace world tr1) as [requestId ->].
  unfold try_catch. unfold bind at 1. unfold authorize.
  destruct (post_appends core world "/authorize"
              (authorize_body token requestId price (extractOverride hdrs))
              (tr1 ++ [ClockRead; RandomRead])) as [r ->].
  set (payload := authorize_body token requestId price (extractOverride hdrs)).
  assert (Hp3 : posts ((tr1 ++ [ClockRead; RandomRead])
                       ++ [Posted (baseUrl core +:+ "/authorize") payload])
                = [(strip_trailing_slash (proxy_agonUrl config) +:+ "/authorize",
                    payload)]).
  { rewrite !posts_app, Hp1. reflexivity. }
  assert (Hdone : forall (c : Eff Event (option Response)) tr,
             posts tr = [(strip_trailing_slash (proxy_agonUrl config) +:+ "/authorize",
                          payload)] ->
             (forall tr0, (c tr0).2 = tr0) ->
             exists r0 tr0,
               c tr = (r0, tr0)
               /\ (posts tr0 = []
                   \/ exists p,
                        posts tr0
                        = [(strip_trailing_slash (proxy_agonUrl config) +:+ "/authorize",
                            p)])).
  { intros c tr Hp Hc. exists (c tr).1, (c tr).2. split.
    - destruct (c tr); reflexivity.
    - right. exists payload. rewrite Hc. exact Hp. }
  assert (Hreply : forall data st tr0,
             ((response <- lift (Response_json data st) ;; ret (Some response))%eff
                tr0 : Completion (option Response) * list Event).2 = tr0).
  { intros data st tr0. unfold bind, lift, ret.
    destruct (Response_json data st); reflexivity. }
  destruct r as [authResult | t].
  - unfold bind at 1. unfold lift at 1.
    destruct (get_prop authResult "status") as [st | t].
    + destruct (is_string st "denied").
      * destruct (buildPaymentRequiredResponse core price) as [st' fields].
        destruct (((response <- lift (Response_json
                                        (JObj (obj_set "denial_reason"
                                                 (member authResult "reason") fields))
                                        402) ;; ret (Some response))%eff
                     ((tr1 ++ [ClockRead; RandomRead])
                      ++ [Posted (baseUrl core +:+ "/authorize") payload])))
          as [[res | t] tr'] eqn:Hrun.
        -- pose proof (Hreply (JObj (obj_set "denial_reason"
                                       (member authResult "reason") fields)) 402
                         ((tr1 ++ [ClockRead; RandomRead])
                          ++ [Posted (baseUrl core +:+ "/authorize") payload])) as Htr.
           rewrite Hrun in Htr. cbn in Htr. subst tr'.
           eexists _, _. split; [reflexivity |]. right. exists payload. exact Hp3.
        -- pose proof (Hreply (JObj (obj_set "denial_reason"
                                       (member authResult "reason") fields)) 402
                         ((tr1 ++ [ClockRead; RandomRead])
                          ++ [Posted (baseUrl core +:+ "/authorize") payload])) as Htr.
           rewrite Hrun in Htr. cbn in Htr. subst tr'.
           destruct t; apply Hdone; first [exact Hp3 | apply Hreply].
      * eexists _, _. split; [reflexivity |]. right. exists payload. exact Hp3.
    + destruct t; apply Hdone; first [exact Hp3 | apply Hreply].
  - destruct t; apply Hdone; first [exact Hp3 | apply Hreply].
Qed.

(** X8.  [agonProxy] reserves and never settles: in every run it sends
    nothing to the backend or one [authorize], and never a [/consume] or a
    [/release].  A reservation it obtains is left to expire. *)
Theorem agonProxy_never_settles :
  forall pathname config world req,
    let tr := (agonProxy pathname config world req []).2 in
    posts tr = []
    \/ exists payload,
         posts tr = [(strip_trailing_slash (proxy_agonUrl config) +:+ "/authorize",
                      payload)].
Proof.
  intros pathname config world req.
  destruct (agonProxy_history pathname config world req) as (r & tr & Hrun & Hshape).
  cbv zeta. rewrite Hrun. exact Hshape.
Qed.


(** X9.  [agonProxy] has no guard around the price: when the price of the
    matched route cannot be computed the call rejects with what
    [calculatePrice] threw, where [withAgon] answers 500.  A request for a
    path that is no route passes ([null]) without anything being done. *)
Theorem agonProxy_pricing_failure_rejects :
  forall pathname config world req path,
    pathname (next_url req) = Normal path ->
    (proxy_routes config !! path = None ->
     agonProxy pathname config world req [] = (Normal None, []))
    /\ (forall route thrown tr1,
           proxy_routes config !! path = Some route ->
           calculatePrice (proxy_core config route) world req [] = (Abrupt thrown, tr1) ->
           agonProxy pathname config world req [] = (Abrupt thrown, tr1)).
Proof.
  intros pathname config world req path Hpath. split.
  - intros Hroute. unfold agonProxy. unfold bind at 1. unfold lift at 1.
    rewrite Hpath, Hroute. reflexivity.
  - intros route thrown tr1 Hroute Hprice.
    unfold agonProxy. unfold bind at 1. unfold lift at 1.
    rewrite Hpath, Hroute. unfold bind at 1. rewrite Hprice. reflexivity.
Qed.

Lemma agonProxy_pricing_failure_rejects_witness :
  agonProxy sample_pathname sample_proxy (merchant_world approving_backend)
    broken_request []
  = (Abrupt (ThrownError "Invalid price string"), []).
Proof.
  apply (proj2 (agonProxy_pricing_failure_rejects sample_pathname sample_proxy
                  (merchant_world approving_backend) broken_request "/api/broken"
                  eq_refl)
           {| route_price := RouteText "bogus"; route_text := None |});
    reflexivity.
Defined.

(** X10.  Past the token and the price, [agonProxy] lets a request through
    ([null]) when [authorize] answers anything but "denied", and answers a
    denial with status 402 and the payment-required body extended with
    [denial_reason]; in both cases [authorize] is the last thing it
    does. *)
Theorem agonProxy_verdict :
  forall pathname config world req path route price tr1 requestId tr2 authResult tr3 st,
    let core := proxy_core config route in
    let hdrs : gmap string HeaderValue := HString <$> next_headers req in
    let token := extractConsumerToken hdrs in
    pathname (next_url req) = Normal path ->
    proxy_routes config !! path = Some route ->
    truthy token = true ->
    calculatePrice core world req [] = (Normal price, tr1) ->
    generateRequestId world tr1 = (Normal requestId, tr2) ->
    authorize core world token requestId price (extractOverride hdrs) tr2
      = (Normal authResult, tr3) ->
    get_prop authResult "status" = Normal st ->
    (is_string st "denied" = false ->
     agonProxy pathname config world req [] = (Normal None, tr3))
    /\ (is_string st "denied" = true ->
        exists response payload,
          agonProxy pathname config world req [] = (Normal (Some response), tr3)
          /\ status response = 402
          /\ body response = Some payload
          /\ member payload "error" = JStr "payment_required"
          /\ member payload "denial_reason" = member authResult "reason").
Proof.
  intros pathname config world req path route price tr1 requestId tr2 authResult tr3 st
    core hdrs token Hpath Hroute Htok Hprice Hid Hauth Hst.
  assert (Hrun : agonProxy pathname config world req []
                 = if is_string st "denied"
                   then (Normal (Some {| status := 402;
                                         headers := {[ "content-type" := "application/json" ]};
                                         body := Some (JObj (obj_set "denial_reason"
                                                               (member authResult "reason")
                                                               (buildPaymentRequiredResponse core price).2)) |}),
                         tr3)
                   else (Normal None, tr3)).
  { unfold agonProxy. unfold bind at 1. unfold lift at 1.
    rewrite Hpath, Hroute. fold core. fold hdrs. fold token.
    unfold bind at 1. rewrite Hprice. rewrite Htok. cbn [negb].
    unfold bind at 1. rewrite Hid.
    unfold try_catch. unfold bind at 1. rewrite Hauth.
    unfold bind at 1. unfold lift at 1. rewrite Hst.
    destruct (is_string st "denied"); reflexivity. }
  split; intros Hd; rewrite Hd in Hrun.
  - exact Hrun.
  - eexists _, _. split; [exact Hrun |]. repeat split; reflexivity.
Qed.

Lemma agonProxy_verdict_witness :
  agonProxy sample_pathname sample_proxy (merchant_world approving_backend)
    paying_request []
  = (Normal None,
     [ ClockRead; RandomRead;
       Posted "https://api.agon.so/authorize"
         (JObj [ ("consumer_token", JStr "tok_1");
                 ("request_id", JStr "req_loyw3v28_k3j9x0ab");
                 ("amount", JInt 1000) ]) ]).
Proof.
  apply (agonProxy_verdict sample_pathname sample_proxy (merchant_world approving_backend)
           paying_request "/api/weather"
           {| route_price := RouteNumber (Finite 1000); route_text := Some "Weather data" |}
           1000 [] "req_loyw3v28_k3j9x0ab" [ClockRead; RandomRead]
           (JObj [ ("reservation_id", JStr "res_1");
                   ("status", JStr "approved");
                   ("amount", JInt 1000);
                   ("expires_at", JStr "2026-01-01T00:00:00Z") ])
           _ (JStr "approved")); reflexivity.
Defined.

(** X11.  When [authorize] resolves with [null] (a 2xx reply whose body is
    the JSON [null]), reading its [status] throws.  In [withAgon] that read
    is outside every [try], so the call rejects with the [TypeError]; in
    [agonProxy] it is inside the [try], so the request is answered with the
    plain 502.  Neither runs a handler or settles anything. *)
Theorem null_authorization :
  (forall handler config world req price tr1 requestId tr2 tr3,
      let core := route_core config in
      let hdrs : gmap string HeaderValue := HString <$> next_headers req in
      let token := extractConsumerToken hdrs in
      truthy token = true ->
      calculatePrice core world req [] = (Normal price, tr1) ->
      generateRequestId world tr1 = (Normal requestId, tr2) ->
      authorize core world token requestId price (extractOverride hdrs) tr2
        = (Normal JNull, tr3) ->
      withAgon handler config world req []
      = (Abrupt (TypeError "Cannot read properties of null"), tr3))
  /\ (forall pathname config world req path route price tr1 requestId tr2 tr3,
         let core := proxy_core config route in
         let hdrs : gmap string HeaderValue := HString <$> next_headers req in
         let token := extractConsumerToken hdrs in
         pathname (next_url req) = Normal path ->
         proxy_routes config !! path = Some route ->
         truthy token = true ->
         calculatePrice core world req [] = (Normal price, tr1) ->
         generateRequestId world tr1 = (Normal requestId, tr2) ->
         authorize core world token requestId price (extractOverride hdrs) tr2
           = (Normal JNull, tr3) ->
         exists response,
           agonProxy pathname config world req [] = (Normal (Some response), tr3)
           /\ status response = 502
           /\ body response = Some (internal_error "Payment authorization failed")).
Proof.
  split.
  - intros handler config world req price tr1 requestId tr2 tr3
      core hdrs token Htok Hprice Hid Hauth.
    unfold withAgon. fold core. fold hdrs. fold token.
    unfold bind at 1. unfold attempt at 1. rewrite Hprice.
    rewrite Htok. cbn [negb].
    unfold bind at 1. rewrite Hid.
    unfold bind at 1. unfold attempt at 1. rewrite Hauth.
    reflexivity.
  - intros pathname config world req path route price tr1 requestId tr2 tr3
      core hdrs token Hpath Hroute Htok Hprice Hid Hauth.
    eexists. split.
    { unfold agonProxy. unfold bind at 1. unfold lift at 1.
      rewrite Hpath, Hroute. fold core. fold hdrs. fold token.
      unfold bind at 1. rewrite Hprice. rewrite Htok. cbn [negb].
      unfold bind at 1. rewrite Hid.
      unfold try_catch. unfold bind at 1. rewrite Hauth.
      reflexivity. }
    split; reflexivity.
Qed.

Lemma null_authorization_witness :
  withAgon serving_handler weather_route (merchant_world null_backend) paying_request []
  = (Abrupt (TypeError "Cannot read properties of null"),
     [ ClockRead; RandomRead;
       Posted "https://api.agon.so/authorize"
         (JObj [ ("consumer_token", JStr "tok_1");
                 ("request_id", JStr "req_loyw3v28_k3j9x0ab");
                 ("amount", JInt 1000) ]) ]).
Proof.
  destruct null_authorization as [Hnext _].
  apply (Hnext serving_handler weather_route (merchant_world null_backend) paying_request
           1000 [] "req_loyw3v28_k3j9x0ab" [ClockRead; RandomRead]); reflexivity.
Defined.

(** X12.  With the Fastify plugin, an approved request whose reservation
    id is truthy is settled once, after the route, by the status of the
    reply: [/consume] below 400, [/release] otherwise.  When the approval
    carries no reservation id ([null]), the [onResponse] hook returns at
    once and nothing is settled. *)
Theorem fastify_settles_once :
  forall config world route req price tr1 requestId tr2 authResult tr3,
    let hdrs : gmap string HeaderValue := default ∅ (f_headers req) in
    let token := extractConsumerToken hdrs in
    let reservationId := member authResult "reservation_id" in
    let settle := settlement (baseUrl config) (route tr3) reservationId in
    truthy token = true ->
    calculatePrice config world req [] = (Normal price, tr1) ->
    generateRequestId world tr1 = (Normal requestId, tr2) ->
    authorize config world token requestId price (extractOverride hdrs) tr2
      = (Normal authResult, tr3) ->
    member authResult "status" = JStr "approved" ->
    (truthy reservationId = true ->
     agonPlugin_request config world route req []
     = (Normal Passed, tr3 ++ [Handled; Posted settle.1 settle.2]))
    /\ (truthy reservationId = false ->
        agonPlugin_request config world route req [] = (Normal Passed, tr3 ++ [Handled])).
Proof.
  intros config world route req price tr1 requestId tr2 authResult tr3
    hdrs token reservationId settle Htok Hprice Hid Hauth Hok.
  destruct (approved_not_denied _ Hok) as (st & Hst & Hden).
  assert (Hpre : preHandler config world req [] = (Normal (Reserved reservationId), tr3)).
  { unfold preHandler. fold hdrs. fold token.
    unfold bind at 1. unfold attempt at 1. rewrite Hprice.
    rewrite Htok. cbn [negb].
    unfold bind at 1. rewrite Hid.
    unfold bind at 1. unfold attempt at 1. rewrite Hauth.
    unfold bind at 1. unfold lift at 1. rewrite Hst. rewrite Hden. reflexivity. }
  split; intros Hrid.
  - unfold agonPlugin_request. unfold bind at 1. rewrite Hpre.
    unfold bind at 1. unfold perform at 1.
    unfold onResponse. rewrite Hrid. cbn [negb].
    destruct (settle_trace config world (route tr3) reservationId (tr3 ++ [Handled]))
      as [r Hr].
    unfold bind at 1. unfold bind at 1. rewrite Hr. unfold ret.
    rewrite <- app_assoc. reflexivity.
  - unfold agonPlugin_request. unfold bind at 1. rewrite Hpre.
    unfold bind at 1. unfold perform at 1.
    unfold onResponse. rewrite Hrid. reflexivity.
Qed.

Lemma fastify_settles_once_witness :
  agonPlugin_request fastify_config (merchant_world approving_backend) (fun _ => 201)
    fastify_request []
  = (Normal Passed,
     [ ClockRead; RandomRead;
       Posted "https://api.agon.so/authorize"
         (JObj [ ("consumer_token", JStr "tok_1");
                 ("request_id", JStr "req_loyw3v28_k3j9x0ab");
                 ("amount", JInt 1000) ]);
       Handled;
       Posted "https://api.agon.so/consume" (JObj [("reservation_id", JStr "res_1")]) ]).
Proof.
  refine (proj1 (fastify_settles_once fastify_config (merchant_world approving_backend)
                   (fun _ => 201) fastify_request 1000 [] "req_loyw3v28_k3j9x0ab"
                   [ClockRead; RandomRead]
                   (JObj [ ("reservation_id", JStr "res_1");
                           ("status", JStr "approved");
                           ("amount", JInt 1000);
                           ("expires_at", JStr "2026-01-01T00:00:00Z") ])
                   [ ClockRead; RandomRead;
                     Posted "https://api.agon.so/authorize"
                       (JObj [ ("consumer_token", JStr "tok_1");
                               ("request_id", JStr "req_loyw3v28_k3j9x0ab");
                               ("amount", JInt 1000) ]) ]
                   _ _ _ _ _) _); reflexivity.
Defined.

End PlatformMore.

(** ** More about the consumer side *)
Module ClientMore.
Import Js Types Client Account Observe Budget Samples MoreSamples ClientFacts.

(** X13.  Without an API key (none, or the empty string) nothing leaves
    the client: [fetch], [createAuthToken], [revokeKey] and the spending
    control calls all throw the same [AgonError] 401 [invalid_api_key]
    and leave the history as it was. *)
Theorem no_key_no_request :
  forall this world,
    apiKey this = None \/ apiKey this = Some "" ->
    exists e,
      statusCode e = 401 /\ code e = JStr "invalid_api_key"
      /\ (forall url init tr,
             fetch this world url init tr = (Abrupt (ThrownAgon e), tr))
      /\ (forall opts tr,
             createAuthToken this world opts tr = (Abrupt (ThrownAgon e), tr))
      /\ (forall tr, revokeKey this world tr = (Abrupt (ThrownAgon e), tr))
      /\ (forall tr, getSpendingControls this world tr = (Abrupt (ThrownAgon e), tr))
      /\ (forall controls tr,
             setSpendingControls this world controls tr = (Abrupt (ThrownAgon e), tr)).
Proof.
  intros this world Hkey.
  assert (Hauth : forall tr,
             requireAuth this tr
             = (Abrupt (ThrownAgon
                          (new_AgonError 401 (JStr "invalid_api_key")
                             (JStr "API key not set. Call register() first or setApiKey() with an existing key.")
                             JUndefined)), tr)).
  { intros tr. unfold requireAuth. destruct Hkey as [-> | ->]; reflexivity. }
  exists (new_AgonError 401 (JStr "invalid_api_key")
            (JStr "API key not set. Call register() first or setApiKey() with an existing key.")
            JUndefined).
  split; [reflexivity |]. split; [reflexivity |].
  repeat split; intros.
  - unfold fetch, bind. rewrite Hauth. reflexivity.
  - unfold createAuthToken, bind. rewrite Hauth. reflexivity.
  - unfold revokeKey, bind. rewrite Hauth. reflexivity.
  - unfold getSpendingControls, bind. rewrite Hauth. reflexivity.
  - unfold setSpendingControls, bind. rewrite Hauth. reflexivity.
Qed.

Lemma no_key_no_request_witness :
  exists e,
    statusCode e = 401 /\ code e = JStr "invalid_api_key"
    /\ fetch keyless_consumer (consumer_world free_merchant) merchant_url None []
       = (Abrupt (ThrownAgon e), []).
Proof.
  destruct (no_key_no_request keyless_consumer (consumer_world free_merchant)
              (or_introl eq_refl)) as (e & Hst & Hcode & Hfetch & _).
  exists e. split; [exact Hst |]. split; [exact Hcode |]. apply Hfetch.
Defined.

Section TokenIssuance.
Variable this : AgonClient.
Variable world : World.

(** Issuing a token is at most one request, to [/account/create-token],
    and fails with an [AgonError] only. *)
Lemma createAuthToken_history opts tr :
  exists r,
    (createAuthToken this world opts tr = (r, tr)
     \/ createAuthToken this world opts tr
        = (r, tr ++ [Requested "POST" "/account/create-token" (request_headers this)
                       (Some (create_token_body opts))]))
    /\ match r with
       | Normal _ => True
       | Abrupt t => instanceof_AgonError t = true
       end.
Proof.
  unfold createAuthToken, bind.
  destruct (requireAuth_pure this tr) as [-> | [e ->]].
  - unfold post.
    destruct (request_appends this world "POST" "/account/create-token"
                (Some (create_token_body opts)) tr) as (r & Hr & Hagon).
    exists r. split; [right; exact Hr | exact Hagon].
  - eexists. split; [left; reflexivity | reflexivity].
Qed.

End TokenIssuance.

(** X14.  A response whose status is not 402 is returned as it came, after
    one token request and one dispatch.  The dispatched headers are the
    caller's (names in lower case) with [x-agon-token] set to the token
    just issued, over whatever the caller had put under that name; no
    other header is added or changed, so the API key is not sent to the
    merchant. *)
Theorem served_response_unchanged :
  forall this world url init created tr1 token res,
    let hdrs := headers_set CONSUMER_TOKEN (ToString token) (new_Headers init) in
    createAuthToken this world (Some no_opts) [] = (Normal created, tr1) ->
    get_prop created "token" = Normal token ->
    merchant world tr1 url (init_method_of init) hdrs (init_body_of init) = Normal res ->
    status res <> 402 ->
    fetch this world url init []
    = (Normal res, tr1 ++ [Dispatched url (init_method_of init) hdrs (init_body_of init)])
    /\ hdrs !! "x-agon-token" = Some (ToString token)
    /\ (forall name, name <> "x-agon-token" -> hdrs !! name = new_Headers init !! name).
Proof.
  intros this world url init created tr1 token res hdrs Hcreated Htoken Hres Hstatus.
  split; [| split].
  - unfold fetch.
    unfold bind at 1. rewrite (createAuthToken_requires_auth _ _ _ _ _ _ Hcreated).
    unfold bind at 1. rewrite Hcreated.
    unfold bind at 1. unfold lift at 1. rewrite Htoken.
    unfold bind at 1. unfold dispatch, perform. fold hdrs. rewrite Hres.
    destruct (Z.eqb_spec (status res) 402) as [Heq | _]; [contradiction |].
    reflexivity.
  - subst hdrs. unfold headers_set.
    change (toLowerCase CONSUMER_TOKEN) with "x-agon-token".
    apply lookup_insert_eq.
  - intros name Hname. subst hdrs. unfold headers_set.
    change (toLowerCase CONSUMER_TOKEN) with "x-agon-token".
    apply lookup_insert_ne. congruence.
Qed.

Lemma served_response_unchanged_witness :
  fetch consumer (consumer_world free_merchant) merchant_url None []
  = (Normal (plain 200 (JStr "free content")),
     [ Requested "POST" "/account/create-token" (request_headers consumer)
         (Some (create_token_body (Some no_opts))) ]
     ++ [ Dispatched merchant_url None
            (headers_set CONSUMER_TOKEN "tok_1" (new_Headers None)) None ]).
Proof.
  refine (proj1 (served_response_unchanged consumer (consumer_world free_merchant)
                   merchant_url None
                   (JObj [("token", JStr "tok_1"); ("expires_in", JInt 60)])
                   _ (JStr "tok_1") (plain 200 (JStr "free content")) _ _ _ _));
    [reflexivity | reflexivity | reflexivity | discriminate].
Defined.

(** X15.  When no token can be issued, [fetch] throws the [AgonError] of
    the token request and the merchant is never contacted: the history
    holds at most that one request to the backend. *)
Theorem no_token_no_dispatch :
  forall this world url init thrown tr1,
    createAuthToken this world (Some no_opts) [] = (Abrupt thrown, tr1) ->
    fetch this world url init [] = (Abrupt thrown, tr1)
    /\ (exists e, thrown = ThrownAgon e)
    /\ count Dispatches tr1 = 0%nat.
Proof.
  intros this world url init thrown tr1 Hcreated.
  destruct (createAuthToken_history this world (Some no_opts) [])
    as (r & Hrun & Hagon).
  assert (Hshape : r = Abrupt thrown
                   /\ (tr1 = []
                       \/ tr1 = [Requested "POST" "/account/create-token"
                                   (request_headers this)
                                   (Some (create_token_body (Some no_opts)))])).
  { destruct Hrun as [Hrun | Hrun]; rewrite Hcreated in Hrun;
      injection Hrun as <- <-; auto. }
  destruct Hshape as [-> Htr]. split; [| split].
  - unfold fetch. unfold bind at 1.
    destruct (requireAuth_pure this []) as [Hok | [e He]]; rewrite ?Hok, ?He.
    + unfold bind at 1. rewrite Hcreated. reflexivity.
    + unfold createAuthToken, bind in Hcreated. rewrite He in Hcreated.
      injection Hcreated as <- <-. reflexivity.
  - destruct thrown; try discriminate. eauto.
  - destruct Htr as [-> | ->]; reflexivity.
Qed.

Lemma no_token_no_dispatch_witness :
  exists thrown,
    fetch consumer offline_world merchant_url None []
    = (Abrupt thrown,
       [ Requested "POST" "/account/create-token" (request_headers consumer)
           (Some (create_token_body (Some no_opts))) ])
    /\ (exists e, thrown = ThrownAgon e).
Proof.
  eexists.
  destruct (no_token_no_dispatch consumer offline_world merchant_url None _ _ eq_refl)
    as (Hrun & Hagon & _).
  split; [exact Hrun | exact Hagon].
Defined.


(** X16.  The override is given up, with the original denial thrown and
    neither a signature nor a token nor a second dispatch, when the
    callback answers anything but "approve" or when the denial names no
    message to sign (the callback is asked all the same).  What the
    callback throws is thrown on, and a client with neither signer nor
    wallet fails with [validation_error] 400 after the callback has
    approved. *)
Theorem override_given_up :
  forall this world url init error tr callback,
    let question := limit_question error in
    let asked := tr ++ [Asked question] in
    onLimitExceeded this = Some callback ->
    (forall decision,
        callback question tr = Normal decision ->
        is_string decision "approve" = false
        \/ truthy (getOverrideSignMessage error) = false ->
        handleSpendingLimitOverride this world url init error tr
        = (Abrupt (ThrownAgon error), asked))
    /\ (forall thrown,
           callback question tr = Abrupt thrown ->
           handleSpendingLimitOverride this world url init error tr
           = (Abrupt thrown, asked))
    /\ (callback question tr = Normal (JStr "approve") ->
        truthy (getOverrideSignMessage error) = true ->
        customSigner this = None -> wallet this = None ->
        exists e,
          handleSpendingLimitOverride this world url init error tr
          = (Abrupt (ThrownAgon e), asked)
          /\ statusCode e = 400 /\ code e = JStr "validation_error").
Proof.
  intros this world url init error tr callback question asked Hcb.
  split; [| split].
  - intros decision Hdecision Hwhy.
    unfold handleSpendingLimitOverride. rewrite Hcb. fold question.
    unfold bind at 1. unfold perform at 1. rewrite Hdecision.
    destruct (is_string decision "approve"); cbn [negb]; [| reflexivity].
    destruct Hwhy as [Hno | Hmsg]; [discriminate |].
    rewrite Hmsg. reflexivity.
  - intros thrown Hthrown.
    unfold handleSpendingLimitOverride. rewrite Hcb. fold question.
    unfold bind at 1. unfold perform at 1. rewrite Hthrown. reflexivity.
  - intros Hdecision Hmsg Hsigner Hwallet.
    eexists. split.
    { unfold handleSpendingLimitOverride. rewrite Hcb. fold question.
      unfold bind at 1. unfold perform at 1. rewrite Hdecision.
      change (negb (is_string (JStr "approve") "approve")) with false. cbv iota.
      rewrite Hmsg. cbn [negb].
      unfold bind at 1. unfold signOverride. rewrite Hsigner, Hwallet.
      reflexivity. }
    split; reflexivity.
Qed.

Lemma override_given_up_witness :
  handleSpendingLimitOverride cautious_consumer (consumer_world free_merchant)
    merchant_url None (new_AgonError 402 (JStr "spending_limit_exceeded")
                         (JStr "Spending limit exceeded")
                         (member limit_denial "details")) []
  = (Abrupt (ThrownAgon (new_AgonError 402 (JStr "spending_limit_exceeded")
                           (JStr "Spending limit exceeded")
                           (member limit_denial "details"))),
     [] ++ [Asked (limit_question
                     (new_AgonError 402 (JStr "spending_limit_exceeded")
                        (JStr "Spending limit exceeded")
                        (member limit_denial "details")))]).
Proof.
  refine (proj1 (override_given_up cautious_consumer (consumer_world free_merchant)
                   merchant_url None _ [] (fun _ _ => Normal (JStr "reject")) eq_refl)
            (JStr "reject") eq_refl (or_introl eq_refl)).
Defined.

(** X17.  In keypair mode the retry carries three things beside the
    caller's headers: a token issued after the signature, the detached
    signature of the exact message the denial named, and that message.  A
    served retry (any status but 402) is returned as it came. *)
Theorem keypair_override_retry :
  forall this world url init error tr callback key created tr3 retryToken retryRes,
    let question := limit_question error in
    let signMsg := getOverrideSignMessage error in
    let retryHeaders :=
      headers_set "X-AGON-OVERRIDE-MSG" (ToString signMsg)
        (headers_set "X-AGON-OVERRIDE-SIG" (sign_bs58 world key (ToString signMsg))
           (headers_set CONSUMER_TOKEN (ToString retryToken) (new_Headers init))) in
    onLimitExceeded this = Some callback ->
    callback question tr = Normal (JStr "approve") ->
    truthy signMsg = true ->
    customSigner this = None ->
    wallet this = Some {| secretKey := key |} ->
    createAuthToken this world (Some no_opts) (tr ++ [Asked question; Signed signMsg])
      = (Normal created, tr3) ->
    get_prop created "token" = Normal retryToken ->
    merchant world tr3 url (init_method_of init) retryHeaders (init_body_of init)
      = Normal retryRes ->
    status retryRes <> 402 ->
    handleSpendingLimitOverride this world url init error tr
    = (Normal retryRes,
       tr3 ++ [Dispatched url (init_method_of init) retryHeaders (init_body_of init)])
    /\ retryHeaders !! "x-agon-token" = Some (ToString retryToken)
    /\ retryHeaders !! "x-agon-override-sig" = Some (sign_bs58 world key (ToString signMsg))
    /\ retryHeaders !! "x-agon-override-msg" = Some (ToString signMsg).
Proof.
  intros this world url init error tr callback key created tr3 retryToken retryRes
    question signMsg retryHeaders Hcb Hdecision Hmsg Hsigner Hwallet Hcreated Htoken
    Hretry Hstatus.
  split; [| split; [| split]].
  - unfold handleSpendingLimitOverride. rewrite Hcb.
    fold question. fold signMsg.
    unfold bind at 1. unfold perform at 1. rewrite Hdecision.
    change (negb (is_string (JStr "approve") "approve")) with false. cbv iota.
    rewrite Hmsg. cbn [negb].
    unfold bind at 1. unfold signOverride. rewrite Hsigner, Hwallet.
    unfold perform at 1. rewrite <- app_assoc. cbn [app].
    unfold bind at 1. rewrite Hcreated.
    unfold bind at 1. unfold lift at 1. rewrite Htoken.
    unfold bind at 1. unfold lift at 1.
    change (get_prop (JObj [("signature", JStr (sign_bs58 world (secretKey {| secretKey := key |}) (ToString signMsg)));
                            ("message", signMsg)]) "signature")
      with (Normal (A := JVal) (JStr (sign_bs58 world key (ToString signMsg)))).
    unfold bind at 1. unfold lift at 1.
    change (get_prop (JObj [("signature", JStr (sign_bs58 world (secretKey {| secretKey := key |}) (ToString signMsg)));
                            ("message", signMsg)]) "message")
      with (Normal (A := JVal) signMsg).
    unfold bind at 1. unfold dispatch, perform.
    change (ToString (JStr (sign_bs58 world key (ToString signMsg))))
      with (sign_bs58 world key (ToString signMsg)).
    fold retryHeaders. rewrite Hretry.
    destruct (Z.eqb_spec (status retryRes) 402) as [Heq | _]; [contradiction |].
    reflexivity.
  - subst retryHeaders. unfold headers_set.
    change (toLowerCase CONSUMER_TOKEN) with "x-agon-token".
    change (toLowerCase "X-AGON-OVERRIDE-MSG") with "x-agon-override-msg".
    change (toLowerCase "X-AGON-OVERRIDE-SIG") with "x-agon-override-sig".
    rewrite lookup_insert_ne by discriminate.
    rewrite lookup_insert_ne by discriminate.
    apply lookup_insert_eq.
  - subst retryHeaders. unfold headers_set.
    change (toLowerCase CONSUMER_TOKEN) with "x-agon-token".
    change (toLowerCase "X-AGON-OVERRIDE-MSG") with "x-agon-override-msg".
    change (toLowerCase "X-AGON-OVERRIDE-SIG") with "x-agon-override-sig".
    rewrite lookup_insert_ne by discriminate.
    apply lookup_insert_eq.
  - subst retryHeaders. unfold headers_set.
    change (toLowerCase "X-AGON-OVERRIDE-MSG") with "x-agon-override-msg".
    apply lookup_insert_eq.
Qed.

Lemma keypair_override_retry_witness :
  let denial := new_AgonError 402 (JStr "spending_limit_exceeded")
                  (JStr "Spending limit exceeded") (member limit_denial "details") in
  let paid := plain 200 (JStr "paid content") in
  (handleSpendingLimitOverride consumer (consumer_world (limiting_merchant paid))
     merchant_url None denial []).1 = Normal paid.
Proof.
  intros denial paid.
  edestruct (keypair_override_retry consumer (consumer_world (limiting_merchant paid))
               merchant_url None denial [] approve_under_five "sk_1") as [Hrun _].
  - reflexivity.
  - reflexivity.
  - reflexivity.
  - reflexivity.
  - reflexivity.
  - lazy. reflexivity.
  - reflexivity.
  - reflexivity.
  - discriminate.
  - rewrite Hrun. reflexivity.
Defined.

(** *** Counting what a call uses *)

Lemma count_app k a b : count k (a ++ b) = (count k a + count k b)%nat.
Proof. unfold count. rewrite List.filter_app, length_app. reflexivity. Qed.

Lemma count_single k e : count k [e] = weight k e.
Proof. unfold count, weight. cbn. destruct (is_kind k e); reflexivity. Qed.

Section Tally.
Context {A B : Type}.
Variable k : Kind.

Lemma bounded_pure n (c : Eff Event A) :
  (forall tr, exists r, c tr = (r, tr)) -> bounded k n c.
Proof.
  intros Hc tr. destruct (Hc tr) as [r ->].
  exists r, []. rewrite app_nil_r. split; [reflexivity | cbn; lia].
Qed.

Lemma bounded_ret n (a : A) : bounded k n (ret a).
Proof. apply bounded_pure. intros tr. eexists. reflexivity. Qed.

Lemma bounded_throw n t : bounded k n (throw (A := A) t).
Proof. apply bounded_pure. intros tr. eexists. reflexivity. Qed.

Lemma bounded_lift n (c : Completion A) : bounded k n (lift c).
Proof. apply bounded_pure. intros tr. eexists. reflexivity. Qed.

Lemma bounded_perform e (answer : list Event -> Completion A) :
  bounded k (weight k e) (perform e answer).
Proof.
  intros tr. exists (answer tr), [e]. split; [reflexivity |].
  rewrite count_single. lia.
Qed.

Lemma bounded_mono n m (c : Eff Event A) :
  bounded k n c -> (n <= m)%nat -> bounded k m c.
Proof.
  intros Hc Hle tr. destruct (Hc tr) as (r & evs & -> & Hevs).
  exists r, evs. split; [reflexivity | lia].
Qed.

Lemma bounded_attempt n (c : Eff Event A) : bounded k n c -> bounded k n (attempt c).
Proof.
  intros Hc tr. unfold attempt. destruct (Hc tr) as (r & evs & -> & Hevs).
  exists (Normal r), evs. auto.
Qed.

(** What the first part used is no longer there for the rest. *)
Lemma bounded_bind n1 n (c : Eff Event A) (f : A -> Eff Event B) :
  bounded k n1 c -> (n1 <= n)%nat -> (forall a, bounded k (n - n1) (f a)) ->
  bounded k n (bind c f).
Proof.
  intros Hc Hle Hf tr. unfold bind.
  destruct (Hc tr) as (r & evs & -> & Hevs).
  destruct r as [a | t].
  - destruct (Hf a (tr ++ evs)) as (r' & evs' & -> & Hevs').
    exists r', (evs ++ evs'). rewrite app_assoc. split; [reflexivity |].
    rewrite count_app. lia.
  - exists (Abrupt t), evs. split; [reflexivity | lia].
Qed.

Lemma bounded_try_catch n1 n (c : Eff Event A) (h : Thrown -> Eff Event A) :
  bounded k n1 c -> (n1 <= n)%nat -> (forall t, bounded k (n - n1) (h t)) ->
  bounded k n (try_catch c h).
Proof.
  intros Hc Hle Hh tr. unfold try_catch.
  destruct (Hc tr) as (r & evs & -> & Hevs).
  destruct r as [a | t].
  - exists (Normal a), evs. split; [reflexivity | lia].
  - destruct (Hh t (tr ++ evs)) as (r' & evs' & -> & Hevs').
    exists r', (evs ++ evs'). rewrite app_assoc. split; [reflexivity |].
    rewrite count_app. lia.
Qed.

End Tally.

Section Costs.
Variable this : AgonClient.
Variable world : World.
Variable k : Kind.

Lemma request_bounded method path payload :
  bounded k (weight k (Requested method path (request_headers this) payload))
    (request this world method path payload).
Proof.
  intros tr. destruct (request_appends this world method path payload tr) as (r & -> & _).
  exists r, [Requested method path (request_headers this) payload].
  split; [reflexivity |]. rewrite count_single. lia.
Qed.

Lemma requireAuth_bounded : bounded k 0 (requireAuth this).
Proof.
  apply bounded_pure. intros tr.
  destruct (requireAuth_pure this tr) as [-> | [e ->]]; eauto.
Qed.

Lemma createAuthToken_bounded opts :
  bounded k (weight k (Requested "POST" "/account/create-token" (request_headers this)
                         (Some (create_token_body opts))))
    (createAuthToken this world opts).
Proof.
  unfold createAuthToken.
  eapply bounded_bind; [apply requireAuth_bounded | lia |].
  intros _. rewrite Nat.sub_0_r. apply request_bounded.
Qed.

Lemma signOverride_bounded msg :
  bounded k (weight k (Signed msg)) (signOverride this world msg).
Proof.
  unfold signOverride.
  destruct (customSigner this); [apply bounded_perform |].
  destruct (wallet this); [apply bounded_perform | apply bounded_throw].
Qed.

Lemma dispatch_bounded url init hdrs :
  bounded k (weight k (Dispatched url (init_method_of init) hdrs (init_body_of init)))
    (dispatch world url init hdrs).
Proof. apply bounded_perform. Qed.

(** A request followed by pure work costs what the request costs. *)
Lemma request_then_pure {A} method path payload (f : JVal -> Completion A) :
  bounded k (weight k (Requested method path (request_headers this) payload))
    (bind (request this world method path payload) (fun r => lift (f r))).
Proof.
  eapply bounded_bind; [apply request_bounded | lia |].
  intros r. apply bounded_lift.
Qed.

End Costs.

(** Spends the budget of a computation, one construct at a time. *)
Ltac settle_budget :=
  match goal with
  | |- bounded _ ?n _ => let m := eval vm_compute in n in change n with m
  end.

Ltac priced :=
  first
    [ apply requireAuth_bounded
    | apply createAuthToken_bounded
    | apply signOverride_bounded
    | apply dispatch_bounded
    | apply request_then_pure
    | apply request_bounded
    | apply bounded_perform
    | apply bounded_attempt; apply (bounded_lift _ 0)
    | apply (bounded_lift _ 0) ].

Ltac tally :=
  repeat first
    [ apply bounded_ret
    | apply bounded_throw
    | apply bounded_lift
    | eapply bounded_bind; [solve [priced] | vm_compute; lia | intros ?; settle_budget]
    | eapply bounded_try_catch; [solve [priced] | vm_compute; lia | intros ?; settle_budget]
    | eapply bounded_mono; [solve [priced] | vm_compute; lia]
    | match goal with
      | |- bounded _ _ (if ?b then _ else _) => destruct b
      | |- bounded _ _ (match ?x with _ => _ end) => destruct x
      end ].

Section Limits.
Variable this : AgonClient.
Variable world : World.

Lemma handleSpendingLimitOverride_bounded k url init error :
  bounded k (retry_limit k) (handleSpendingLimitOverride this world url init error).
Proof. destruct k; unfold handleSpendingLimitOverride; settle_budget; tally. Qed.

Lemma proxyX402_bounded k url init paymentRequired :
  bounded k (passthrough_limit k) (proxyX402 this world url init paymentRequired).
Proof. destruct k; unfold proxyX402; settle_budget; tally. Qed.

Lemma fetch_bounded k url init :
  bounded k (fetch_limit k) (fetch this world url init).
Proof.
  destruct k; unfold fetch; settle_budget;
    repeat first
      [ eapply bounded_mono;
        [solve [apply handleSpendingLimitOverride_bounded | apply proxyX402_bounded]
        | vm_compute; lia]
      | progress tally ].
Qed.

End Limits.

(** X18.  A paid fetch never loops.  Whatever the backend, the merchant,
    the callback and the signer answer, one call of [fetch] issues at most
    two tokens, sends the merchant at most two requests, asks the
    consumer at most once, signs at most once and posts to [/proxy] at
    most twice. *)
Theorem fetch_never_loops :
  forall this world url init,
    let tr := (fetch this world url init []).2 in
    (count Tokens tr <= 2)%nat
    /\ (count Dispatches tr <= 2)%nat
    /\ (count Questions tr <= 1)%nat
    /\ (count Signatures tr <= 1)%nat
    /\ (count ProxyPosts tr <= 2)%nat.
Proof.
  intros this world url init tr. subst tr.
  repeat split.
  - destruct (fetch_bounded this world Tokens url init []) as (r & evs & -> & H). exact H.
  - destruct (fetch_bounded this world Dispatches url init []) as (r & evs & -> & H). exact H.
  - destruct (fetch_bounded this world Questions url init []) as (r & evs & -> & H). exact H.
  - destruct (fetch_bounded this world Signatures url init []) as (r & evs & -> & H). exact H.
  - destruct (fetch_bounded this world ProxyPosts url init []) as (r & evs & -> & H). exact H.
Qed.

(** *** The x402 passthrough *)

Section PassthroughRuns.
Variable this : AgonClient.
Variable world : World.
Variable url : string.
Variable init : option RequestInit.
Variable paymentRequired : string.
Variable tr : list Event.

(** X19.  The passthrough posts to [/proxy] once when the backend answers
    or refuses for good.  What the backend resolves with is turned into
    the response, and what [new Response] throws on a bad status or a
    missing body is thrown on; an
    [AgonError] that is not an overridable spending limit, or any
    [AgonError] when the consumer gave no callback, is thrown as it
    came. *)
Theorem passthrough_single_post :
  let started := tr ++ [ClockRead; RandomRead] in
  let payload :=
    proxy_body url init (toBase64 paymentRequired) (proxy_request_id world tr) in
  let first :=
    Requested "POST" "/proxy" (request_headers this) (Some (JObj payload)) in
  (forall data,
      post this world "/proxy" (JObj payload) started = (Normal data, started ++ [first]) ->
      (forall e, response_of_proxy world data <> Abrupt (ThrownAgon e)) ->
      proxyX402 this world url init paymentRequired tr
      = (response_of_proxy world data, started ++ [first]))
  /\ (forall err,
         post this world "/proxy" (JObj payload) started
         = (Abrupt (ThrownAgon err), started ++ [first]) ->
         isSpendingLimitExceeded err = false \/ isOverrideAvailable err = false
         \/ onLimitExceeded this = None ->
         proxyX402 this world url init paymentRequired tr
         = (Abrupt (ThrownAgon err), started ++ [first])).
Proof.
  intros started payload first.
  pose proof (proxyX402_started this world url init paymentRequired tr) as Hstart. cbv zeta in Hstart.
  fold started in Hstart. fold payload in Hstart.
  split.
  - intros data Hpost Hplain. rewrite Hstart.
    unfold try_catch, bind at 1. rewrite Hpost. unfold lift.
    destruct (response_of_proxy world data) as [r | t]; [reflexivity |].
    destruct t; try reflexivity. destruct (Hplain e eq_refl).
  - intros err Hpost Hwhy. rewrite Hstart.
    unfold try_catch, bind at 1. rewrite Hpost.
    destruct Hwhy as [H | [H | H]].
    + rewrite H. reflexivity.
    + rewrite H, orb_true_r. reflexivity.
    + rewrite H. destruct (negb _ || negb _); reflexivity.
Qed.

(** X20.  After an approved override the passthrough posts the same
    payload again with one field added: [override], holding the signature
    of the message the denial named and that message.  Every other field
    of the retry reads as in the first request, and whatever the retry
    comes to is the outcome: there is no third attempt. *)
Theorem passthrough_retry_payload :
  let started := tr ++ [ClockRead; RandomRead] in
  let payload :=
    proxy_body url init (toBase64 paymentRequired) (proxy_request_id world tr) in
  let first :=
    Requested "POST" "/proxy" (request_headers this) (Some (JObj payload)) in
  forall err callback key,
    let signMsg := getOverrideSignMessage err in
    let override :=
      JObj [("signature", JStr (sign_bs58 world key (ToString signMsg)));
            ("message", signMsg)] in
    let retryPayload := JObj (payload ++ [("override", override)]) in
    let signed := started ++ [first; Asked (limit_question err); Signed signMsg] in
    post this world "/proxy" (JObj payload) started
    = (Abrupt (ThrownAgon err), started ++ [first]) ->
    isSpendingLimitExceeded err = true ->
    isOverrideAvailable err = true ->
    onLimitExceeded this = Some callback ->
    callback (limit_question err) (started ++ [first]) = Normal (JStr "approve") ->
    truthy signMsg = true ->
    customSigner this = None ->
    wallet this = Some {| secretKey := key |} ->
    proxyX402 this world url init paymentRequired tr
    = bind (post this world "/proxy" retryPayload)
        (fun retryResult => lift (response_of_proxy world retryResult)) signed
    /\ member retryPayload "override" = override
    /\ (forall name, name <> "override" ->
                     member retryPayload name = member (JObj payload) name).
Proof.
  intros started payload first err callback key signMsg override retryPayload signed
    Hpost Hlimit Havailable Hcb Hdecision Hmsg Hsigner Hwallet.
  pose proof (proxyX402_started this world url init paymentRequired tr) as Hstart. cbv zeta in Hstart.
  fold started in Hstart. fold payload in Hstart.
  split; [| split].
  - rewrite Hstart.
    unfold try_catch, bind at 1. rewrite Hpost.
    rewrite Hlimit, Havailable. cbn [negb orb]. rewrite Hcb.
    fold signMsg.
    unfold bind at 1. unfold perform at 1. rewrite Hdecision.
    change (negb (is_string (JStr "approve") "approve")) with false. cbv iota.
    rewrite Hmsg. cbn [negb].
    unfold bind at 1. unfold signOverride. rewrite Hsigner, Hwallet.
    unfold perform at 1.
    unfold bind at 1. unfold lift at 1.
    change (get_prop (JObj [("signature", JStr (sign_bs58 world (secretKey {| secretKey := key |}) (ToString signMsg)));
                            ("message", signMsg)]) "signature")
      with (Normal (A := JVal) (JStr (sign_bs58 world key (ToString signMsg)))).
    unfold bind at 1. unfold lift at 1.
    change (get_prop (JObj [("signature", JStr (sign_bs58 world (secretKey {| secretKey := key |}) (ToString signMsg)));
                            ("message", signMsg)]) "message")
      with (Normal (A := JVal) signMsg).
    subst signed. rewrite <- !app_assoc. reflexivity.
  - subst retryPayload. unfold member.
    change (payload ++ [("override", override)]) with (obj_set "override" override payload).
    rewrite obj_get_set. reflexivity.
  - intros name Hname. subst retryPayload. unfold member.
    change (payload ++ [("override", override)]) with (obj_set "override" override payload).
    rewrite obj_get_set.
    destruct (String.eqb_spec "override" name) as [Heq | _]; [| reflexivity].
    symmetry in Heq. contradiction.
Qed.

End PassthroughRuns.

Lemma passthrough_single_post_witness :
  exists e,
    (proxyX402 consumer offline_world merchant_url None "x402-challenge" []).1
    = Abrupt (ThrownAgon e)
    /\ statusCode e = 502.
Proof.
  eexists. split.
  - erewrite (proj2 (passthrough_single_post consumer offline_world merchant_url None
                       "x402-challenge" [])).
    + reflexivity.
    + lazy. reflexivity.
    + left. reflexivity.
  - reflexivity.
Defined.

Lemma passthrough_retry_payload_witness :
  (proxyX402 consumer (consumer_world x402_merchant) merchant_url None
     "x402-challenge" []).1
  = Normal (plain 200 (JStr "paid content")).
Proof.
  edestruct (passthrough_retry_payload consumer (consumer_world x402_merchant)
               merchant_url None "x402-challenge" []
               (AgonError_of_body 403 limit_denial) approve_under_five "sk_1")
    as [Hrun _].
  - vm_compute. reflexivity.
  - reflexivity.
  - reflexivity.
  - reflexivity.
  - reflexivity.
  - reflexivity.
  - reflexivity.
  - reflexivity.
  - rewrite Hrun. vm_compute. reflexivity.
Defined.

(** *** The life of an API key *)

Lemma requireAuth_locked this tr :
  apiKey this = None ->
  requireAuth this tr
  = (Abrupt (ThrownAgon
               (new_AgonError 401 (JStr "invalid_api_key")
                  (JStr "API key not set. Call register() first or setApiKey() with an existing key.")
                  JUndefined)), tr).
Proof. intros Hk. unfold requireAuth. rewrite Hk. reflexivity. Qed.

(** X21.  A key that was revoked locks the client.  [revokeKey] resolves
    after exactly one [POST /keys/revoke] sent under the old key; from then
    on [fetch] and [createAuthToken] throw 401 before any request, although
    the HTTP client still holds the revoked key.  When the backend refuses
    the revocation the call rejects with an [AgonError]. *)
Theorem revoked_key_locks_client :
  forall this world key tr,
    apiKey this = Some key -> key <> "" ->
    let sent := tr ++ [Requested "POST" "/keys/revoke" (request_headers this)
                         (Some (JObj []))] in
    (exists after,
        revokeKey this world tr = (Normal after, sent)
        /\ http_apiKey after = http_apiKey this
        /\ (forall url init tr',
               exists e, fetch after world url init tr' = (Abrupt (ThrownAgon e), tr')
                         /\ statusCode e = 401)
        /\ (forall opts tr',
               exists e, createAuthToken after world opts tr' = (Abrupt (ThrownAgon e), tr')
                         /\ statusCode e = 401))
    \/ (exists e, revokeKey this world tr = (Abrupt (ThrownAgon e), sent)).
Proof.
  intros this world key tr Hkey Hne sent.
  assert (Hstart : revokeKey this world tr
                   = bind (post this world "/keys/revoke" (JObj []))
                       (fun _ => ret {| baseUrl := baseUrl this;
                                        http_apiKey := http_apiKey this;
                                        http_timeout := http_timeout this;
                                        wallet := wallet this;
                                        apiKey := None;
                                        onLimitExceeded := onLimitExceeded this;
                                        customSigner := customSigner this |}) tr).
  { unfold revokeKey. unfold bind at 1.
    rewrite (requireAuth_with_key this key tr Hkey Hne). reflexivity. }
  rewrite Hstart. unfold bind, post.
  destruct (request_appends this world "POST" "/keys/revoke" (Some (JObj [])) tr)
    as (r & -> & Hr).
  destruct r as [data | t].
  - left. eexists. split; [reflexivity |]. split; [reflexivity |].
    split.
    + intros url init tr'. eexists. split.
      * unfold fetch. unfold bind at 1. rewrite requireAuth_locked by reflexivity.
        reflexivity.
      * reflexivity.
    + intros opts tr'. eexists. split.
      * unfold createAuthToken. unfold bind at 1.
        rewrite requireAuth_locked by reflexivity. reflexivity.
      * reflexivity.
  - right. destruct t; try discriminate. eexists. reflexivity.
Qed.

Lemma revoked_key_locks_client_witness :
  exists after,
    revokeKey consumer revoking_world []
    = (Normal after,
       [] ++ [Requested "POST" "/keys/revoke" (request_headers consumer)
                (Some (JObj []))])
    /\ http_apiKey after = Some "ak_1"
    /\ exists e,
         fetch after revoking_world merchant_url None [] = (Abrupt (ThrownAgon e), [])
         /\ statusCode e = 401.
Proof.
  destruct (revoked_key_locks_client consumer revoking_world "ak_1" [] eq_refl
              ltac:(discriminate)) as [(after & Hrun & Hhttp & Hfetch & _) | (e & Hrun)].
  - exists after. split; [exact Hrun |]. split; [exact Hhttp |].
    apply (Hfetch merchant_url None []).
  - assert (Hresolves : match (revokeKey consumer revoking_world []).1 with
                        | Normal _ => True
                        | Abrupt _ => False
                        end) by (vm_compute; exact I).
    rewrite Hrun in Hresolves. destruct Hresolves.
Defined.

(** X22.  [setApiKey] takes effect on both the client and its HTTP client:
    with a non-empty key the next token request is sent, and it carries
    that key in [X-AGON-KEY] beside the content type, whatever key the
    client held before.  Setting the empty string locks the client. *)
Theorem setApiKey_takes_effect :
  forall this world key opts tr,
    (key <> "" ->
     exists r,
       createAuthToken (setApiKey this key) world opts tr
       = (r, tr ++ [Requested "POST" "/account/create-token"
                      [("Content-Type", "application/json"); ("X-AGON-KEY", key)]
                      (Some (create_token_body opts))]))
    /\ (key = "" ->
        exists e,
          createAuthToken (setApiKey this key) world opts tr = (Abrupt (ThrownAgon e), tr)
          /\ statusCode e = 401).
Proof.
  intros this world key opts tr. split.
  - intros Hne. unfold createAuthToken. unfold bind at 1.
    rewrite (requireAuth_with_key (setApiKey this key) key tr eq_refl Hne).
    unfold post.
    destruct (request_appends (setApiKey this key) world "POST" "/account/create-token"
                (Some (create_token_body opts)) tr) as (r & Hrun & _).
    exists r. rewrite Hrun. unfold request_headers. cbn [http_apiKey setApiKey].
    destruct (String.eqb_spec key ""); [contradiction | reflexivity].
  - intros ->. eexists. split.
    + unfold createAuthToken. unfold bind at 1. reflexivity.
    + reflexivity.
Qed.

Lemma setApiKey_takes_effect_witness :
  exists r,
    createAuthToken (setApiKey keyless_consumer "ak_2") offline_world None []
    = (r, [] ++ [Requested "POST" "/account/create-token"
                   [("Content-Type", "application/json"); ("X-AGON-KEY", "ak_2")]
                   (Some (create_token_body None))]).
Proof.
  apply (proj1 (setApiKey_takes_effect keyless_consumer offline_world "ak_2" None [])).
  discriminate.
Defined.

(** X23.  The body of a spending-control update tells updates apart: two
    updates that differ in any field, be it given or left out, or in
    [proxyAllowedDomains] being [null] rather than absent, are sent as
    different bodies. *)
Theorem spending_controls_body_faithful :
  forall a b, spending_controls_body a = spending_controls_body b -> a = b.
Proof.
  intros [m1 d1 p1 l1] [m2 d2 p2 l2]. unfold spending_controls_body, given. cbn.
  intros H.
  assert (Hdom : forall x y : list string, JStr <$> x = JStr <$> y -> x = y).
  { induction x as [| a x IH]; intros [| b y] Hxy; try discriminate; [reflexivity |].
    cbn in Hxy. injection Hxy as -> Hrest. f_equal. auto. }
  destruct m1, m2, d1, d2, p1, p2, l1 as [[x |] |], l2 as [[y |] |];
    cbn in H; try discriminate H; try reflexivity;
    injection H; intros; subst; try reflexivity;
    repeat match goal with
           | Hxy : JStr <$> _ = JStr <$> _ |- _ => apply Hdom in Hxy; subst
           end; reflexivity.
Qed.

Lemma spending_controls_body_faithful_witness :
  spending_controls_body
    {| maxPerRequest := Some (Finite 1000000); dailySpendingLimit := None;
       proxyEnabled := None; proxyAllowedDomains := Some None |}
  <> spending_controls_body
       {| maxPerRequest := Some (Finite 1000000); dailySpendingLimit := None;
          proxyEnabled := None; proxyAllowedDomains := None |}.
Proof.
  intros Hsame. apply spending_controls_body_faithful in Hsame. discriminate Hsame.
Defined.

(** X24.  What [fetch] does with a token reply it cannot use.  When the
    backend resolves the token request with [null], [fetch] throws a
    [TypeError] and the merchant is not contacted.  When the reply is an
    object without [token], the request goes out all the same, with the
    text [undefined] as its [x-agon-token], and a served response is
    returned. *)
Theorem malformed_token_reply :
  forall this world url init created tr1,
    createAuthToken this world (Some no_opts) [] = (Normal created, tr1) ->
    (is_nullish created = true ->
     (exists what, fetch this world url init [] = (Abrupt (TypeError what), tr1))
     /\ count Dispatches tr1 = 0%nat)
    /\ (forall res,
           let hdrs := headers_set CONSUMER_TOKEN "undefined" (new_Headers init) in
           is_nullish created = false -> member created "token" = JUndefined ->
           merchant world tr1 url (init_method_of init) hdrs (init_body_of init)
           = Normal res ->
           status res <> 402 ->
           fetch this world url init []
           = (Normal res,
              tr1 ++ [Dispatched url (init_method_of init) hdrs (init_body_of init)])).
Proof.
  intros this world url init created tr1 Hcreated.
  pose proof (createAuthToken_requires_auth _ _ _ _ _ _ Hcreated) as Hauth.
  split.
  - intros Hnull. split.
    + unfold fetch.
      unfold bind at 1. rewrite Hauth.
      unfold bind at 1. rewrite Hcreated.
      unfold bind at 1. unfold lift at 1, get_prop. rewrite Hnull.
      eexists. reflexivity.
    + destruct (createAuthToken_history this world (Some no_opts) [])
        as (r & [Hrun | Hrun] & _); rewrite Hcreated in Hrun;
        injection Hrun as _ ->; reflexivity.
  - intros res hdrs Hobj Hmissing Hres Hstatus.
    unfold fetch.
    unfold bind at 1. rewrite Hauth.
    unfold bind at 1. rewrite Hcreated.
    unfold bind at 1. unfold lift at 1, get_prop. rewrite Hobj, Hmissing.
    change (ToString JUndefined) with "undefined". fold hdrs.
    unfold bind at 1. unfold dispatch, perform. rewrite Hres.
    destruct (Z.eqb_spec (status res) 402) as [Heq | _]; [contradiction |].
    reflexivity.
Qed.

Lemma malformed_token_reply_witness :
  exists what,
    fetch consumer
      {| now := now offline_world; random_suffix := random_suffix offline_world;
         backend := fun _ _ _ _ => Replied (plain 200 JNull);
         merchant := merchant offline_world; stringify := stringify offline_world;
         new_Response := new_Response offline_world;
         sign_bs58 := sign_bs58 offline_world |}
      merchant_url None []
    = (Abrupt (TypeError what),
       [Requested "POST" "/account/create-token" (request_headers consumer)
          (Some (create_token_body (Some no_opts)))]).
Proof.
  refine (proj1 (proj1 (malformed_token_reply consumer _ merchant_url None JNull _ _) _)).
  - reflexivity.
  - reflexivity.
Defined.

(** *** The consumer's HTTP client *)

Section ConsumerTransport.
Variable this : AgonClient.
Variable world : World.

(** X25.  What the consumer's [request] makes of each answer of the
    network, for [get] and [post] alike.  A timeout is an [AgonError] 504
    that names the configured timeout, an unreachable host an [AgonError]
    502 that names the URL, a 2xx reply resolves with its parsed body, and
    a reply outside 2xx with a truthy [error] is the [AgonError] of that
    body under the reply's status.  A reply outside 2xx whose body is
    [null] or not JSON is reported as 502, not under its own status.  One
    request was sent in every case. *)
Theorem request_outcomes method path payload tr :
  let url := baseUrl this +:+ path in
  let sent := tr ++ [Requested method path (request_headers this) payload] in
  (backend world tr method url payload = TimedOut ->
   request this world method path payload tr
   = (Abrupt (ThrownAgon
                (new_AgonError 504 (JStr "internal_error")
                   (JStr ("Agon API request timed out after "
                          +:+ show_Z (http_timeout this) +:+ "ms"))
                   JUndefined)), sent))
  /\ (forall cause,
         backend world tr method url payload = Unreachable cause ->
         request this world method path payload tr
         = (Abrupt (ThrownAgon
                      (new_AgonError 502 (JStr "internal_error")
                         (JStr ("Failed to reach Agon API at " +:+ url +:+ ": " +:+ cause))
                         JUndefined)), sent))
  /\ (forall r data,
         backend world tr method url payload = Replied r -> body r = Some data ->
         ok r = true ->
         request this world method path payload tr = (Normal data, sent))
  /\ (forall r data,
         backend world tr method url payload = Replied r -> body r = Some data ->
         ok r = false -> truthy (member data "error") = true ->
         request this world method path payload tr
         = (Abrupt (ThrownAgon (AgonError_of_body (status r) data)), sent))
  /\ (forall r,
         backend world tr method url payload = Replied r ->
         ok r = false ->
         body r = None \/ body r = Some JNull \/ body r = Some JUndefined ->
         exists e,
           request this world method path payload tr = (Abrupt (ThrownAgon e), sent)
           /\ statusCode e = 502 /\ code e = JStr "internal_error").
Proof.
  cbv zeta.
  unfold request, try_catch, bind, perform, lift, throw, ret, json.
  repeat split.
  - intros H. rewrite H. reflexivity.
  - intros cause H. rewrite H. reflexivity.
  - intros r data H Hb Hok. rewrite H, Hb, Hok. reflexivity.
  - intros r data H Hb Hok Herr. rewrite H, Hb, Hok. cbn [negb].
    assert (Hn : is_nullish data = false) by (destruct data; simpl in *; congruence).
    unfold get_prop. rewrite Hn, Herr. reflexivity.
  - intros r H Hok [Hb | [Hb | Hb]]; rewrite H, Hb; try rewrite Hok; cbn [negb];
      eexists; repeat split.
Qed.

End ConsumerTransport.

Lemma request_outcomes_witness :
  exists e,
    request consumer offline_world "GET" "/account/spending-controls" None []
    = (Abrupt (ThrownAgon e),
       [] ++ [Requested "GET" "/account/spending-controls" (request_headers consumer) None])
    /\ statusCode e = 502.
Proof.
  eexists. split.
  - apply (proj1 (proj2 (request_outcomes consumer offline_world "GET"
                           "/account/spending-controls" None []))
             "connect ECONNREFUSED").
    reflexivity.
  - reflexivity.
Defined.

End ClientMore.

(** ** More about [AgonError] *)
Module ErrorsMore.
Import Js Types Samples.

Lemma remove_dups_nonempty (l : list string) : l <> [] -> remove_dups l <> [].
Proof.
  induction l as [| x l IH]; [congruence |]. intros _. cbn.
  destruct (decide_rel elem_of x l) as [Hin | Hnot]; [| discriminate].
  apply IH. intros ->. inversion Hin.
Qed.

(** X26.  [toJSON] loses nothing of an error whose details are an object:
    building an [AgonError] from the body that [toJSON] gives, under the
    same status, gives the error back.  This is what lets an interceptor
    relay a backend error to the consumer; empty details go out as no
    [details] at all and come back as the empty object. *)
Theorem toJSON_round_trip :
  forall e fields,
    details e = JObj fields ->
    AgonError_of_body (statusCode e) (toJSON e) = e.
Proof.
  intros [c st m d] fields Hd. cbn in Hd. subst d.
  unfold AgonError_of_body, toJSON, new_AgonError.
  cbn [code statusCode message details].
  change (member (JObj [("error", c); ("message", JStr m);
                        ("details", if 0 <? keys_length (JObj fields)
                                    then JObj fields else JUndefined)]) "error")
    with c.
  change (member (JObj [("error", c); ("message", JStr m);
                        ("details", if 0 <? keys_length (JObj fields)
                                    then JObj fields else JUndefined)]) "message")
    with (JStr m).
  change (member (JObj [("error", c); ("message", JStr m);
                        ("details", if 0 <? keys_length (JObj fields)
                                    then JObj fields else JUndefined)]) "details")
    with (if 0 <? keys_length (JObj fields) then JObj fields else JUndefined).
  f_equal.
  destruct fields as [| f rest]; [reflexivity |].
  destruct (Z.ltb_spec 0 (keys_length (JObj (f :: rest)))) as [_ | Hle]; [reflexivity |].
  exfalso. unfold keys_length in Hle.
  pose proof (remove_dups_nonempty ((f :: rest).*1)) as Hne.
  destruct (remove_dups ((f :: rest).*1)); [apply Hne; [discriminate | reflexivity] |].
  cbn in Hle. lia.
Qed.

Lemma toJSON_round_trip_witness :
  AgonError_of_body 402 (toJSON (AgonError_of_body 402 limit_denial))
  = AgonError_of_body 402 limit_denial.
Proof. refine (toJSON_round_trip (AgonError_of_body 402 limit_denial) _ _). reflexivity. Defined.

Lemma is_string_true v s : is_string v s = true -> v = JStr s.
Proof.
  destruct v; cbn; try discriminate.
  intros H. apply String.eqb_eq in H. congruence.
Qed.

(** X27.  An [AgonError] belongs to at most one of the three classes the
    SDK tells apart (balance, authentication, spending limit).  An
    override is on offer for spending-limit errors only, a message to sign
    is named only when an override is on offer, and
    [getOverrideSignMessage] yields [null], never [undefined], when there
    is none. *)
Theorem error_classes_exclusive :
  forall e,
    isInsufficientBalance e && isAuthError e = false
    /\ isInsufficientBalance e && isSpendingLimitExceeded e = false
    /\ isAuthError e && isSpendingLimitExceeded e = false
    /\ (isOverrideAvailable e = true -> isSpendingLimitExceeded e = true)
    /\ (truthy (getOverrideSignMessage e) = true -> isOverrideAvailable e = true)
    /\ getOverrideSignMessage e <> JUndefined.
Proof.
  intros e.
  assert (Hcases : forall a b, a <> b -> is_string (code e) a && is_string (code e) b = false).
  { intros a b Hab.
    destruct (is_string (code e) a) eqn:Ha; [| reflexivity].
    destruct (is_string (code e) b) eqn:Hb; [| reflexivity].
    apply is_string_true in Ha. apply is_string_true in Hb. congruence. }
  unfold isInsufficientBalance, isAuthError, isSpendingLimitExceeded.
  repeat split.
  - rewrite !andb_orb_distrib_l, !andb_orb_distrib_r.
    rewrite !Hcases by discriminate. reflexivity.
  - rewrite !andb_orb_distrib_l. rewrite !Hcases by discriminate. reflexivity.
  - rewrite !andb_orb_distrib_l. rewrite !Hcases by discriminate. reflexivity.
  - unfold isOverrideAvailable. intros H. apply andb_true_iff in H. tauto.
  - unfold getOverrideSignMessage.
    destruct (isOverrideAvailable e); [reflexivity | cbn; discriminate].
  - unfold getOverrideSignMessage.
    destruct (isOverrideAvailable e); cbn [negb]; [| discriminate].
    unfold nullish_or. destruct (member (details e) "sign_message"); cbn; discriminate.
Qed.

Lemma error_classes_exclusive_witness :
  isSpendingLimitExceeded (AgonError_of_body 402 limit_denial) = true.
Proof.
  apply (proj1 (proj2 (proj2 (proj2 (error_classes_exclusive
                                       (AgonError_of_body 402 limit_denial)))))).
  reflexivity.
Defined.

End ErrorsMore.
